(** * Coupon validate-and-consume engine

    A shallow embedding of the coupon micro-service's validation path:
    [service.CouponService.ValidateCoupon], the usage ledger
    ([repository.UsageRepo]) and the structs of package [models].

    - Go [float64] is Rocq's primitive binary64 [float]; every operation is
      written in the order the Go expression evaluates it.
    - Go [int] is [Z]; [time.Time] is an instant, a [Z] count of nanoseconds.
    - Go [map[string]bool] and the tables of the database are stdpp [gmap]s.
    - Outcomes of calls that leave the process (queries, the request's
      context) are read from an explicit environment, one per call.
    - ValidateCoupon is a function of that environment and of the store. Its
      step 3, the fan-out over goroutines, is given twice: as the function
      [itemChecks] of the order in which results arrive, and as a labelled
      transition system over the goroutines; [itemChecks_covers_goroutines]
      relates the two.
    - A usage transaction is a view of the table that reaches the committed
      rows at [Commit] only; transactions of one pair are ordered by the row
      lock, so a sequence of calls is run one call after the other. *)

From Stdlib Require Import ZArith Floats.
From stdpp Require Import gmap strings list fin_maps.

Local Open Scope Z_scope.
Set Warnings "-clear-no-such-hyp".

(** ** Package models *)

Module Coupon.
Record t := {
  ID : Z;
  CouponCode : string;
  ExpiryDate : Z;
  UsageType : string;
  MinOrderValue : float;
  ValidFrom : option Z;
  ValidTo : option Z;
  DiscountType : string;
  DiscountValue : float;
  MaxUsagePerUser : Z;
  TargetType : string;
  Terms : string;
  CreatedAt : Z;
  UpdatedAt : Z
}.
End Coupon.

Module CouponMeta.
Record t := {
  Coupon : Coupon.t;
  ApplicableItems : list string;
  ApplicableCategories : list string
}.
End CouponMeta.

Module CartItem.
Record t := {
  ID : string;
  Category : string;
  Price : float;
  Qty : Z
}.
End CartItem.

Module ValidationRequest.
Record t := {
  UserID : string;
  CouponCode : string;
  CartItems : list CartItem.t;
  OrderTotal : float
}.
End ValidationRequest.

Module ValidationResponse.
Record t := {
  IsValid : bool;
  Discount : float;
  Message : string
}.
End ValidationResponse.

(** Promoted fields of the embedded [Coupon] struct. *)
Coercion CouponMeta.Coupon : CouponMeta.t >-> Coupon.t.

(** ** time.Time and float64 *)

(** [t.Before(u)] and [t.After(u)]: strict comparison of instants. *)
Definition Before (t u : Z) : bool := t <? u.
Definition After (t u : Z) : bool := u <? t.

(** [float64(n)] for a Go [int]: the integer rounded to the nearest binary64. *)
Definition float64 (n : Z) : float :=
  SF2Prim (binary_normalize prec emax n 0 false).

(** [a > b] on [float64]: false as soon as one side is NaN. *)
Definition fgt (a b : float) : bool := PrimFloat.ltb b a.

(** ** The discount evaluator (step 3 of ValidateCoupon) *)

(** [m := make(map[string]bool); for _, k := range keys { m[k] = true }] *)
Definition makeSet (keys : list string) : gmap string bool :=
  foldl (fun m k => <[k := true]> m) ∅ keys.

(** [m[k]] on a [map[string]bool]: the zero value [false] when [k] is absent. *)
Definition index (m : gmap string bool) (k : string) : bool :=
  default false (m !! k).

(** [len(m)] *)
Definition len (m : gmap string bool) : nat := size m.

(** The [applies] flag a worker computes for one item. *)
Definition applies (applicableMap categoryMap : gmap string bool)
    (it : CartItem.t) : bool :=
  let applies := false in
  let applies :=
    if Nat.eqb (len applicableMap) 0 && Nat.eqb (len categoryMap) 0
    then true else applies in
  let applies := if index applicableMap (CartItem.ID it) then true else applies in
  let applies := if index categoryMap (CartItem.Category it) then true else applies in
  applies.

(** The value a worker sends on [outCh] for one item. *)
Definition itemDiscount (couponMeta : CouponMeta.t)
    (applicableMap categoryMap : gmap string bool) (it : CartItem.t) : float :=
  if applies applicableMap categoryMap it
     && String.eqb (Coupon.TargetType couponMeta) "inventory"
  then
    if String.eqb (Coupon.DiscountType couponMeta) "percentage"
    then (float64 (CartItem.Qty it) * CartItem.Price it
          * (Coupon.DiscountValue couponMeta / 100))%float
    else 0%float
  else 0%float.

(** The worker body with the two maps built from the coupon. *)
Definition worker (couponMeta : CouponMeta.t) (it : CartItem.t) : float :=
  itemDiscount couponMeta
    (makeSet (CouponMeta.ApplicableItems couponMeta))
    (makeSet (CouponMeta.ApplicableCategories couponMeta)) it.

(** [workerCount] as computed from [len(req.CartItems)]. *)
Definition workerCount (n : nat) : nat :=
  let workerCount := 4%nat in
  if Nat.ltb 0 n && Nat.ltb n workerCount then
    let workerCount := n in
    if Nat.eqb workerCount 0 then 1%nat else workerCount
  else workerCount.

(** The collector: [totalItemsDiscount += o.discount] for each result, in the
    order the results arrive. *)
Definition collect (outs : list float) : float :=
  fold_left PrimFloat.add outs 0%float.

(** ** The environment of one call *)

(** The places where ValidateCoupon leaves the process or consults its
    context, in program order. *)
Inductive Stage :=
  | AtGetCouponMeta
  | AtItemChecks
  | AtBeginTx
  | AtSelectForUpdate
  | AtInsert
  | AtIncrementUsage
  | AtCommit.

Definition stageIndex (st : Stage) : nat :=
  match st with
  | AtGetCouponMeta => 0
  | AtItemChecks => 1
  | AtBeginTx => 2
  | AtSelectForUpdate => 3
  | AtInsert => 4
  | AtIncrementUsage => 5
  | AtCommit => 6
  end%nat.

(** What one call observes from outside: the clock, which queries fail, when
    (if ever) the request's context is done, and how the scheduler interleaves
    the discount workers. *)
Record Env := {
  now : Z;                  (* time.Now().UTC() in step 2 *)
  dbNow : Z;                (* NOW() evaluated by the INSERT *)
  usedAt : Z;               (* time.Now() in IncrementUsage *)
  ioError : Stage -> bool;  (* the driver returns an error at that call *)
  ctxDone : option Stage;   (* first stage at which ctx.Done() is closed *)
  picks : list nat;         (* which pending result the collector receives next *)
  kept : nat;               (* results received before the collector saw ctx.Done() *)
  selectDone : bool         (* the final select takes the ctx.Done() branch *)
}.

(** [ctx.Done()] is closed at stage [st]: contexts never reopen. *)
Definition doneBy (env : Env) (st : Stage) : bool :=
  match ctxDone env with
  | Some st0 => Nat.leb (stageIndex st0) (stageIndex st)
  | None => false
  end.

(** A context-aware call errors when the driver fails or the context is done. *)
Definition fails (env : Env) (st : Stage) : bool :=
  ioError env st || doneBy env st.

(** The order in which the workers' results reach the collector: at each
    receive one of the items not yet collected, chosen by the scheduler. *)
Fixpoint arrival {A : Type} (picks : list nat) (pending : list A) : list A :=
  match picks with
  | [] => pending
  | k :: picks' =>
      let i := (k mod length pending)%nat in
      match pending !! i with
      | Some x => x :: arrival picks' (delete i pending)
      | None => []
      end
  end.

(** Step 3 of ValidateCoupon as the caller sees it: [None] when the final
    select returns on [ctx.Done()], otherwise [totalItemsDiscount]. When the
    context is done during the item checks the collector may have skipped
    results. *)
Definition itemChecks (env : Env) (couponMeta : CouponMeta.t)
    (items : list CartItem.t) : option float :=
  let outs := map (worker couponMeta) (arrival (picks env) items) in
  if doneBy env AtItemChecks then
    if selectDone env then None else Some (collect (take (kept env) outs))
  else Some (collect outs).

(** Step 3b: the choice of the final discount. *)
Definition totalDiscount (couponMeta : CouponMeta.t) (req : ValidationRequest.t)
    (totalItemsDiscount : float) : float :=
  let chargesDiscount :=
    if String.eqb (Coupon.TargetType couponMeta) "charges" then
      if String.eqb (Coupon.DiscountType couponMeta) "percentage"
      then (ValidationRequest.OrderTotal req
            * (Coupon.DiscountValue couponMeta / 100))%float
      else Coupon.DiscountValue couponMeta
    else 0%float in
  let flatInventoryDiscount :=
    if String.eqb (Coupon.TargetType couponMeta) "inventory"
       && String.eqb (Coupon.DiscountType couponMeta) "flat"
    then Coupon.DiscountValue couponMeta else 0%float in
  let totalDiscount := totalItemsDiscount in
  if String.eqb (Coupon.TargetType couponMeta) "charges" then chargesDiscount
  else if String.eqb (Coupon.TargetType couponMeta) "inventory" then
    if String.eqb (Coupon.DiscountType couponMeta) "flat"
    then flatInventoryDiscount else totalDiscount
  else totalDiscount.

(** ** Package repository: the usage ledger *)

(** A row of [coupon_usage], keyed by [(coupon_id, user_id)]. *)
Record UsageRow := { usage_count : Z; last_used : Z }.

Inductive res (A : Type) :=
  | Ok (a : A)
  | Err.
Arguments Ok {A} a.
Arguments Err {A}.

(** [GetAndLockUsage]: SELECT ... FOR UPDATE, and INSERT ... RETURNING when
    there is no row. Runs on the transaction's view of the table. *)
Definition GetAndLockUsage (env : Env) (tx : gmap (Z * string) UsageRow)
    (couponID : Z) (userID : string) : gmap (Z * string) UsageRow * res Z :=
  if fails env AtSelectForUpdate then (tx, Err)
  else match tx !! (couponID, userID) with
       | Some row => (tx, Ok (usage_count row))
       | None =>
           if fails env AtInsert then (tx, Err)
           else (<[(couponID, userID) :=
                     {| usage_count := 0; last_used := dbNow env |}]> tx, Ok 0)
       end.

(** [IncrementUsage]: UPDATE ... SET usage_count = usage_count + 1. *)
Definition IncrementUsage (env : Env) (tx : gmap (Z * string) UsageRow)
    (couponID : Z) (userID : string) : gmap (Z * string) UsageRow * res unit :=
  if fails env AtIncrementUsage then (tx, Err)
  else (alter (fun row => {| usage_count := usage_count row + 1;
                             last_used := usedAt env |})
              (couponID, userID) tx, Ok tt).

(** ** Package service *)

(** The store behind [*sql.DB] and the service's in-memory cache. *)
Record CouponService := {
  coupons : gmap string CouponMeta.t;          (* coupons and their item/category rows, by coupon_code *)
  coupon_usage : gmap (Z * string) UsageRow;   (* committed rows of coupon_usage *)
  cache : gmap string CouponMeta.t             (* s.cache *)
}.

(** [CouponRepo.GetCouponMeta]: [Ok None] is the Go result [(nil, nil)]. *)
Definition GetCouponMeta (env : Env) (s : CouponService) (code : string)
    : res (option CouponMeta.t) :=
  if fails env AtGetCouponMeta then Err else Ok (coupons s !! code).

(** The Go [error] values ValidateCoupon returns. *)
Inductive error :=
  | RepoErr                   (* err of GetCouponMeta, returned as is *)
  | CtxErr                    (* ctx.Err() *)
  | Wrapped (prefix : string) (* fmt.Errorf("<prefix>: %w", err) *).

(** What happened to the usage transaction during one call. *)
Inductive TxEvent := TxBegin | TxCommit | TxRollback.

Record Result := {
  service : CouponService;
  resp : ValidationResponse.t;
  err : option error;
  txlog : list TxEvent
}.

(** [ValidateResponse{IsValid: false, Message: msg}] *)
Definition invalid (msg : string) : ValidationResponse.t :=
  {| ValidationResponse.IsValid := false;
     ValidationResponse.Discount := 0%float;
     ValidationResponse.Message := msg |}.

(** Step 1: cache first, then the repository; a found coupon is cached. *)
Definition loadMeta (env : Env) (s : CouponService) (req : ValidationRequest.t)
    : Result + (CouponService * CouponMeta.t) :=
  match cache s !! ValidationRequest.CouponCode req with
  | Some cm => inr (s, cm)
  | None =>
      match GetCouponMeta env s (ValidationRequest.CouponCode req) with
      | Err => inl {| service := s; resp := invalid "internal_error";
                      err := Some RepoErr; txlog := [] |}
      | Ok None => inl {| service := s; resp := invalid "coupon_not_found";
                          err := None; txlog := [] |}
      | Ok (Some m) =>
          inr ({| coupons := coupons s; coupon_usage := coupon_usage s;
                  cache := <[ValidationRequest.CouponCode req := m]> (cache s) |}, m)
      end
  end.

(** Step 2: the first static check that fails, if any. *)
Definition basicValidations (env : Env) (couponMeta : CouponMeta.t)
    (req : ValidationRequest.t) : option string :=
  if Before (Coupon.ExpiryDate couponMeta) (now env) then Some "coupon_expired"
  else if fgt (Coupon.MinOrderValue couponMeta) (ValidationRequest.OrderTotal req)
  then Some "min_order_value_not_met"
  else match Coupon.ValidFrom couponMeta, Coupon.ValidTo couponMeta with
       | Some validFrom, Some validTo =>
           if Before (now env) validFrom || After (now env) validTo
           then Some "not_in_valid_window" else None
       | _, _ => None
       end.

(** [s.db.BeginTx(ctx, ...)]: the transaction starts from the committed rows. *)
Definition BeginTx (env : Env) (s : CouponService) : res (gmap (Z * string) UsageRow) :=
  if fails env AtBeginTx then Err else Ok (coupon_usage s).

(** [tx.Commit()]: the rows of the transaction become the committed rows; a
    commit that fails applies nothing. *)
Definition Commit (env : Env) (s : CouponService) (tx : gmap (Z * string) UsageRow)
    : CouponService * res unit :=
  if fails env AtCommit then (s, Err)
  else ({| coupons := coupons s; coupon_usage := tx; cache := cache s |}, Ok tt).

(** [tx.Rollback()]: the rows of the transaction are dropped. *)
Definition Rollback (s : CouponService) (tx : gmap (Z * string) UsageRow)
    : CouponService := s.

(** What a return statement of step 4 leaves behind for the deferred
    function: the store, the transaction, the [committed] flag and the
    values returned. *)
Record Exit := {
  store : CouponService;
  view : gmap (Z * string) UsageRow;
  committed : bool;
  response : ValidationResponse.t;
  failure : option error
}.

(** Step 4 from [GetAndLockUsage] to the final response. *)
Definition usageTx (env : Env) (s : CouponService) (tx : gmap (Z * string) UsageRow)
    (couponMeta : CouponMeta.t) (req : ValidationRequest.t) (totalDiscount : float)
    : Exit :=
  let committed := false in
  match GetAndLockUsage env tx (Coupon.ID couponMeta) (ValidationRequest.UserID req) with
  | (tx, Err) =>
      {| store := s; view := tx; committed := committed;
         response := invalid "internal_error";
         failure := Some (Wrapped "get lock") |}
  | (tx, Ok usageCount) =>
      if String.eqb (Coupon.UsageType couponMeta) "one_time" && (1 <=? usageCount)
      then {| store := s; view := tx; committed := committed;
              response := invalid "coupon_already_used"; failure := None |}
      else if (0 <? Coupon.MaxUsagePerUser couponMeta)
              && (Coupon.MaxUsagePerUser couponMeta <=? usageCount)
      then {| store := s; view := tx; committed := committed;
              response := invalid "usage_limit_reached"; failure := None |}
      else
        match IncrementUsage env tx (Coupon.ID couponMeta) (ValidationRequest.UserID req) with
        | (tx, Err) =>
            {| store := s; view := tx; committed := committed;
               response := invalid "internal_error";
               failure := Some (Wrapped "increment usage") |}
        | (tx, Ok _) =>
            match Commit env s tx with
            | (s, Err) =>
                {| store := s; view := tx; committed := committed;
                   response := invalid "internal_error";
                   failure := Some (Wrapped "tx commit") |}
            | (s, Ok _) =>
                let committed := true in
                {| store := s; view := tx; committed := committed;
                   response :=
                     {| ValidationResponse.IsValid := true;
                        ValidationResponse.Discount := totalDiscount;
                        ValidationResponse.Message := "coupon_applied" |};
                   failure := None |}
            end
        end
  end.

(** Step 4: the usage transaction, with its deferred function
    [if !committed { _ = tx.Rollback() }]. *)
Definition consumeUsage (env : Env) (s : CouponService) (couponMeta : CouponMeta.t)
    (req : ValidationRequest.t) (totalDiscount : float) : Result :=
  match BeginTx env s with
  | Err =>
      {| service := s; resp := invalid "internal_error";
         err := Some (Wrapped "begin tx"); txlog := [] |}
  | Ok tx =>
      let x := usageTx env s tx couponMeta req totalDiscount in
      if committed x
      then {| service := store x; resp := response x; err := failure x;
              txlog := [TxBegin; TxCommit] |}
      else {| service := Rollback (store x) (view x); resp := response x;
              err := failure x; txlog := [TxBegin; TxRollback] |}
  end.

(** [CouponService.ValidateCoupon] *)
Definition ValidateCoupon (env : Env) (s : CouponService)
    (req : ValidationRequest.t) : Result :=
  match loadMeta env s req with
  | inl r => r
  | inr (s, couponMeta) =>
      match basicValidations env couponMeta req with
      | Some msg => {| service := s; resp := invalid msg; err := None; txlog := [] |}
      | None =>
          match itemChecks env couponMeta (ValidationRequest.CartItems req) with
          | None => {| service := s; resp := invalid "timeout_during_item_checks";
                       err := Some CtxErr; txlog := [] |}
          | Some totalItemsDiscount =>
              consumeUsage env s couponMeta req
                (totalDiscount couponMeta req totalItemsDiscount)
          end
      end
  end.

(** A sequence of calls on one service, each with its own environment. The
    row lock and the serializable isolation level order the transactions of
    one key, so calls are taken one after the other. *)
Fixpoint run (s : CouponService) (calls : list (Env * ValidationRequest.t))
    : CouponService * list Result :=
  match calls with
  | [] => (s, [])
  | (env, req) :: calls' =>
      let r := ValidateCoupon env s req in
      let '(s', rs) := run (service r) calls' in
      (s', r :: rs)
  end.

(** ** The goroutines of step 3

    The producer, the workers, the collector and the waiting caller as a
    labelled transition system. [inCh] and [outCh] are unbuffered: a send and
    a receive happen together, in one step. [inCh] is closed exactly when the
    producer has exited, [collectDone] exactly when the collector has. *)

Inductive Producer :=
  | Feeding (rest : list CartItem.t)  (* at the select of the send loop; [[]]: at close(inCh) *)
  | ProducerExited.

Inductive Worker :=
  | Receiving                  (* at [for in := range inCh] *)
  | Sending (it : CartItem.t)  (* holds the discount of [it], at [select { case outCh <- ..: case <-ctx.Done(): }] *)
  | WorkerExited.

Inductive Collector :=
  | Collecting (iterations : nat) (totalItemsDiscount : float)
  | CollectorExited (totalItemsDiscount : float).

Inductive Caller :=
  | Waiting                               (* at the final select *)
  | TimedOut                              (* returned timeout_during_item_checks *)
  | Collected (totalItemsDiscount : float) (* went on to step 3b *).

Record Pipe := {
  ctxClosed : bool;
  producer : Producer;
  workers : list Worker;
  collector : Collector;
  caller : Caller
}.

Inductive Goroutine := GProducer | GWorker (i : nat) | GCollector | GCaller.

Inductive Label :=
  | Cancel               (* the context is cancelled or its deadline passes *)
  | Feed (i : nat)       (* [inCh <- itemIn{it}] meets worker i's receive *)
  | SkipFeed             (* the producer's select takes [<-ctx.Done()]; [break] leaves the select *)
  | CloseIn              (* [close(inCh)] *)
  | LeaveRange (i : nat) (* worker i's range ends: inCh is closed *)
  | Emit (i : nat)       (* worker i's [outCh <- itemOut{..}] meets the collector's receive *)
  | AbortEmit (i : nat)  (* worker i's select takes [<-ctx.Done()]: return *)
  | SkipCollect          (* the collector's select takes [<-ctx.Done()]; [break] leaves the select *)
  | CloseCollectDone     (* [close(collectDone)] *)
  | CallerCollected      (* the final select takes [<-collectDone] *)
  | CallerTimeout        (* the final select takes [<-ctx.Done()] *).

(** The goroutines that move in a step. *)
Definition movers (l : Label) : list Goroutine :=
  match l with
  | Cancel => []
  | Feed i => [GProducer; GWorker i]
  | SkipFeed | CloseIn => [GProducer]
  | LeaveRange i | AbortEmit i => [GWorker i]
  | Emit i => [GWorker i; GCollector]
  | SkipCollect | CloseCollectDone => [GCollector]
  | CallerCollected | CallerTimeout => [GCaller]
  end.

Definition setWorker (p : Pipe) (i : nat) (w : Worker) : Pipe :=
  {| ctxClosed := ctxClosed p; producer := producer p;
     workers := <[i := w]> (workers p);
     collector := collector p; caller := caller p |}.

Definition setProducer (p : Pipe) (pr : Producer) : Pipe :=
  {| ctxClosed := ctxClosed p; producer := pr; workers := workers p;
     collector := collector p; caller := caller p |}.

Definition setCollector (p : Pipe) (c : Collector) : Pipe :=
  {| ctxClosed := ctxClosed p; producer := producer p; workers := workers p;
     collector := c; caller := caller p |}.

Definition setCaller (p : Pipe) (m : Caller) : Pipe :=
  {| ctxClosed := ctxClosed p; producer := producer p; workers := workers p;
     collector := collector p; caller := m |}.

(** One step: [None] when the label is not enabled in [p]. *)
Definition fire (couponMeta : CouponMeta.t) (l : Label) (p : Pipe) : option Pipe :=
  match l with
  | Cancel =>
      if ctxClosed p then None
      else Some {| ctxClosed := true; producer := producer p; workers := workers p;
                   collector := collector p; caller := caller p |}
  | Feed i =>
      match producer p, workers p !! i with
      | Feeding (it :: rest), Some Receiving =>
          Some (setWorker (setProducer p (Feeding rest)) i (Sending it))
      | _, _ => None
      end
  | SkipFeed =>
      match producer p with
      | Feeding (_ :: rest) => if ctxClosed p then Some (setProducer p (Feeding rest)) else None
      | _ => None
      end
  | CloseIn =>
      match producer p with
      | Feeding [] => Some (setProducer p ProducerExited)
      | _ => None
      end
  | LeaveRange i =>
      match producer p, workers p !! i with
      | ProducerExited, Some Receiving => Some (setWorker p i WorkerExited)
      | _, _ => None
      end
  | Emit i =>
      match workers p !! i, collector p with
      | Some (Sending it), Collecting (S n) total =>
          Some (setWorker
                  (setCollector p (Collecting n (total + worker couponMeta it)%float))
                  i Receiving)
      | _, _ => None
      end
  | AbortEmit i =>
      match workers p !! i with
      | Some (Sending _) => if ctxClosed p then Some (setWorker p i WorkerExited) else None
      | _ => None
      end
  | SkipCollect =>
      match collector p with
      | Collecting (S n) total =>
          if ctxClosed p then Some (setCollector p (Collecting n total)) else None
      | _ => None
      end
  | CloseCollectDone =>
      match collector p with
      | Collecting O total => Some (setCollector p (CollectorExited total))
      | _ => None
      end
  | CallerCollected =>
      match caller p, collector p with
      | Waiting, CollectorExited total => Some (setCaller p (Collected total))
      | _, _ => None
      end
  | CallerTimeout =>
      match caller p with
      | Waiting => if ctxClosed p then Some (setCaller p TimedOut) else None
      | _ => None
      end
  end.

(** The state right after the three [go] statements. *)
Definition spawn (items : list CartItem.t) : Pipe :=
  {| ctxClosed := false;
     producer := Feeding items;
     workers := replicate (workerCount (length items)) Receiving;
     collector := Collecting (length items) 0%float;
     caller := Waiting |}.

(** Running a schedule, label by label. *)
Fixpoint fireAll (couponMeta : CouponMeta.t) (ls : list Label) (p : Pipe) : option Pipe :=
  match ls with
  | [] => Some p
  | l :: ls' =>
      match fire couponMeta l p with
      | Some p' => fireAll couponMeta ls' p'
      | None => None
      end
  end.

(** Every goroutine has returned. *)
Definition workerExited (w : Worker) : bool :=
  match w with WorkerExited => true | _ => false end.

Definition finished (p : Pipe) : bool :=
  match producer p, collector p, caller p with
  | ProducerExited, CollectorExited _, (TimedOut | Collected _) =>
      forallb workerExited (workers p)
  | _, _, _ => false
  end.

(** [g] stands at a send or a receive on [inCh] or [outCh]. *)
Definition atChannelOp (p : Pipe) (g : Goroutine) : bool :=
  match g with
  | GProducer => match producer p with Feeding (_ :: _) => true | _ => false end
  | GWorker i =>
      match workers p !! i with
      | Some Receiving | Some (Sending _) => true
      | _ => false
      end
  | GCollector => match collector p with Collecting (S _) _ => true | _ => false end
  | GCaller => false
  end.

(** The steps [g] can take on its own, whatever the other goroutines do. *)
Definition soloLabels (g : Goroutine) : list Label :=
  match g with
  | GProducer => [SkipFeed; CloseIn]
  | GWorker i => [LeaveRange i; AbortEmit i]
  | GCollector => [SkipCollect; CloseCollectDone]
  | GCaller => [CallerCollected; CallerTimeout]
  end.

(** [g] can move in [p] without a partner. *)
Definition canMoveAlone (couponMeta : CouponMeta.t) (p : Pipe) (g : Goroutine) : bool :=
  existsb (fun l => bool_decide (is_Some (fire couponMeta l p))) (soloLabels g).

(** A bound on the number of steps left. *)
Definition workerFuel (w : Worker) : nat :=
  match w with Receiving => 1 | Sending _ => 2 | WorkerExited => 0 end.

Definition workersFuel (ws : list Worker) : nat :=
  foldr (fun w n => (workerFuel w + n)%nat) 0%nat ws.

Definition fuel (p : Pipe) : nat :=
  ((if ctxClosed p then 0 else 1)
   + match producer p with Feeding rest => 3 * length rest + 1 | ProducerExited => 0 end
   + workersFuel (workers p)
   + match collector p with Collecting n _ => n + 1 | CollectorExited _ => 0 end
   + match caller p with Waiting => 1 | _ => 0 end)%nat.

(** The items whose discount a worker holds and has not sent yet. *)
Definition held (w : Worker) : list CartItem.t :=
  match w with Sending it => [it] | _ => [] end.

Definition inflight (ws : list Worker) : list CartItem.t := flat_map held ws.

(** The items the producer has not handed out yet. *)
Definition unsent (pr : Producer) : list CartItem.t :=
  match pr with Feeding rest => rest | ProducerExited => [] end.

(** The collector's running total. *)
Definition collected (c : Collector) : float :=
  match c with Collecting _ total => total | CollectorExited total => total end.

(** What holds of the goroutines while the context stays open: the running
    total is the sum, in order of arrival, of the results of the items [got]
    collected so far; every item of the cart is collected, held by a worker or
    still with the producer; the collector has as many iterations left as
    there are items not collected; and the caller goes on only with the
    collector's final total. *)
Definition collecting (couponMeta : CouponMeta.t) (items : list CartItem.t)
    (p : Pipe) : Prop :=
  exists got,
    collected (collector p) = collect (map (worker couponMeta) got)
    /\ got ++ inflight (workers p) ++ unsent (producer p) ≡ₚ items
    /\ match collector p with
       | Collecting n _ =>
           n = (length (inflight (workers p)) + length (unsent (producer p)))%nat
       | CollectorExited _ => inflight (workers p) = [] /\ unsent (producer p) = []
       end
    /\ match caller p with
       | Collected total => collector p = CollectorExited total
       | _ => True
       end.

(** What holds of the goroutines whether the context is open or done: the
    running total is the sum of the results of some items [got] of the cart,
    each taken once, and no item is both collected and still on its way. *)
Definition collectingSome (couponMeta : CouponMeta.t) (items : list CartItem.t)
    (p : Pipe) : Prop :=
  exists got,
    collected (collector p) = collect (map (worker couponMeta) got)
    /\ got ++ inflight (workers p) ++ unsent (producer p) ⊆+ items
    /\ match caller p with
       | Collected total => collector p = CollectorExited total
       | _ => True
       end.

(** The environment of a call whose item checks ran as the goroutines did in
    [p]: the context is done by then exactly when it is in [p]. *)
Definition envOf (p : Pipe) (picks : list nat) (kept : nat) : Env :=
  {| now := 0; dbNow := 0; usedAt := 0;
     ioError := fun _ => false;
     ctxDone := if ctxClosed p then Some AtItemChecks else None;
     picks := picks; kept := kept;
     selectDone := match caller p with TimedOut => true | _ => false end |}.

(** [g] has returned (a worker that was never spawned counts as returned). *)
Definition exited (p : Pipe) (g : Goroutine) : bool :=
  match g with
  | GProducer => match producer p with ProducerExited => true | _ => false end
  | GWorker i =>
      match workers p !! i with
      | Some Receiving | Some (Sending _) => false
      | _ => true
      end
  | GCollector => match collector p with CollectorExited _ => true | _ => false end
  | GCaller => match caller p with Waiting => false | _ => true end
  end.

(** ** Vocabulary of the statements *)

(** The committed [usage_count] of a pair; a pair without a row has used
    nothing (its row is created with 0 on the first attempt). *)
Definition usageCount (s : CouponService) (couponID : Z) (userID : string) : Z :=
  from_option usage_count 0 (coupon_usage s !! (couponID, userID)).

(** The coupon a call for [code] works with when step 1 succeeds. *)
Definition resolve (s : CouponService) (code : string) : option CouponMeta.t :=
  match cache s !! code with
  | Some cm => Some cm
  | None => coupons s !! code
  end.

(** The call answers [IsValid = true] and is a call of [userID] for the
    coupon with id [couponID]. *)
Definition acceptsFor (couponID : Z) (userID : string) (env : Env)
    (s : CouponService) (req : ValidationRequest.t) : bool :=
  ValidationResponse.IsValid (resp (ValidateCoupon env s req))
  && bool_decide (ValidationRequest.UserID req = userID)
  && match resolve s (ValidationRequest.CouponCode req) with
     | Some m => bool_decide (Coupon.ID m = couponID)
     | None => false
     end.

(** Number of accepting calls for the pair along a sequence of calls. *)
Fixpoint accepted (couponID : Z) (userID : string) (s : CouponService)
    (calls : list (Env * ValidationRequest.t)) : Z :=
  match calls with
  | [] => 0
  | (env, req) :: calls' =>
      (if acceptsFor couponID userID env s req then 1 else 0)
      + accepted couponID userID (service (ValidateCoupon env s req)) calls'
  end.

(** Coupons are immutable and identified by their id; the cache only holds
    coupons read from the table. *)
Definition consistent (s : CouponService) : Prop :=
  cache s ⊆ coupons s
  /\ forall (code1 code2 : string) (m1 m2 : CouponMeta.t),
       coupons s !! code1 = Some m1 -> coupons s !! code2 = Some m2 ->
       Coupon.ID m1 = Coupon.ID m2 -> m1 = m2.

(** The applicability rule in the words of the specification. *)
Definition applicableSpec (couponMeta : CouponMeta.t) (it : CartItem.t) : Prop :=
  (CouponMeta.ApplicableItems couponMeta = []
   /\ CouponMeta.ApplicableCategories couponMeta = [])
  \/ CartItem.ID it ∈ CouponMeta.ApplicableItems couponMeta
  \/ CartItem.Category it ∈ CouponMeta.ApplicableCategories couponMeta.

(** The applicability flag of a worker, with the maps it closes over. *)
Definition applicable (couponMeta : CouponMeta.t) (it : CartItem.t) : bool :=
  applies (makeSet (CouponMeta.ApplicableItems couponMeta))
          (makeSet (CouponMeta.ApplicableCategories couponMeta)) it.

(** [quantity × unitPrice × discountValue/100] as the Go expression rounds it. *)
Definition percentageOf (couponMeta : CouponMeta.t) (it : CartItem.t) : float :=
  (float64 (CartItem.Qty it) * CartItem.Price it
   * (Coupon.DiscountValue couponMeta / 100))%float.

(** Worker count in the words of the specification. *)
Definition workerCountSpec (n : nat) : nat := Nat.min 4 (Nat.max 1 n).

(** The state machine of one call has passed steps 1 to 3: the coupon was
    found, the static checks passed and the item checks were collected. *)
Definition reachesUsage (env : Env) (s : CouponService) (req : ValidationRequest.t)
    (s1 : CouponService) (couponMeta : CouponMeta.t) (totalItemsDiscount : float) : Prop :=
  loadMeta env s req = inr (s1, couponMeta)
  /\ basicValidations env couponMeta req = None
  /\ itemChecks env couponMeta (ValidationRequest.CartItems req) = Some totalItemsDiscount.

(** The negative zero, the one float that [+ 0] changes. *)
Definition negZero (x : float) : Prop := Prim2SF x = S754_zero true.

(** ** Sample data

    A percentage coupon on one item, a flat one-time coupon on charges, a
    service that knows both and has no usage row yet, and a call in which
    nothing fails and the context stays open. *)

Definition save10 : CouponMeta.t :=
  {| CouponMeta.Coupon :=
       {| Coupon.ID := 7; Coupon.CouponCode := "SAVE10"; Coupon.ExpiryDate := 1000;
          Coupon.UsageType := "multi_use"; Coupon.MinOrderValue := 0%float;
          Coupon.ValidFrom := Some 10; Coupon.ValidTo := Some 20;
          Coupon.DiscountType := "percentage"; Coupon.DiscountValue := 10%float;
          Coupon.MaxUsagePerUser := 2; Coupon.TargetType := "inventory";
          Coupon.Terms := ""; Coupon.CreatedAt := 0; Coupon.UpdatedAt := 0 |};
     CouponMeta.ApplicableItems := ["a"];
     CouponMeta.ApplicableCategories := [] |}.

Definition flat50 : CouponMeta.t :=
  {| CouponMeta.Coupon :=
       {| Coupon.ID := 8; Coupon.CouponCode := "FLAT50"; Coupon.ExpiryDate := 1000;
          Coupon.UsageType := "one_time"; Coupon.MinOrderValue := 100%float;
          Coupon.ValidFrom := None; Coupon.ValidTo := None;
          Coupon.DiscountType := "flat"; Coupon.DiscountValue := 50%float;
          Coupon.MaxUsagePerUser := 0; Coupon.TargetType := "charges";
          Coupon.Terms := ""; Coupon.CreatedAt := 0; Coupon.UpdatedAt := 0 |};
     CouponMeta.ApplicableItems := [];
     CouponMeta.ApplicableCategories := [] |}.

Definition itemA : CartItem.t :=
  {| CartItem.ID := "a"; CartItem.Category := "pills";
     CartItem.Price := 100%float; CartItem.Qty := 2 |}.

Definition itemB : CartItem.t :=
  {| CartItem.ID := "b"; CartItem.Category := "syrups";
     CartItem.Price := 30%float; CartItem.Qty := 1 |}.

Definition shop : CouponService :=
  {| coupons := {["SAVE10" := save10; "FLAT50" := flat50]};
     coupon_usage := ∅;
     cache := ∅ |}.

Definition calm (t : Z) : Env :=
  {| now := t; dbNow := t; usedAt := t;
     ioError := fun _ => false; ctxDone := None;
     picks := []; kept := 0; selectDone := false |}.

Definition order (code : string) (items : list CartItem.t) : ValidationRequest.t :=
  {| ValidationRequest.UserID := "u1"; ValidationRequest.CouponCode := code;
     ValidationRequest.CartItems := items; ValidationRequest.OrderTotal := 500%float |}.

(** Three calls in a row by the same user for SAVE10, whose limit is 2. *)
Definition threeCalls : list (Env * ValidationRequest.t) :=
  [(calm 15, order "SAVE10" [itemA]);
   (calm 16, order "SAVE10" [itemA; itemB]);
   (calm 17, order "SAVE10" [itemA])].

(** ** Package cache *)

Module cache.

(** [CouponCache]: the [store] map; [mu] makes each operation atomic. The
    stored [interface{}] values are of any one type [V]. *)
Record CouponCache (V : Type) := { store : gmap string V }.
Arguments store {V} c.

(** [NewCouponCache] *)
Definition NewCouponCache {V : Type} : CouponCache V := {| store := ∅ |}.

(** [Get]: [Some val] is the Go result [(val, true)], [None] is [(nil, false)]. *)
Definition Get {V : Type} (c : CouponCache V) (key : string) : option V :=
  store c !! key.

(** [Set] *)
Definition Set_ {V : Type} (c : CouponCache V) (key : string) (value : V)
    : CouponCache V :=
  {| store := <[key := value]> (store c) |}.

End cache.

(** ** Package handlers *)

(** A JSON value written by [writeJSON]. *)
Inductive JSON :=
  | JBool (b : bool)
  | JNumber (f : float)
  | JInt (n : Z)
  | JString (s : string)
  | JStrings (l : list string)
  | JErrorText (e : error)   (* err.Error() *).

(** A response: the status code and the members of the JSON object. *)
Record HTTP := { status : Z; body : gmap string JSON }.

(** The columns GetApplicableCoupons selects from [coupons]. *)
Module CouponRow.
Record t := {
  id : Z;
  coupon_code : string;
  expiry_date : Z;
  min_order_value : float;
  valid_from : option Z;          (* sql.NullTime *)
  valid_to : option Z;            (* sql.NullTime *)
  usage_type : string;
  max_usage_per_user : option Z   (* sql.NullInt64 *)
}.
End CouponRow.

(** The row of a coupon of the table. The table holds the coupons
    GetCouponMeta can read, so no column the Go struct takes as a plain value
    is NULL. *)
Definition rowOf (code : string) (m : CouponMeta.t) : CouponRow.t :=
  {| CouponRow.id := Coupon.ID m;
     CouponRow.coupon_code := code;
     CouponRow.expiry_date := Coupon.ExpiryDate m;
     CouponRow.min_order_value := Coupon.MinOrderValue m;
     CouponRow.valid_from := Coupon.ValidFrom m;
     CouponRow.valid_to := Coupon.ValidTo m;
     CouponRow.usage_type := Coupon.UsageType m;
     CouponRow.max_usage_per_user := Some (Coupon.MaxUsagePerUser m) |}.

(** [SELECT ... FROM coupons]: the rows, in the order the database has them. *)
Definition selectCoupons (s : CouponService) : list CouponRow.t :=
  map (fun cm => rowOf (fst cm) (snd cm)) (map_to_list (coupons s)).

(** What one call of GetApplicableCoupons observes from outside. *)
Record ListEnv := {
  clock : Z;                      (* time.Now().UTC() *)
  parseTimestamp : string -> option Z;
    (* the instant of a timestamp that is not blank and parses as RFC3339 *)
  parseFloat : string -> float * bool;  (* strconv.ParseFloat(s, 64): value, err == nil *)
  atoi : string -> Z * bool;            (* strconv.Atoi(s): value, err == nil *)
  queryError : bool;              (* h.db.QueryContext returns an error *)
  delivered : nat;                (* rows handed out before rows.Next() returns false *)
  scanError : string -> bool;     (* rows.Scan fails on the row of that coupon *)
  usageError : string -> bool;    (* the usage read of that coupon fails *)
  metaEnv : string -> Env         (* the environment of GetCouponMeta for that coupon *)
}.

(** The two separators of the query parameter [items]. *)
Module separators.
Import Stdlib.Strings.Ascii.
Definition comma : ascii := ","%char.
Definition bar : ascii := "|"%char.
End separators.

(** [strings.Split(s, sep)] for a separator of one byte. *)
Fixpoint Split (s : string) (sep : Ascii.ascii) : list string :=
  match s with
  | EmptyString => [EmptyString]
  | String c s' =>
      if Ascii.eqb c sep then EmptyString :: Split s' sep
      else match Split s' sep with
           | piece :: pieces => String c piece :: pieces
           | [] => [String c EmptyString]
           end
  end.

(** The statements of CreateCoupon's transaction, in program order. *)
Inductive CreateStage :=
  | CreateBeginTx
  | CreateInsertCoupon
  | CreateInsertItem (i : nat)       (* the INSERT of the i-th medicine id *)
  | CreateInsertCategory (i : nat)   (* the INSERT of the i-th category *)
  | CreateCommit.

(** What one call of CreateCoupon observes from outside. *)
Record CreateEnv := {
  parseTime : string -> option Z;    (* time.Parse(time.RFC3339, s), [None] on an error *)
  blank : string -> bool;            (* strings.TrimSpace(s) == empty *)
  dbError : CreateStage -> bool;
    (* the statement fails for a reason other than the UNIQUE and CHECK
       constraints of the schema: the driver, the context, a value out of
       the range of its column *)
  nextID : Z;                        (* the id SERIAL gives the row *)
  createdAt : Z;                     (* NOW() of the INSERT *)
  numeric : float -> float;          (* the float64 read back from a NUMERIC(12,2) column *)
  timestamptz : Z -> Z
    (* the instant read back from a TIMESTAMP WITH TIME ZONE column *)
}.

Module handlers.

Module ValidateRequestBody.
Record t := {
  UserID : string;
  Coupon : string;
  CartItems : list CartItem.t;
  OrderTotal : float;
  Timestamp : string
}.
End ValidateRequestBody.

Module ApplicableRequestBody.
Record t := {
  UserID : string;
  CartItems : list CartItem.t;
  OrderTotal : float;
  Timestamp : string
}.
End ApplicableRequestBody.

Module CreateCouponRequest.
Record t := {
  CouponCode : string;
  ExpiryDate : string;
  UsageType : string;
  MinOrderValue : float;
  ValidFrom : string;
  ValidTo : string;
  DiscountType : string;
  DiscountValue : float;
  MaxUsagePerUser : Z;
  TargetType : string;
  Terms : string;
  Items : list string;
  Categories : list string
}.
End CreateCouponRequest.

(** [writeJSON(w, code, map[string]string{"error": msg})] *)
Definition writeError (code : Z) (msg : string) : HTTP :=
  {| status := code; body := {["error" := JString msg]} |}.

(** [parseTimeOrEmpty]: [Ok None] is [(nil, nil)], [Err] a parse error. *)
Definition parseTimeOrEmpty (cenv : CreateEnv) (s : string) : res (option Z) :=
  if blank cenv s then Ok None
  else match parseTime cenv s with
       | None => Err
       | Some t => Ok (Some t)
       end.

(** The CHECK constraints of table [coupons]. *)
Definition checks (req : CreateCouponRequest.t) : bool :=
  bool_decide (CreateCouponRequest.UsageType req
               ∈ ["one_time"; "multi_use"; "time_based"])
  && bool_decide (CreateCouponRequest.DiscountType req ∈ ["flat"; "percentage"])
  && bool_decide (CreateCouponRequest.TargetType req ∈ ["inventory"; "charges"]).

(** [INSERT INTO coupons ... RETURNING id] on the transaction's view of the
    table: the new row, without items or categories yet, and its id. The
    statement fails when the code is taken (UNIQUE) or a CHECK is violated. *)
Definition insertCoupon (cenv : CreateEnv) (tx : gmap string CouponMeta.t)
    (req : CreateCouponRequest.t) (expiry : Z) (validFrom validTo : option Z)
    : option (gmap string CouponMeta.t * Z) :=
  if dbError cenv CreateInsertCoupon then None
  else if bool_decide (is_Some (tx !! CreateCouponRequest.CouponCode req)) then None
  else if negb (checks req) then None
  else
    Some (<[CreateCouponRequest.CouponCode req :=
              {| CouponMeta.Coupon :=
                   {| Coupon.ID := nextID cenv;
                      Coupon.CouponCode := CreateCouponRequest.CouponCode req;
                      Coupon.ExpiryDate := timestamptz cenv expiry;
                      Coupon.UsageType := CreateCouponRequest.UsageType req;
                      Coupon.MinOrderValue :=
                        numeric cenv (CreateCouponRequest.MinOrderValue req);
                      Coupon.ValidFrom := timestamptz cenv <$> validFrom;
                      Coupon.ValidTo := timestamptz cenv <$> validTo;
                      Coupon.DiscountType := CreateCouponRequest.DiscountType req;
                      Coupon.DiscountValue :=
                        numeric cenv (CreateCouponRequest.DiscountValue req);
                      Coupon.MaxUsagePerUser := CreateCouponRequest.MaxUsagePerUser req;
                      Coupon.TargetType := CreateCouponRequest.TargetType req;
                      Coupon.Terms := CreateCouponRequest.Terms req;
                      Coupon.CreatedAt := createdAt cenv;
                      Coupon.UpdatedAt := createdAt cenv |};
                 CouponMeta.ApplicableItems := [];
                 CouponMeta.ApplicableCategories := [] |}]> tx,
          nextID cenv).

(** The loop over [req.Items], from the i-th id on: each INSERT adds a row of
    [coupon_applicable_items] to the coupon; [None] at the first failure. *)
Fixpoint insertItems (cenv : CreateEnv) (code : string) (i : nat) (mids : list string)
    (tx : gmap string CouponMeta.t) : option (gmap string CouponMeta.t) :=
  match mids with
  | [] => Some tx
  | mid :: mids' =>
      if dbError cenv (CreateInsertItem i) then None
      else insertItems cenv code (S i) mids'
             (alter (fun m => {| CouponMeta.Coupon := CouponMeta.Coupon m;
                                 CouponMeta.ApplicableItems :=
                                   CouponMeta.ApplicableItems m ++ [mid];
                                 CouponMeta.ApplicableCategories :=
                                   CouponMeta.ApplicableCategories m |})
                    code tx)
  end.

(** The loop over [req.Categories]. *)
Fixpoint insertCategories (cenv : CreateEnv) (code : string) (i : nat) (cats : list string)
    (tx : gmap string CouponMeta.t) : option (gmap string CouponMeta.t) :=
  match cats with
  | [] => Some tx
  | cat :: cats' =>
      if dbError cenv (CreateInsertCategory i) then None
      else insertCategories cenv code (S i) cats'
             (alter (fun m => {| CouponMeta.Coupon := CouponMeta.Coupon m;
                                 CouponMeta.ApplicableItems := CouponMeta.ApplicableItems m;
                                 CouponMeta.ApplicableCategories :=
                                   CouponMeta.ApplicableCategories m ++ [cat] |})
                    code tx)
  end.

(** [CouponHandler.CreateCoupon]. [decoded] is what the JSON decoder made of
    the body. Every return before the commit leaves the transaction to the
    deferred [tx.Rollback()], which drops its rows. *)
Definition CreateCoupon (cenv : CreateEnv) (s : CouponService)
    (decoded : option CreateCouponRequest.t) : CouponService * HTTP :=
  match decoded with
  | None => (s, writeError 400 "invalid_body")
  | Some req =>
      if String.eqb (CreateCouponRequest.CouponCode req) ""
         || PrimFloat.leb (CreateCouponRequest.DiscountValue req) 0
      then (s, writeError 400 "coupon_code and discount_value required")
      else
        match parseTime cenv (CreateCouponRequest.ExpiryDate req) with
        | None => (s, writeError 400 "invalid expiry_date; use RFC3339")
        | Some expiry =>
        match parseTimeOrEmpty cenv (CreateCouponRequest.ValidFrom req) with
        | Err => (s, writeError 400 "invalid valid_from; use RFC3339")
        | Ok validFrom =>
        match parseTimeOrEmpty cenv (CreateCouponRequest.ValidTo req) with
        | Err => (s, writeError 400 "invalid valid_to; use RFC3339")
        | Ok validTo =>
        if dbError cenv CreateBeginTx then (s, writeError 500 "could_not_start_tx")
        else
          let tx := coupons s in
          match insertCoupon cenv tx req expiry validFrom validTo with
          | None => (s, writeError 500 "failed_create_coupon")
          | Some (tx, couponID) =>
          match insertItems cenv (CreateCouponRequest.CouponCode req) 0
                  (CreateCouponRequest.Items req) tx with
          | None => (s, writeError 500 "failed_create_items")
          | Some tx =>
          match insertCategories cenv (CreateCouponRequest.CouponCode req) 0
                  (CreateCouponRequest.Categories req) tx with
          | None => (s, writeError 500 "failed_create_categories")
          | Some tx =>
          if dbError cenv CreateCommit then (s, writeError 500 "commit_failed")
          else
            ({| coupons := tx; coupon_usage := coupon_usage s; cache := cache s |},
             {| status := 201;
                body := {["message" := JString "coupon_created";
                          "coupon_id" := JInt couponID]} |})
          end end end end end end
  end.

(** [CouponHandler.ValidateCoupon]. [decoded] is what the JSON decoder made of
    the body, [None] when it returned an error. The timestamp of the body is
    parsed and dropped. *)
Definition ValidateCoupon (env : Env) (s : CouponService)
    (decoded : option ValidateRequestBody.t) : CouponService * HTTP :=
  match decoded with
  | None => (s, {| status := 400; body := {["error" := JString "invalid_body"]} |})
  | Some req =>
      let vr := {| ValidationRequest.UserID := ValidateRequestBody.UserID req;
                   ValidationRequest.CouponCode := ValidateRequestBody.Coupon req;
                   ValidationRequest.CartItems := ValidateRequestBody.CartItems req;
                   ValidationRequest.OrderTotal :=
                     ValidateRequestBody.OrderTotal req |} in
      let r := ValidateCoupon env s vr in
      match err r with
      | Some e =>
          (service r,
           {| status := 500;
              body := {["error" := JString "internal_error"; "detail" := JErrorText e]} |})
      | None =>
          if negb (ValidationResponse.IsValid (resp r)) then
            (service r,
             {| status := 200;
                body := {["is_valid" := JBool false;
                          "message" := JString (ValidationResponse.Message (resp r))]} |})
          else
            (service r,
             {| status := 200;
                body := {["is_valid" := JBool true;
                          "discount" := JNumber (ValidationResponse.Discount (resp r));
                          "message" := JString (ValidationResponse.Message (resp r))]} |})
      end
  end.

(** The items of the query parameter [items]: parts separated by [","],
    fields by ["|"]; a part with fewer than four fields is skipped and the
    errors of the two number parsers are dropped. *)
Definition parseItems (lenv : ListEnv) (itemsRaw : string) : list CartItem.t :=
  flat_map
    (fun p =>
       let fields := Split p separators.bar in
       match fields with
       | f0 :: f1 :: f2 :: f3 :: _ =>
           [{| CartItem.ID := f0; CartItem.Category := f1;
               CartItem.Price := fst (parseFloat lenv f2);
               CartItem.Qty := fst (atoi lenv f3) |}]
       | _ => []
       end)
    (Split itemsRaw separators.comma).



(** The usage read of the listing: a plain SELECT on the committed rows. *)
Definition readUsage (lenv : ListEnv) (s : CouponService) (row : CouponRow.t)
    (userID : string) : res Z :=
  if usageError lenv (CouponRow.coupon_code row) then Err
  else Ok (from_option usage_count 0 (coupon_usage s !! (CouponRow.id row, userID))).

(** The body of the loop over the rows: [true] when the coupon's code is
    appended to [applicable], [false] on every [continue]. *)
Definition keeps (lenv : ListEnv) (s : CouponService) (req : ApplicableRequestBody.t)
    (now : Z) (row : CouponRow.t) : bool :=
  if scanError lenv (CouponRow.coupon_code row) then false
  else if Before (CouponRow.expiry_date row) now then false
  else if fgt (CouponRow.min_order_value row) (ApplicableRequestBody.OrderTotal req)
  then false
  else if match CouponRow.valid_from row, CouponRow.valid_to row with
          | Some validFrom, Some validTo => Before now validFrom || After now validTo
          | _, _ => false
          end then false
  else
    match readUsage lenv s row (ApplicableRequestBody.UserID req) with
    | Err => false
    | Ok usageCount =>
        if match CouponRow.max_usage_per_user row with
           | Some maxUsage => maxUsage <=? usageCount
           | None => false
           end then false
        else if String.eqb (CouponRow.usage_type row) "one_time" && (1 <=? usageCount)
        then false
        else
          match GetCouponMeta (metaEnv lenv (CouponRow.coupon_code row)) s
                  (CouponRow.coupon_code row) with
          | Err | Ok None => false
          | Ok (Some meta) =>
              if Nat.eqb (length (CouponMeta.ApplicableItems meta)) 0
                 && Nat.eqb (length (CouponMeta.ApplicableCategories meta)) 0
              then true
              else
                let itemSet := makeSet (CouponMeta.ApplicableItems meta) in
                let catSet := makeSet (CouponMeta.ApplicableCategories meta) in
                existsb (fun it => index itemSet (CartItem.ID it)
                                   || index catSet (CartItem.Category it))
                        (ApplicableRequestBody.CartItems req)
          end
    end.

(** The instant the listing is computed for. *)
Definition listingNow (lenv : ListEnv) (req : ApplicableRequestBody.t) : Z :=
  match parseTimestamp lenv (ApplicableRequestBody.Timestamp req) with
  | Some t => t
  | None => clock lenv
  end.

(** The codes appended to [applicable], in the order of the rows. The rows
    and the usage counts are those of one state of the store: no other
    request commits while the handler reads. *)
Definition applicableCodes (lenv : ListEnv) (s : CouponService)
    (req : ApplicableRequestBody.t) : list string :=
  map CouponRow.coupon_code
      (List.filter (keeps lenv s req (listingNow lenv req))
                   (take (delivered lenv) (selectCoupons s))).


End handlers.

(** ** Vocabulary of the statements about the handlers and the repository *)


(** The environment of a call in which the coupon repository is down. *)
Definition repoDown (env : Env) : Env :=
  {| now := now env; dbNow := dbNow env; usedAt := usedAt env;
     ioError := fun st => match st with AtGetCouponMeta => true | _ => ioError env st end;
     ctxDone := ctxDone env; picks := picks env; kept := kept env;
     selectDone := selectDone env |}.



(** [now] lies in the validity window of the coupon, or the window is open
    on one side. *)
Definition inWindow (m : CouponMeta.t) (now : Z) : bool :=
  match Coupon.ValidFrom m, Coupon.ValidTo m with
  | Some validFrom, Some validTo => negb (Before now validFrom || After now validTo)
  | _, _ => true
  end.

(** The coupon has no restriction, or some item of the cart is one of its
    items or of one of its categories. *)
Definition matchesCart (m : CouponMeta.t) (cart : list CartItem.t) : Prop :=
  (CouponMeta.ApplicableItems m = [] /\ CouponMeta.ApplicableCategories m = [])
  \/ exists it, it ∈ cart
       /\ (CartItem.ID it ∈ CouponMeta.ApplicableItems m
           \/ CartItem.Category it ∈ CouponMeta.ApplicableCategories m).

(** The separator does not occur in the string. *)
Fixpoint lacks (sep : Ascii.ascii) (s : string) : bool :=
  match s with
  | EmptyString => true
  | String c s' => negb (Ascii.eqb c sep) && lacks sep s'
  end.

(** One part of the query parameter [items], [id|category|price|qty]. *)
Definition partOf (q : string * string * string * string) : string :=
  let '(f0, f1, f2, f3) := q in
  String.concat "|" [f0; f1; f2; f3].

(** The cart item read from the four fields of a part. *)
Definition itemOf (lenv : ListEnv) (q : string * string * string * string) : CartItem.t :=
  let '(f0, f1, f2, f3) := q in
  {| CartItem.ID := f0; CartItem.Category := f1;
     CartItem.Price := fst (parseFloat lenv f2);
     CartItem.Qty := fst (atoi lenv f3) |}.

(** No field holds a separator. *)
Definition plain (q : string * string * string * string) : bool :=
  let '(f0, f1, f2, f3) := q in
  forallb (fun f => lacks separators.comma f && lacks separators.bar f) [f0; f1; f2; f3].

(** A coupon with further item and category rows. *)
Definition withItems (m : CouponMeta.t) (items categories : list string) : CouponMeta.t :=
  {| CouponMeta.Coupon := CouponMeta.Coupon m;
     CouponMeta.ApplicableItems := CouponMeta.ApplicableItems m ++ items;
     CouponMeta.ApplicableCategories := CouponMeta.ApplicableCategories m ++ categories |}.

(** The coupon a committed CreateCoupon adds to the table. *)
Definition createdCoupon (cenv : CreateEnv) (req : handlers.CreateCouponRequest.t)
    (expiry : Z) (validFrom validTo : option Z) : CouponMeta.t :=
  {| CouponMeta.Coupon :=
       {| Coupon.ID := nextID cenv;
          Coupon.CouponCode := handlers.CreateCouponRequest.CouponCode req;
          Coupon.ExpiryDate := timestamptz cenv expiry;
          Coupon.UsageType := handlers.CreateCouponRequest.UsageType req;
          Coupon.MinOrderValue := numeric cenv (handlers.CreateCouponRequest.MinOrderValue req);
          Coupon.ValidFrom := timestamptz cenv <$> validFrom;
          Coupon.ValidTo := timestamptz cenv <$> validTo;
          Coupon.DiscountType := handlers.CreateCouponRequest.DiscountType req;
          Coupon.DiscountValue := numeric cenv (handlers.CreateCouponRequest.DiscountValue req);
          Coupon.MaxUsagePerUser := handlers.CreateCouponRequest.MaxUsagePerUser req;
          Coupon.TargetType := handlers.CreateCouponRequest.TargetType req;
          Coupon.Terms := handlers.CreateCouponRequest.Terms req;
          Coupon.CreatedAt := createdAt cenv;
          Coupon.UpdatedAt := createdAt cenv |};
     CouponMeta.ApplicableItems := handlers.CreateCouponRequest.Items req;
     CouponMeta.ApplicableCategories := handlers.CreateCouponRequest.Categories req |}.

(** What holds of the workers while the context stays open: there is at least
    one, and none has left its range loop before [inCh] is closed. *)
Definition steady (p : Pipe) : Prop :=
  workers p <> []
  /\ (producer p <> ProducerExited -> Forall (fun w => w <> WorkerExited) (workers p)).

(** ** Further sample data *)

(** The shop after a call has cached SAVE10, and the same cache in front of
    an emptied table. *)
Definition warmShop : CouponService :=
  {| coupons := coupons shop; coupon_usage := ∅; cache := {["SAVE10" := save10]} |}.

Definition emptiedShop : CouponService :=
  {| coupons := ∅; coupon_usage := ∅; cache := {["SAVE10" := save10]} |}.

(** A listing at instant [t] in which nothing fails. *)
Definition still (t : Z) : ListEnv :=
  {| clock := t; parseTimestamp := fun _ => None;
     parseFloat := fun _ => (0%float, false); atoi := fun _ => (0, false);
     queryError := false; delivered := 2;
     scanError := fun _ => false; usageError := fun _ => false;
     metaEnv := fun _ => calm t |}.

Definition cartOf (items : list CartItem.t) : handlers.ApplicableRequestBody.t :=
  {| handlers.ApplicableRequestBody.UserID := "u1"; handlers.ApplicableRequestBody.CartItems :=
      items;
     handlers.ApplicableRequestBody.OrderTotal := 500%float;
         handlers.ApplicableRequestBody.Timestamp := "" |}.

(** A creation in which nothing fails, and a request without
    [max_usage_per_user]: the decoder leaves the field at 0. *)
Definition mint : CreateEnv :=
  {| parseTime := fun _ => Some 2000; blank := fun s => String.eqb s "";
     dbError := fun _ => false; nextID := 9; createdAt := 1;
     numeric := fun f => f; timestamptz := fun t => t |}.

Definition newCoupon : handlers.CreateCouponRequest.t :=
  {| handlers.CreateCouponRequest.CouponCode := "NEW5"; handlers.CreateCouponRequest.ExpiryDate :=
      "2030-01-01T00:00:00Z";
     handlers.CreateCouponRequest.UsageType := "multi_use";
         handlers.CreateCouponRequest.MinOrderValue := 0%float;
     handlers.CreateCouponRequest.ValidFrom := ""; handlers.CreateCouponRequest.ValidTo := "";
     handlers.CreateCouponRequest.DiscountType := "flat";
         handlers.CreateCouponRequest.DiscountValue := 5%float;
     handlers.CreateCouponRequest.MaxUsagePerUser := 0; handlers.CreateCouponRequest.TargetType :=
         "charges";
     handlers.CreateCouponRequest.Terms := ""; handlers.CreateCouponRequest.Items := [];
         handlers.CreateCouponRequest.Categories := [] |}.

(** Three items matched by SAVE10, priced 1, 2 and 3, and two schedules of
    the goroutines that differ in the order of the three results. *)
Definition pennies : list CartItem.t :=
  [ {| CartItem.ID := "a"; CartItem.Category := "c"; CartItem.Price := 1%float;
       CartItem.Qty := 1 |};
    {| CartItem.ID := "a"; CartItem.Category := "c"; CartItem.Price := 2%float;
       CartItem.Qty := 1 |};
    {| CartItem.ID := "a"; CartItem.Category := "c"; CartItem.Price := 3%float;
       CartItem.Qty := 1 |} ].

Definition inOrder : list Label :=
  [Feed 0; Feed 1; Feed 2; Emit 0; Emit 1; Emit 2; CloseIn;
   LeaveRange 0; LeaveRange 1; LeaveRange 2; CloseCollectDone; CallerCollected].

Definition reversed : list Label :=
  [Feed 0; Feed 1; Feed 2; Emit 2; Emit 1; Emit 0; CloseIn;
   LeaveRange 0; LeaveRange 1; LeaveRange 2; CloseCollectDone; CallerCollected].

(** ** Proof automation *)

(** Closes goals about fixed messages and transaction logs: splits the
    hypotheses, turns list membership into a disjunction of equations and
    ends with [tauto], [congruence] or [lia]. *)
Ltac crush_cases :=
  repeat match goal with
    | |- ~ _ => intro
    | H : _ ∈ _ |- _ => apply list_elem_of_In in H; cbn [In] in H
    | H : In _ (_ :: _) |- _ => cbn [In] in H
    | H : In _ [] |- _ => destruct H
    | H : _ /\ _ |- _ => destruct H
    | H : _ \/ _ |- _ => destruct H
    | H : False |- _ => destruct H
    | H : exists _, _ |- _ => destruct H
    | H : Some _ = Some _ |- _ => injection H as H
    | H : Wrapped _ = Wrapped _ |- _ => injection H as H
    end;
  subst; try tauto; try congruence; try discriminate; try lia.

(** * Proofs *)

(** ** binary64 addition never produces a negative zero from a sum whose
    left operand is not one *)

Section Float64.

Local Open Scope Z_scope.

Lemma iter_pos_nat {A : Type} (f : A -> A) (p : positive) (x : A) :
  SpecFloat.iter_pos f p x = Nat.iter (Pos.to_nat p) f x.
Proof.
  revert x. induction p as [p IH | p IH |]; intros x; cbn [SpecFloat.iter_pos].
  - rewrite !IH. rewrite <- Nat.iter_succ_r, <- Nat.iter_add. f_equal. lia.
  - rewrite !IH. rewrite <- Nat.iter_add. f_equal. lia.
  - reflexivity.
Qed.

Lemma shr_1_m (mrs : shr_record) :
  0 <= shr_m mrs -> shr_m (shr_1 mrs) = shr_m mrs / 2.
Proof.
  destruct mrs as [m r s]. cbn [shr_m]. intros Hm.
  destruct m as [| [p | p |] | p]; cbn [shr_1 shr_m]; try lia.
  - reflexivity.
  - apply Z.div_unique with 1; lia.
  - apply Z.div_unique with 0; lia.
  - reflexivity.
Qed.

Lemma shr_iter_m (n : nat) (mrs : shr_record) :
  0 <= shr_m mrs -> shr_m (Nat.iter n shr_1 mrs) = shr_m mrs / 2 ^ Z.of_nat n.
Proof.
  intros Hm. induction n as [| n IH].
  - simpl. now rewrite Z.div_1_r.
  - rewrite Nat2Z.inj_succ, Z.pow_succ_r by lia. simpl.
    rewrite shr_1_m by (rewrite IH; apply Z.div_pos; lia).
    rewrite IH, Z.div_div by lia. f_equal. lia.
Qed.

Lemma digits2_pos_lower (m : positive) :
  2 ^ (Z.pos (digits2_pos m) - 1) <= Z.pos m.
Proof.
  induction m as [m IH | m IH |]; cbn [digits2_pos].
  - rewrite Pos2Z.inj_succ.
    replace (Z.succ (Z.pos (digits2_pos m)) - 1) with (Z.succ (Z.pos (digits2_pos m) - 1)) by lia.
    rewrite Z.pow_succ_r by lia. lia.
  - rewrite Pos2Z.inj_succ.
    replace (Z.succ (Z.pos (digits2_pos m)) - 1) with (Z.succ (Z.pos (digits2_pos m) - 1)) by lia.
    rewrite Z.pow_succ_r by lia. lia.
  - reflexivity.
Qed.

Lemma shr_record_of_loc_m (m : Z) (l : location) :
  shr_m (shr_record_of_loc m l) = m.
Proof. destruct l as [| []]; reflexivity. Qed.

(** Shifting a positive mantissa to its canonical exponent keeps it positive,
    as long as the exponent is not below [emin]. *)
Lemma shr_fexp_pos (m : positive) (e : Z) (l : location) :
  SpecFloat.emin prec emax <= e ->
  0 < shr_m (fst (shr_fexp prec emax (Z.pos m) e l))
  /\ SpecFloat.emin prec emax <= snd (shr_fexp prec emax (Z.pos m) e l).
Proof.
  intros He. unfold shr_fexp, shr, fexp, SpecFloat.emin, prec, emax in *.
  cbn [Zdigits2].
  destruct (Z.max (Z.pos (digits2_pos m) + e - 53) (3 - 1024 - 53) - e) as [| p | p] eqn:Hn;
    cbn [fst snd]; rewrite ?shr_record_of_loc_m; try lia.
  rewrite iter_pos_nat, shr_iter_m by (rewrite shr_record_of_loc_m; lia).
  rewrite shr_record_of_loc_m, positive_nat_Z. split; [| lia].
  apply Z.div_str_pos. split; [apply Z.pow_pos_nonneg; lia |].
  etransitivity; [| apply digits2_pos_lower].
  apply Z.pow_le_mono_r; lia.
Qed.

Lemma round_nearest_even_pos (m : Z) (l : location) :
  0 < m -> 0 < round_nearest_even m l.
Proof.
  intros Hm. unfold round_nearest_even.
  destruct l as [| []]; try destruct (Z.even m); lia.
Qed.

Lemma binary_round_aux_nonzero (sx s : bool) (m : positive) (e : Z) (l : location) :
  SpecFloat.emin prec emax <= e ->
  binary_round_aux prec emax sx (Z.pos m) e l <> S754_zero s.
Proof.
  intros He. unfold binary_round_aux.
  destruct (shr_fexp_pos m e l He) as [Hm1 He1].
  destruct (shr_fexp prec emax (Z.pos m) e l) as [mrs1 e1]. cbn [fst snd] in *.
  pose proof (round_nearest_even_pos _ (loc_of_shr_record mrs1) Hm1) as Hr.
  destruct (round_nearest_even (shr_m mrs1) (loc_of_shr_record mrs1)) as [| m2 | m2]; try lia.
  destruct (shr_fexp_pos m2 e1 loc_Exact He1) as [Hm2 _].
  destruct (shr_fexp prec emax (Z.pos m2) e1 loc_Exact) as [mrs2 e2]. cbn [fst] in *.
  destruct (shr_m mrs2); try lia.
  destruct (e2 <=? emax - prec)%Z; discriminate.
Qed.

Lemma binary_round_nonzero (sx s : bool) (m : positive) (e : Z) :
  SpecFloat.emin prec emax <= e ->
  binary_round prec emax sx m e <> S754_zero s.
Proof.
  intros He. unfold binary_round.
  destruct (shl_align m e (fexp prec emax (Z.pos (digits2_pos m) + e))) as [mz ez] eqn:Hs.
  apply binary_round_aux_nonzero.
  unfold shl_align in Hs.
  destruct (fexp prec emax (Z.pos (digits2_pos m) + e) - e) eqn:Hd;
    inversion Hs; subst; try lia.
  unfold fexp. lia.
Qed.

Lemma valid_binary_emin (s : bool) (m : positive) (e : Z) :
  valid_binary (S754_finite s m e) = true -> SpecFloat.emin prec emax <= e.
Proof.
  unfold valid_binary, bounded, canonical_mantissa, fexp. intros H.
  apply andb_prop in H as [H _]. apply Z.eqb_eq in H. lia.
Qed.

(** A sum is the negative zero only when both operands are. *)
Lemma SFadd_neg_zero (x y : spec_float) :
  valid_binary x = true -> valid_binary y = true ->
  SFadd prec emax x y = S754_zero true -> x = S754_zero true.
Proof.
  intros Hx Hy.
  destruct x as [[] | [] | | sx mx ex], y as [[] | [] | | sy my ey];
    cbn [SFadd]; try discriminate; try reflexivity.
  intros H. exfalso. revert H.
  apply valid_binary_emin in Hx, Hy.
  unfold binary_normalize.
  destruct (cond_Zopp sx (Z.pos (fst (shl_align mx ex (Z.min ex ey))))
            + cond_Zopp sy (Z.pos (fst (shl_align my ey (Z.min ex ey)))))%Z;
    [discriminate | apply binary_round_nonzero; lia | apply binary_round_nonzero; lia].
Qed.

Lemma add_not_negZero (x y : float) : ~ negZero x -> ~ negZero (x + y)%float.
Proof.
  unfold negZero. intros Hx H. apply Hx.
  rewrite FloatAxioms.add_spec in H.
  eapply SFadd_neg_zero; [apply Prim2SF_valid | apply Prim2SF_valid | exact H].
Qed.

Lemma add_zero_r (x : float) : ~ negZero x -> (x + 0)%float = x.
Proof.
  unfold negZero. intros Hx. apply Prim2SF_inj.
  rewrite FloatAxioms.add_spec. change (Prim2SF 0) with (S754_zero false).
  destruct (Prim2SF x) as [[] | [] | |]; try reflexivity. congruence.
Qed.

End Float64.

(** ** The collector's sum *)

Lemma zero_not_negZero : ~ negZero 0%float.
Proof. unfold negZero. discriminate. Qed.

(** Results that are [0] leave the running total as it is. *)
Lemma fold_add_skip_zeros {A : Type} (f : A -> float) (P : A -> bool) :
  (forall x, P x = false -> f x = 0%float) ->
  forall (l : list A) (a : float), ~ negZero a ->
    fold_left PrimFloat.add (map f l) a
    = fold_left PrimFloat.add (map f (List.filter P l)) a.
Proof.
  intros HP l. induction l as [| x l IH]; intros a Ha; [reflexivity |].
  cbn [map fold_left List.filter]. destruct (P x) eqn:HPx.
  - cbn [map fold_left]. apply IH. now apply add_not_negZero.
  - rewrite (HP x HPx), add_zero_r by assumption. now apply IH.
Qed.

Lemma collect_zeros (outs : list float) :
  Forall (fun d => d = 0%float) outs -> collect outs = 0%float.
Proof.
  unfold collect. induction 1 as [| d outs Hd _ IH]; [reflexivity |].
  subst d. exact IH.
Qed.

(** ** Arrival orders are exactly the permutations of the cart *)

Lemma arrival_perm {A : Type} (picks : list nat) (l : list A) :
  arrival picks l ≡ₚ l.
Proof.
  revert l. induction picks as [| k picks IH]; intros l; [reflexivity |].
  cbn [arrival]. destruct (l !! (k mod length l)%nat) as [x |] eqn:Hx.
  - rewrite IH. symmetry. now apply delete_Permutation.
  - destruct l as [| y l]; [reflexivity |].
    apply lookup_ge_None in Hx.
    pose proof (Nat.mod_upper_bound k (length (y :: l))) as Hk.
    cbn [length] in *. lia.
Qed.

Lemma arrival_any_perm {A : Type} (l' l : list A) :
  l' ≡ₚ l -> exists picks, arrival picks l = l'.
Proof.
  revert l. induction l' as [| x l' IH]; intros l Hl.
  - apply Permutation_nil_l in Hl. subst l. now exists [].
  - assert (Hin : x ∈ l) by (rewrite <- Hl; left).
    apply list_elem_of_lookup in Hin as [i Hi].
    destruct (IH (delete i l)) as [picks Hp].
    { apply (Permutation_cons_inv (a := x)).
      rewrite Hl. now apply delete_Permutation. }
    exists (i :: picks). cbn [arrival].
    rewrite Nat.mod_small by (eapply lookup_lt_Some; eauto).
    now rewrite Hi, Hp.
Qed.

(** ** The membership maps *)

Lemma makeSet_lookup (keys : list string) (k : string) :
  makeSet keys !! k = if decide (k ∈ keys) then Some true else None.
Proof.
  unfold makeSet.
  enough (H : forall m : gmap string bool,
             foldl (fun m k => <[k := true]> m) m keys !! k
             = if decide (k ∈ keys) then Some true else m !! k).
  { rewrite H. now rewrite lookup_empty. }
  induction keys as [| k0 keys IH]; intros m; cbn [foldl].
  - case_decide as Hk; [inversion Hk | reflexivity].
  - rewrite IH. destruct (decide (k ∈ keys)) as [Hin | Hnin].
    + rewrite decide_True by now right. reflexivity.
    + destruct (decide (k = k0)) as [-> | Hne].
      * rewrite decide_True by left. now rewrite lookup_insert_eq.
      * rewrite decide_False by (rewrite elem_of_cons; intuition).
        now rewrite lookup_insert_ne.
Qed.

Lemma index_makeSet (keys : list string) (k : string) :
  index (makeSet keys) k = true <-> k ∈ keys.
Proof.
  unfold index. rewrite makeSet_lookup. case_decide; cbn; split; try done.
Qed.

Lemma len_makeSet (keys : list string) :
  Nat.eqb (len (makeSet keys)) 0 = true <-> keys = [].
Proof.
  unfold len. rewrite Nat.eqb_eq, map_size_empty_iff. split.
  - intros Hm. destruct keys as [| k keys]; [reflexivity |].
    assert (H : makeSet (k :: keys) !! k = None) by (rewrite Hm; apply lookup_empty).
    rewrite makeSet_lookup in H. case_decide as Hk; [discriminate |].
    exfalso. apply Hk. left.
  - intros ->. reflexivity.
Qed.

Lemma applicable_iff (couponMeta : CouponMeta.t) (it : CartItem.t) :
  applicable couponMeta it = true <-> applicableSpec couponMeta it.
Proof.
  unfold applicable, applies, applicableSpec.
  rewrite <- !index_makeSet, <- !len_makeSet.
  destruct (index (makeSet (CouponMeta.ApplicableCategories couponMeta)) _),
           (index (makeSet (CouponMeta.ApplicableItems couponMeta)) _),
           (Nat.eqb (len (makeSet (CouponMeta.ApplicableItems couponMeta))) 0),
           (Nat.eqb (len (makeSet (CouponMeta.ApplicableCategories couponMeta))) 0);
    cbn; intuition congruence.
Qed.

Lemma worker_not_applicable (couponMeta : CouponMeta.t) (it : CartItem.t) :
  applicable couponMeta it = false -> worker couponMeta it = 0%float.
Proof.
  unfold worker, itemDiscount, applicable. now intros ->.
Qed.

(** For an inventory percentage coupon the worker sends the item's
    percentage when the item applies. *)
Lemma worker_inventory_percentage (couponMeta : CouponMeta.t) (it : CartItem.t) :
  Coupon.TargetType couponMeta = "inventory" ->
  Coupon.DiscountType couponMeta = "percentage" ->
  worker couponMeta it
  = if applicable couponMeta it then percentageOf couponMeta it else 0%float.
Proof.
  unfold worker, itemDiscount, applicable, percentageOf. intros -> ->.
  now destruct (applies _ _ it).
Qed.

(** C7: a worker deems an item applicable exactly when the coupon has no
    item and no category restriction, or names the item's id, or names the
    item's category; an item that is not applicable is sent as [0], and the
    collected total of any sequence of items is the total of its applicable
    items alone. *)
Theorem applicability_rule (couponMeta : CouponMeta.t) :
  (forall it, applicable couponMeta it = true <-> applicableSpec couponMeta it)
  /\ (forall it, applicable couponMeta it = false -> worker couponMeta it = 0%float)
  /\ (forall items,
        collect (map (worker couponMeta) items)
        = collect (map (worker couponMeta)
                       (List.filter (applicable couponMeta) items))).
Proof.
  split; [apply applicable_iff |]. split; [apply worker_not_applicable |].
  intros items. unfold collect.
  apply fold_add_skip_zeros; [apply worker_not_applicable | apply zero_not_negZero].
Qed.

(** ** Worker count *)

Lemma workerCount_eq (n : nat) :
  workerCount n = if Nat.eqb n 0 then 4%nat else Nat.min 4 n.
Proof.
  unfold workerCount.
  destruct n as [| [| [| [| n]]]]; reflexivity.
Qed.

(** C8, at a concrete input: for the empty cart the code spawns 4 workers,
    where the formula of the claim gives 1. *)
Lemma workerCount_empty_cart :
  length (workers (spawn [])) = 4%nat /\ workerCountSpec (length (@nil CartItem.t)) = 1%nat.
Proof. split; reflexivity. Qed.

(** C8, as the code has it: the number of workers spawned is
    [workerCount (len cart)], which is 4 for the empty cart and
    [min 4 (len cart)] for every other cart; it is the formula
    [min 4 (max 1 (len cart))] exactly on the carts that are not empty. *)
Theorem workerCount_spawned (items : list CartItem.t) :
  length (workers (spawn items)) = workerCount (length items)
  /\ workerCount (length items)
     = (if Nat.eqb (length items) 0 then 4 else Nat.min 4 (length items))%nat
  /\ (items <> [] -> workerCount (length items) = workerCountSpec (length items))
  /\ (1 <= workerCount (length items) <= 4)%nat.
Proof.
  split; [apply length_replicate |]. split; [apply workerCount_eq |].
  rewrite workerCount_eq. unfold workerCountSpec. split.
  - intros Hne. destruct items; [congruence |]. cbn [length Nat.eqb]. lia.
  - destruct (Nat.eqb_spec (length items) 0); lia.
Qed.

(** ** ValidateCoupon, step by step *)

Lemma ValidateCoupon_static (env : Env) (s s1 : CouponService)
    (req : ValidationRequest.t) (couponMeta : CouponMeta.t) (msg : string) :
  loadMeta env s req = inr (s1, couponMeta) ->
  basicValidations env couponMeta req = Some msg ->
  ValidateCoupon env s req
  = {| service := s1; resp := invalid msg; err := None; txlog := [] |}.
Proof. unfold ValidateCoupon. now intros -> ->. Qed.

Lemma ValidateCoupon_timeout (env : Env) (s s1 : CouponService)
    (req : ValidationRequest.t) (couponMeta : CouponMeta.t) :
  loadMeta env s req = inr (s1, couponMeta) ->
  basicValidations env couponMeta req = None ->
  itemChecks env couponMeta (ValidationRequest.CartItems req) = None ->
  ValidateCoupon env s req
  = {| service := s1; resp := invalid "timeout_during_item_checks";
       err := Some CtxErr; txlog := [] |}.
Proof. unfold ValidateCoupon. now intros -> -> ->. Qed.

Lemma ValidateCoupon_usage (env : Env) (s s1 : CouponService)
    (req : ValidationRequest.t) (couponMeta : CouponMeta.t) (total : float) :
  reachesUsage env s req s1 couponMeta total ->
  ValidateCoupon env s req
  = consumeUsage env s1 couponMeta req (totalDiscount couponMeta req total).
Proof. unfold ValidateCoupon. now intros (-> & -> & ->). Qed.

(** Step 4 when the transaction cannot be opened, and when the row cannot be
    locked. *)
Lemma consumeUsage_begin_failed (env : Env) (s : CouponService)
    (couponMeta : CouponMeta.t) (req : ValidationRequest.t) (d : float) :
  fails env AtBeginTx = true ->
  consumeUsage env s couponMeta req d
  = {| service := s; resp := invalid "internal_error";
       err := Some (Wrapped "begin tx"); txlog := [] |}.
Proof. intros Hb. unfold consumeUsage, BeginTx. now rewrite Hb. Qed.

Lemma consumeUsage_lock_failed (env : Env) (s : CouponService)
    (couponMeta : CouponMeta.t) (req : ValidationRequest.t) (d : float)
    (tx : gmap (Z * string) UsageRow) :
  fails env AtBeginTx = false ->
  GetAndLockUsage env (coupon_usage s) (Coupon.ID couponMeta)
    (ValidationRequest.UserID req) = (tx, Err) ->
  consumeUsage env s couponMeta req d
  = {| service := s; resp := invalid "internal_error";
       err := Some (Wrapped "get lock"); txlog := [TxBegin; TxRollback] |}.
Proof.
  intros Hb Hg. unfold consumeUsage, BeginTx, usageTx. now rewrite Hb, Hg.
Qed.

(** Step 4 once the row is locked: the two gates, then the increment and the
    commit. *)
Lemma consumeUsage_locked (env : Env) (s : CouponService) (couponMeta : CouponMeta.t)
    (req : ValidationRequest.t) (d : float) (tx : gmap (Z * string) UsageRow) (count : Z) :
  fails env AtBeginTx = false ->
  GetAndLockUsage env (coupon_usage s) (Coupon.ID couponMeta)
    (ValidationRequest.UserID req) = (tx, Ok count) ->
  consumeUsage env s couponMeta req d
  = if String.eqb (Coupon.UsageType couponMeta) "one_time" && (1 <=? count)
    then {| service := s; resp := invalid "coupon_already_used"; err := None;
            txlog := [TxBegin; TxRollback] |}
    else if (0 <? Coupon.MaxUsagePerUser couponMeta)
            && (Coupon.MaxUsagePerUser couponMeta <=? count)
    then {| service := s; resp := invalid "usage_limit_reached"; err := None;
            txlog := [TxBegin; TxRollback] |}
    else if fails env AtIncrementUsage
    then {| service := s; resp := invalid "internal_error";
            err := Some (Wrapped "increment usage"); txlog := [TxBegin; TxRollback] |}
    else if fails env AtCommit
    then {| service := s; resp := invalid "internal_error";
            err := Some (Wrapped "tx commit"); txlog := [TxBegin; TxRollback] |}
    else {| service :=
              {| coupons := coupons s;
                 coupon_usage :=
                   alter (fun row => {| usage_count := usage_count row + 1;
                                        last_used := usedAt env |})
                         (Coupon.ID couponMeta, ValidationRequest.UserID req) tx;
                 cache := cache s |};
            resp := {| ValidationResponse.IsValid := true;
                       ValidationResponse.Discount := d;
                       ValidationResponse.Message := "coupon_applied" |};
            err := None;
            txlog := [TxBegin; TxCommit] |}.
Proof.
  intros Hb Hg. unfold consumeUsage, BeginTx, usageTx. rewrite Hb, Hg.
  unfold IncrementUsage, Commit, Rollback.
  repeat case_match; simplify_eq; reflexivity.
Qed.

(** The messages of step 4. *)
Lemma consumeUsage_message (env : Env) (s : CouponService)
    (couponMeta : CouponMeta.t) (req : ValidationRequest.t) (d : float) :
  ValidationResponse.Message (resp (consumeUsage env s couponMeta req d))
  ∈ ["internal_error"; "coupon_already_used"; "usage_limit_reached"; "coupon_applied"].
Proof.
  destruct (fails env AtBeginTx) eqn:Hb.
  { rewrite consumeUsage_begin_failed by assumption. apply list_elem_of_In. cbn. tauto. }
  destruct (GetAndLockUsage env (coupon_usage s) (Coupon.ID couponMeta)
              (ValidationRequest.UserID req)) as [tx [count |]] eqn:Hg.
  - rewrite (consumeUsage_locked _ _ _ _ _ _ _ Hb Hg).
    repeat case_match; cbn; apply list_elem_of_In; cbn; tauto.
  - rewrite (consumeUsage_lock_failed _ _ _ _ _ _ Hb Hg).
    apply list_elem_of_In. cbn. tauto.
Qed.

(** The first static check that fails decides the message. *)
Lemma basicValidations_spec (env : Env) (couponMeta : CouponMeta.t)
    (req : ValidationRequest.t) :
  let expired := Coupon.ExpiryDate couponMeta < now env in
  let belowMin :=
    fgt (Coupon.MinOrderValue couponMeta) (ValidationRequest.OrderTotal req) = true in
  let outside :=
    exists validFrom validTo,
      Coupon.ValidFrom couponMeta = Some validFrom
      /\ Coupon.ValidTo couponMeta = Some validTo
      /\ (now env < validFrom \/ validTo < now env) in
  (expired -> basicValidations env couponMeta req = Some "coupon_expired")
  /\ (~ expired -> belowMin ->
      basicValidations env couponMeta req = Some "min_order_value_not_met")
  /\ (~ expired -> ~ belowMin -> outside ->
      basicValidations env couponMeta req = Some "not_in_valid_window")
  /\ (~ expired -> ~ belowMin -> ~ outside ->
      basicValidations env couponMeta req = None).
Proof.
  cbn zeta. unfold basicValidations, Before, After.
  destruct (Z.ltb_spec (Coupon.ExpiryDate couponMeta) (now env)) as [He | He].
  { repeat split; intros; try reflexivity; lia. }
  destruct (fgt _ _) eqn:Hm.
  { repeat split; intros; try reflexivity; try lia; congruence. }
  destruct (Coupon.ValidFrom couponMeta) as [vf |], (Coupon.ValidTo couponMeta) as [vt |].
  - destruct (Z.ltb_spec (now env) vf), (Z.ltb_spec vt (now env)); cbn;
      repeat split; intros; try reflexivity; try lia; try congruence;
      try (exfalso; naive_solver lia).
  - repeat split; intros; try reflexivity; try lia; try congruence; naive_solver.
  - repeat split; intros; try reflexivity; try lia; try congruence; naive_solver.
  - repeat split; intros; try reflexivity; try lia; try congruence; naive_solver.
Qed.

(** When the static checks pass the message is none of theirs. *)
Lemma ValidateCoupon_passed_static (env : Env) (s s1 : CouponService)
    (req : ValidationRequest.t) (couponMeta : CouponMeta.t) :
  loadMeta env s req = inr (s1, couponMeta) ->
  basicValidations env couponMeta req = None ->
  ValidationResponse.Message (resp (ValidateCoupon env s req))
  ∉ ["coupon_expired"; "min_order_value_not_met"; "not_in_valid_window"].
Proof.
  intros Hl Hb. unfold ValidateCoupon. rewrite Hl, Hb.
  destruct (itemChecks _ _ _) as [total |].
  - pose proof (consumeUsage_message env s1 couponMeta req
                  (totalDiscount couponMeta req total)) as H.
    intros Hin. apply list_elem_of_In in H, Hin. cbn [In] in H, Hin.
    destruct H as [H | [H | [H | [H | []]]]]; rewrite <- H in Hin;
      intuition discriminate.
  - intros Hin. apply list_elem_of_In in Hin. cbn in Hin. intuition discriminate.
Qed.

(** C5: once the coupon is loaded the static checks run in order: expiry
    ([now > expiryDate]), then the minimum order value, then the validity
    window, which rejects only when both bounds are set and [now] is before
    [validFrom] or after [validTo]; the bounds themselves are inside. *)
Theorem static_checks_in_order (env : Env) (s s1 : CouponService)
    (req : ValidationRequest.t) (couponMeta : CouponMeta.t) :
  loadMeta env s req = inr (s1, couponMeta) ->
  let r := ValidateCoupon env s req in
  let expired := Coupon.ExpiryDate couponMeta < now env in
  let belowMin :=
    fgt (Coupon.MinOrderValue couponMeta) (ValidationRequest.OrderTotal req) = true in
  let outside :=
    exists validFrom validTo,
      Coupon.ValidFrom couponMeta = Some validFrom
      /\ Coupon.ValidTo couponMeta = Some validTo
      /\ (now env < validFrom \/ validTo < now env) in
  (expired -> resp r = invalid "coupon_expired" /\ err r = None)
  /\ (~ expired -> belowMin ->
      resp r = invalid "min_order_value_not_met" /\ err r = None)
  /\ (~ expired -> ~ belowMin -> outside ->
      resp r = invalid "not_in_valid_window" /\ err r = None)
  /\ (~ expired -> ~ belowMin -> ~ outside ->
      ValidationResponse.Message (resp r)
      ∉ ["coupon_expired"; "min_order_value_not_met"; "not_in_valid_window"])
  /\ (Coupon.ValidFrom couponMeta = None \/ Coupon.ValidTo couponMeta = None ->
      ValidationResponse.Message (resp r) <> "not_in_valid_window")
  /\ (forall validFrom validTo,
        Coupon.ValidFrom couponMeta = Some validFrom ->
        Coupon.ValidTo couponMeta = Some validTo ->
        validFrom <= validTo ->
        now env = validFrom \/ now env = validTo ->
        ValidationResponse.Message (resp r) <> "not_in_valid_window").
Proof.
  intros Hl r expired belowMin outside.
  destruct (basicValidations_spec env couponMeta req) as (H1 & H2 & H3 & H4).
  fold expired belowMin outside in H1, H2, H3, H4.
  assert (Hnot : ~ outside ->
            ValidationResponse.Message (resp r) <> "not_in_valid_window").
  { intros Hout. destruct (decide expired) as [He | He].
    { subst r. rewrite (ValidateCoupon_static _ _ _ _ _ _ Hl (H1 He)). discriminate. }
    assert (Hdec : belowMin \/ ~ belowMin).
    { unfold belowMin. destruct (fgt _ _); [left | right]; congruence. }
    destruct Hdec as [Hm | Hb].
    { subst r. rewrite (ValidateCoupon_static _ _ _ _ _ _ Hl (H2 He Hm)). discriminate. }
    pose proof (ValidateCoupon_passed_static _ _ _ _ _ Hl (H4 He Hb Hout)) as Hp.
    intros Heq. apply Hp. subst r. rewrite Heq. apply list_elem_of_In. cbn. tauto. }
  repeat split.
  - subst r. now rewrite (ValidateCoupon_static _ _ _ _ _ _ Hl (H1 H)).
  - subst r. now rewrite (ValidateCoupon_static _ _ _ _ _ _ Hl (H1 H)).
  - subst r. now rewrite (ValidateCoupon_static _ _ _ _ _ _ Hl (H2 H H0)).
  - subst r. now rewrite (ValidateCoupon_static _ _ _ _ _ _ Hl (H2 H H0)).
  - subst r. now rewrite (ValidateCoupon_static _ _ _ _ _ _ Hl (H3 H H0 H5)).
  - subst r. now rewrite (ValidateCoupon_static _ _ _ _ _ _ Hl (H3 H H0 H5)).
  - intros He Hb Hout. now apply (ValidateCoupon_passed_static _ _ _ _ _ Hl), H4.
  - intros Hnone. apply Hnot. intros (vf & vt & Hf & Ht & _).
    destruct Hnone; congruence.
  - intros vf vt Hf Ht Hle Hnow. apply Hnot.
    intros (vf' & vt' & Hf' & Ht' & Hout).
    rewrite Hf in Hf'. rewrite Ht in Ht'. simplify_eq. lia.
Qed.

(** The static checks at work: at instant 15 the window [10, 20] of SAVE10
    is open and the call is not rejected by a static check; at instant 21 it
    is rejected for the window. *)
Lemma static_checks_in_order_witness :
  (ValidationResponse.Message (resp (ValidateCoupon (calm 15) shop (order "SAVE10" [itemA])))
   ∉ ["coupon_expired"; "min_order_value_not_met"; "not_in_valid_window"])
  /\ resp (ValidateCoupon (calm 21) shop (order "SAVE10" [itemA]))
     = invalid "not_in_valid_window".
Proof.
  split.
  - refine (proj1 (proj2 (proj2 (proj2
      (static_checks_in_order (calm 15) shop _ (order "SAVE10" [itemA]) save10 _)))) _ _ _).
    + reflexivity.
    + cbn. lia.
    + cbn. discriminate.
    + cbn. intros (vf & vt & Hf & Ht & Hout). simplify_eq. lia.
  - refine (proj1 (proj1 (proj2 (proj2
      (static_checks_in_order (calm 21) shop _ (order "SAVE10" [itemA]) save10 _))) _ _ _)).
    + reflexivity.
    + cbn. lia.
    + cbn. discriminate.
    + cbn. exists 10, 20. repeat split. lia.
Defined.

(** C6, at a concrete input: FLAT50 expires at instant 1000; a call at
    instant 1000 exactly is accepted, not rejected as expired. *)
Lemma expiry_boundary_accepted :
  now (calm 1000) = Coupon.ExpiryDate flat50
  /\ resolve shop "FLAT50" = Some flat50
  /\ resp (ValidateCoupon (calm 1000) shop (order "FLAT50" []))
     = {| ValidationResponse.IsValid := true;
          ValidationResponse.Discount := 50%float;
          ValidationResponse.Message := "coupon_applied" |}.
Proof. repeat split; vm_compute; reflexivity. Qed.

(** C6, as the code has it: the coupon is rejected as expired exactly when
    its expiry date is strictly before [now]; at [now = expiryDate] the
    expiry check passes. *)
Theorem expiry_boundary (env : Env) (s s1 : CouponService)
    (req : ValidationRequest.t) (couponMeta : CouponMeta.t) :
  loadMeta env s req = inr (s1, couponMeta) ->
  (ValidationResponse.Message (resp (ValidateCoupon env s req)) = "coupon_expired"
   <-> Coupon.ExpiryDate couponMeta < now env)
  /\ (now env = Coupon.ExpiryDate couponMeta ->
      ValidationResponse.Message (resp (ValidateCoupon env s req)) <> "coupon_expired").
Proof.
  intros Hl.
  assert (Hiff : ValidationResponse.Message (resp (ValidateCoupon env s req)) = "coupon_expired"
                 <-> Coupon.ExpiryDate couponMeta < now env).
  { split.
    - intros Hmsg. destruct (basicValidations env couponMeta req) as [msg |] eqn:Hb.
      + rewrite (ValidateCoupon_static _ _ _ _ _ _ Hl Hb) in Hmsg. cbn in Hmsg. subst msg.
        unfold basicValidations, Before in Hb.
        destruct (Z.ltb_spec (Coupon.ExpiryDate couponMeta) (now env)); [assumption |].
        repeat case_match; discriminate.
      + pose proof (ValidateCoupon_passed_static _ _ _ _ _ Hl Hb) as Hp.
        exfalso. apply Hp. rewrite Hmsg. apply list_elem_of_In. cbn. tauto.
    - intros He.
      destruct (basicValidations_spec env couponMeta req) as (H1 & _).
      now rewrite (ValidateCoupon_static _ _ _ _ _ _ Hl (H1 He)). }
  split; [exact Hiff |]. intros Hnow Hmsg. apply Hiff in Hmsg. lia.
Qed.

Lemma expiry_boundary_witness :
  ValidationResponse.Message (resp (ValidateCoupon (calm 1001) shop (order "FLAT50" [])))
  = "coupon_expired".
Proof.
  apply (proj1 (expiry_boundary (calm 1001) shop _ (order "FLAT50" []) flat50 eq_refl)).
  cbn. lia.
Defined.

(** ** Steps 1 to 4, seen from the response *)

Lemma doneBy_commit (env : Env) : doneBy env AtCommit = false -> ctxDone env = None.
Proof. unfold doneBy. destruct (ctxDone env) as [[] |]; cbn; congruence. Qed.

Lemma fails_commit (env : Env) : fails env AtCommit = false -> ctxDone env = None.
Proof.
  unfold fails. intros H. apply orb_false_elim in H as [_ H].
  now apply doneBy_commit.
Qed.

Lemma doneBy_open (env : Env) (st : Stage) : ctxDone env = None -> doneBy env st = false.
Proof. unfold doneBy. now intros ->. Qed.

Lemma itemChecks_open (env : Env) (couponMeta : CouponMeta.t) (items : list CartItem.t) :
  ctxDone env = None ->
  itemChecks env couponMeta items
  = Some (collect (map (worker couponMeta) (arrival (picks env) items))).
Proof. intros H. unfold itemChecks. now rewrite doneBy_open. Qed.

(** Step 1 changes the cache only, and hands out the coupon [resolve] names. *)
Lemma loadMeta_inr (env : Env) (s s1 : CouponService) (req : ValidationRequest.t)
    (couponMeta : CouponMeta.t) :
  loadMeta env s req = inr (s1, couponMeta) ->
  coupons s1 = coupons s
  /\ coupon_usage s1 = coupon_usage s
  /\ resolve s (ValidationRequest.CouponCode req) = Some couponMeta
  /\ (cache s1 = cache s
      \/ cache s1 = <[ValidationRequest.CouponCode req := couponMeta]> (cache s)
         /\ coupons s !! ValidationRequest.CouponCode req = Some couponMeta).
Proof.
  unfold loadMeta, GetCouponMeta, resolve.
  destruct (cache s !! ValidationRequest.CouponCode req) as [cm |] eqn:Hc.
  - intros [= <- <-]. repeat split; auto.
  - destruct (fails env AtGetCouponMeta); [discriminate |].
    destruct (coupons s !! ValidationRequest.CouponCode req) as [m |] eqn:Hm;
      [| discriminate].
    intros [= <- <-]. cbn. repeat split; auto.
Qed.

Lemma loadMeta_inl (env : Env) (s : CouponService) (req : ValidationRequest.t)
    (r : Result) :
  loadMeta env s req = inl r ->
  ValidationResponse.IsValid (resp r) = false /\ service r = s /\ txlog r = [].
Proof.
  unfold loadMeta. repeat case_match; intros [= <-]; repeat split; auto.
Qed.

(** What [GetAndLockUsage] returns when it succeeds: the committed count of
    the pair, and a view of the table that holds a row for it. *)
Lemma GetAndLockUsage_ok (env : Env) (t tx : gmap (Z * string) UsageRow)
    (couponID : Z) (userID : string) (count : Z) :
  GetAndLockUsage env t couponID userID = (tx, Ok count) ->
  count = from_option usage_count 0 (t !! (couponID, userID))
  /\ (exists row, tx !! (couponID, userID) = Some row /\ usage_count row = count)
  /\ (forall key, key <> (couponID, userID) -> tx !! key = t !! key).
Proof.
  unfold GetAndLockUsage.
  destruct (fails env AtSelectForUpdate); [discriminate |].
  destruct (t !! (couponID, userID)) as [row |] eqn:Hrow.
  - intros [= <- <-]. cbn. eauto.
  - destruct (fails env AtInsert); [discriminate |].
    intros [= <- <-]. cbn. split; [reflexivity |]. split.
    + eexists. rewrite lookup_insert_eq. eauto.
    + intros key Hkey. now rewrite lookup_insert_ne.
Qed.

(** The accepted path, read off an accepting response. *)
Lemma accepted_inv (env : Env) (s : CouponService) (req : ValidationRequest.t) :
  ValidationResponse.IsValid (resp (ValidateCoupon env s req)) = true ->
  exists s1 couponMeta tx count,
    loadMeta env s req = inr (s1, couponMeta)
    /\ basicValidations env couponMeta req = None
    /\ ctxDone env = None
    /\ GetAndLockUsage env (coupon_usage s1) (Coupon.ID couponMeta)
         (ValidationRequest.UserID req) = (tx, Ok count)
    /\ String.eqb (Coupon.UsageType couponMeta) "one_time" && (1 <=? count) = false
    /\ (0 <? Coupon.MaxUsagePerUser couponMeta)
       && (Coupon.MaxUsagePerUser couponMeta <=? count) = false
    /\ ValidateCoupon env s req
       = {| service :=
              {| coupons := coupons s1;
                 coupon_usage :=
                   alter (fun row => {| usage_count := usage_count row + 1;
                                        last_used := usedAt env |})
                         (Coupon.ID couponMeta, ValidationRequest.UserID req) tx;
                 cache := cache s1 |};
            resp :=
              {| ValidationResponse.IsValid := true;
                 ValidationResponse.Discount :=
                   totalDiscount couponMeta req
                     (collect (map (worker couponMeta)
                                   (arrival (picks env) (ValidationRequest.CartItems req))));
                 ValidationResponse.Message := "coupon_applied" |};
            err := None;
            txlog := [TxBegin; TxCommit] |}.
Proof.
  intros H. unfold ValidateCoupon in *.
  destruct (loadMeta env s req) as [r | [s1 m]] eqn:Hl.
  { apply loadMeta_inl in Hl as [Hl _]. congruence. }
  destruct (basicValidations env m req) eqn:Hb; [discriminate H |].
  destruct (itemChecks env m (ValidationRequest.CartItems req)) as [total |] eqn:Hi;
    [| discriminate H].
  destruct (fails env AtBeginTx) eqn:Hbegin.
  { rewrite consumeUsage_begin_failed in H by assumption. discriminate H. }
  destruct (GetAndLockUsage env (coupon_usage s1) (Coupon.ID m)
              (ValidationRequest.UserID req)) as [tx [count |]] eqn:Hg; cycle 1.
  { rewrite (consumeUsage_lock_failed _ _ _ _ _ _ Hbegin Hg) in H. discriminate H. }
  rewrite (consumeUsage_locked _ _ _ _ _ _ _ Hbegin Hg) in *.
  destruct (String.eqb (Coupon.UsageType m) "one_time" && (1 <=? count)) eqn:H1;
    [discriminate H |].
  destruct ((0 <? Coupon.MaxUsagePerUser m)
            && (Coupon.MaxUsagePerUser m <=? count)) eqn:H2; [discriminate H |].
  destruct (fails env AtIncrementUsage); [discriminate H |].
  destruct (fails env AtCommit) eqn:Hc; [discriminate H |].
  apply fails_commit in Hc.
  rewrite (itemChecks_open _ _ _ Hc) in Hi. injection Hi as <-.
  exists s1, m, tx, count. repeat split; assumption || reflexivity.
Qed.

(** ** The discount of an accepted call *)

(** C3: an accepted call returns, for an inventory percentage coupon, the sum
    of [float64(qty) * price * (discountValue / 100)] over the applicable cart
    items, added up in the order their results reach the collector (a
    permutation of the cart); for an inventory flat coupon, [discountValue]
    once; for a charges percentage coupon, [orderTotal * (discountValue /
    100)]; for a charges flat coupon, [discountValue]. An item of price 100 and
    quantity 2 under a value of 10 gives 20, and a charges flat coupon of 50 on
    an order total of 500 gives 50 whatever the cart holds. *)
Theorem accepted_discount (env : Env) (s s1 : CouponService)
    (req : ValidationRequest.t) (couponMeta : CouponMeta.t) :
  loadMeta env s req = inr (s1, couponMeta) ->
  ValidationResponse.IsValid (resp (ValidateCoupon env s req)) = true ->
  let discount := ValidationResponse.Discount (resp (ValidateCoupon env s req)) in
  let arrived := arrival (picks env) (ValidationRequest.CartItems req) in
  let value := Coupon.DiscountValue couponMeta in
  arrived ≡ₚ ValidationRequest.CartItems req
  /\ (Coupon.TargetType couponMeta = "inventory" ->
      Coupon.DiscountType couponMeta = "percentage" ->
      discount = collect (map (percentageOf couponMeta)
                              (List.filter (applicable couponMeta) arrived)))
  /\ (Coupon.TargetType couponMeta = "inventory" ->
      Coupon.DiscountType couponMeta = "flat" -> discount = value)
  /\ (Coupon.TargetType couponMeta = "charges" ->
      Coupon.DiscountType couponMeta = "percentage" ->
      discount = (ValidationRequest.OrderTotal req * (value / 100))%float)
  /\ (Coupon.TargetType couponMeta = "charges" ->
      Coupon.DiscountType couponMeta = "flat" -> discount = value)
  /\ (forall it, CartItem.Price it = 100%float -> CartItem.Qty it = 2 ->
      value = 10%float -> percentageOf couponMeta it = 20%float)
  /\ (Coupon.TargetType couponMeta = "charges" ->
      Coupon.DiscountType couponMeta = "flat" -> value = 50%float ->
      ValidationRequest.OrderTotal req = 500%float -> discount = 50%float).
Proof.
  intros Hl Hv discount arrived value.
  destruct (accepted_inv env s req Hv)
    as (s1' & m' & tx & count & Hl' & _ & _ & _ & _ & _ & Heq).
  rewrite Hl in Hl'. injection Hl' as <- <-.
  assert (Hd : discount
               = totalDiscount couponMeta req (collect (map (worker couponMeta) arrived))).
  { subst discount. now rewrite Heq. }
  clearbody discount. subst discount. unfold totalDiscount. subst value.
  split; [apply arrival_perm |].
  split; [| split; [| split; [| split; [| split]]]].
  - intros Ht Hk. rewrite Ht, Hk. cbn.
    unfold collect. rewrite (fold_add_skip_zeros _ (applicable couponMeta));
      [| apply worker_not_applicable | apply zero_not_negZero].
    f_equal. apply map_ext_in. intros it Hin.
    apply List.filter_In in Hin as [_ Hin].
    now rewrite worker_inventory_percentage, Hin.
  - intros -> ->. reflexivity.
  - intros -> ->. reflexivity.
  - intros -> ->. reflexivity.
  - intros it Hp Hq Hval. unfold percentageOf. now rewrite Hp, Hq, Hval.
  - intros -> -> -> _. reflexivity.
Qed.

(** SAVE10 (inventory, 10 percent, item "a" only) on a cart with the
    applicable item A (2 at 100) and the item B: the discount is 20. *)
Lemma accepted_discount_witness :
  ValidationResponse.Discount
    (resp (ValidateCoupon (calm 15) shop (order "SAVE10" [itemA; itemB])))
  = collect (map (percentageOf save10) (List.filter (applicable save10) [itemA; itemB]))
  /\ collect (map (percentageOf save10) (List.filter (applicable save10) [itemA; itemB]))
     = 20%float.
Proof.
  split; [| vm_compute; reflexivity].
  refine (proj1 (proj2
    (accepted_discount (calm 15) shop _ (order "SAVE10" [itemA; itemB]) save10 _ _)) _ _).
  - reflexivity.
  - vm_compute. reflexivity.
  - reflexivity.
  - reflexivity.
Defined.

(** ** The usage transaction *)

Lemma usageCount_loadMeta (env : Env) (s s1 : CouponService)
    (req : ValidationRequest.t) (couponMeta : CouponMeta.t) (couponID : Z) (userID : string) :
  loadMeta env s req = inr (s1, couponMeta) ->
  usageCount s1 couponID userID = usageCount s couponID userID.
Proof.
  intros H. apply loadMeta_inr in H as (_ & H & _). unfold usageCount. now rewrite H.
Qed.

(** The count of the pair after the UPDATE of an accepted call. *)
Lemma usageCount_incremented (env : Env) (t tx : gmap (Z * string) UsageRow)
    (c : gmap string CouponMeta.t) (k : gmap string CouponMeta.t)
    (couponID : Z) (userID : string) (count : Z) :
  GetAndLockUsage env t couponID userID = (tx, Ok count) ->
  usageCount
    {| coupons := c;
       coupon_usage := alter (fun row => {| usage_count := usage_count row + 1;
                                            last_used := usedAt env |})
                             (couponID, userID) tx;
       cache := k |} couponID userID
  = count + 1.
Proof.
  intros H. apply GetAndLockUsage_ok in H as (_ & (row & Hrow & Hc) & _).
  unfold usageCount. cbn. rewrite lookup_alter_eq, Hrow. cbn. now rewrite Hc.
Qed.

Lemma one_time_gate (couponMeta : CouponMeta.t) (count : Z) :
  String.eqb (Coupon.UsageType couponMeta) "one_time" && (1 <=? count) = true
  <-> Coupon.UsageType couponMeta = "one_time" /\ 1 <= count.
Proof. now rewrite andb_true_iff, String.eqb_eq, Z.leb_le. Qed.

Lemma limit_gate (couponMeta : CouponMeta.t) (count : Z) :
  (0 <? Coupon.MaxUsagePerUser couponMeta)
  && (Coupon.MaxUsagePerUser couponMeta <=? count) = true
  <-> 0 < Coupon.MaxUsagePerUser couponMeta /\ Coupon.MaxUsagePerUser couponMeta <= count.
Proof. now rewrite andb_true_iff, Z.ltb_lt, Z.leb_le. Qed.

(** C4: with the row locked and its count read, [coupon_already_used] is
    returned exactly when the coupon is one_time and the count is at least 1;
    otherwise [usage_limit_reached] exactly when [maxUsagePerUser > 0] and the
    count has reached it; otherwise the usage is incremented and committed (an
    I/O failure of the increment or of the commit apart). With
    [maxUsagePerUser = 0] on a coupon that is not one_time neither gate
    rejects. *)
Theorem usage_gates (env : Env) (s s1 : CouponService) (req : ValidationRequest.t)
    (couponMeta : CouponMeta.t) (total : float)
    (tx : gmap (Z * string) UsageRow) (count : Z) :
  reachesUsage env s req s1 couponMeta total ->
  fails env AtBeginTx = false ->
  GetAndLockUsage env (coupon_usage s1) (Coupon.ID couponMeta)
    (ValidationRequest.UserID req) = (tx, Ok count) ->
  let r := ValidateCoupon env s req in
  let message := ValidationResponse.Message (resp r) in
  let oneTimeUsed := Coupon.UsageType couponMeta = "one_time" /\ 1 <= count in
  let limitReached :=
    0 < Coupon.MaxUsagePerUser couponMeta /\ Coupon.MaxUsagePerUser couponMeta <= count in
  count = usageCount s (Coupon.ID couponMeta) (ValidationRequest.UserID req)
  /\ (oneTimeUsed -> resp r = invalid "coupon_already_used" /\ err r = None)
  /\ (message = "coupon_already_used" -> oneTimeUsed)
  /\ (~ oneTimeUsed -> limitReached ->
      resp r = invalid "usage_limit_reached" /\ err r = None)
  /\ (message = "usage_limit_reached" -> ~ oneTimeUsed /\ limitReached)
  /\ (~ oneTimeUsed -> ~ limitReached ->
      if fails env AtIncrementUsage
      then resp r = invalid "internal_error" /\ err r = Some (Wrapped "increment usage")
      else if fails env AtCommit
      then resp r = invalid "internal_error" /\ err r = Some (Wrapped "tx commit")
      else ValidationResponse.IsValid (resp r) = true
           /\ message = "coupon_applied"
           /\ txlog r = [TxBegin; TxCommit]
           /\ usageCount (service r) (Coupon.ID couponMeta) (ValidationRequest.UserID req)
              = count + 1)
  /\ (Coupon.MaxUsagePerUser couponMeta = 0 ->
      Coupon.UsageType couponMeta <> "one_time" ->
      message <> "usage_limit_reached" /\ message <> "coupon_already_used").
Proof.
  intros Hr Hb Hg r message oneTimeUsed limitReached.
  assert (Hcount : count = usageCount s (Coupon.ID couponMeta) (ValidationRequest.UserID req)).
  { destruct Hr as (Hl & _). rewrite <- (usageCount_loadMeta _ _ _ _ _ _ _ Hl).
    now apply GetAndLockUsage_ok in Hg as (-> & _). }
  assert (Hrun : r = consumeUsage env s1 couponMeta req (totalDiscount couponMeta req total))
    by (subst r; now apply ValidateCoupon_usage).
  rewrite (consumeUsage_locked _ _ _ _ _ _ _ Hb Hg) in Hrun.
  subst message. clearbody r.
  destruct (String.eqb (Coupon.UsageType couponMeta) "one_time" && (1 <=? count)) eqn:E1.
  { apply one_time_gate in E1. subst r. cbn. unfold oneTimeUsed, limitReached in *.
    repeat split; intros; try tauto; try discriminate; exfalso; tauto. }
  assert (N1 : ~ oneTimeUsed)
    by (unfold oneTimeUsed; rewrite <- one_time_gate; congruence).
  destruct ((0 <? Coupon.MaxUsagePerUser couponMeta)
            && (Coupon.MaxUsagePerUser couponMeta <=? count)) eqn:E2.
  { apply limit_gate in E2. subst r. cbn. unfold oneTimeUsed, limitReached in *.
    repeat split; intros; try tauto; try discriminate; exfalso; tauto || lia. }
  assert (N2 : ~ limitReached)
    by (unfold limitReached; rewrite <- limit_gate; congruence).
  destruct (fails env AtIncrementUsage) eqn:E3;
    [| destruct (fails env AtCommit) eqn:E4]; subst r; cbn;
    unfold oneTimeUsed, limitReached in *;
    repeat split; intros; try tauto; try discriminate.
  now apply (usageCount_incremented env (coupon_usage s1)).
Qed.

(** A first call for SAVE10 by a user without a row: the row is created with
    count 0, no gate rejects, and the call commits count 1. *)
Lemma usage_gates_witness :
  ValidationResponse.Message
    (resp (ValidateCoupon (calm 15) shop (order "SAVE10" [itemA]))) = "coupon_applied"
  /\ usageCount (service (ValidateCoupon (calm 15) shop (order "SAVE10" [itemA]))) 7 "u1"
     = 0 + 1.
Proof.
  assert (Hr : reachesUsage (calm 15) shop (order "SAVE10" [itemA])
                 {| coupons := coupons shop; coupon_usage := ∅;
                    cache := {["SAVE10" := save10]} |} save10 20%float).
  { repeat split; vm_compute; reflexivity. }
  assert (Hg : GetAndLockUsage (calm 15) ∅ 7 "u1"
               = ({[(7, "u1") := {| usage_count := 0; last_used := 15 |}]}, Ok 0)).
  { vm_compute. reflexivity. }
  destruct (usage_gates _ _ _ _ _ _ _ _ Hr eq_refl Hg) as (_ & _ & _ & _ & _ & H & _).
  cbn in H. destruct H as (_ & Hm & _ & Hc); [lia | lia |].
  split; assumption.
Defined.

(** ** Commit and rollback *)

(** Every way out of step 4. *)
Lemma consumeUsage_exits (env : Env) (s : CouponService) (couponMeta : CouponMeta.t)
    (req : ValidationRequest.t) (d : float) :
  let r := consumeUsage env s couponMeta req d in
  (ValidationResponse.IsValid (resp r) = false /\ service r = s
   /\ ((txlog r = [] /\ err r = Some (Wrapped "begin tx")
        /\ ValidationResponse.Message (resp r) = "internal_error")
       \/ (txlog r = [TxBegin; TxRollback]
           /\ ((err r = None
                /\ (ValidationResponse.Message (resp r) = "coupon_already_used"
                    \/ ValidationResponse.Message (resp r) = "usage_limit_reached"))
               \/ (ValidationResponse.Message (resp r) = "internal_error"
                   /\ exists p, err r = Some (Wrapped p)
                                /\ p ∈ ["get lock"; "increment usage"; "tx commit"])))))
  \/ (ValidationResponse.IsValid (resp r) = true
      /\ txlog r = [TxBegin; TxCommit] /\ err r = None
      /\ ValidationResponse.Message (resp r) = "coupon_applied"
      /\ fails env AtCommit = false).
Proof.
  cbn zeta.
  destruct (fails env AtBeginTx) eqn:Hb.
  { rewrite consumeUsage_begin_failed by assumption. left. cbn. auto 10. }
  destruct (GetAndLockUsage env (coupon_usage s) (Coupon.ID couponMeta)
              (ValidationRequest.UserID req)) as [tx [count |]] eqn:Hg; cycle 1.
  { rewrite (consumeUsage_lock_failed _ _ _ _ _ _ Hb Hg).
    left. cbn. repeat split. right. split; [reflexivity |]. right.
    split; [reflexivity |]. eexists. split; [reflexivity |].
    apply list_elem_of_In. cbn. tauto. }
  rewrite (consumeUsage_locked _ _ _ _ _ _ _ Hb Hg).
  destruct (_ && _); [left; cbn; auto 10 |].
  destruct (_ && _); [left; cbn; auto 10 |].
  destruct (fails env AtIncrementUsage).
  { left. cbn. repeat split. right. split; [reflexivity |]. right.
    split; [reflexivity |]. eexists. split; [reflexivity |].
    apply list_elem_of_In. cbn. tauto. }
  destruct (fails env AtCommit) eqn:Hc.
  { left. cbn. repeat split. right. split; [reflexivity |]. right.
    split; [reflexivity |]. eexists. split; [reflexivity |].
    apply list_elem_of_In. cbn. tauto. }
  right. cbn. auto.
Qed.

(** Every way out of ValidateCoupon: before the transaction is opened, or
    through one of the exits of step 4. *)
Lemma ValidateCoupon_exits (env : Env) (s : CouponService) (req : ValidationRequest.t) :
  let r := ValidateCoupon env s req in
  (ValidationResponse.IsValid (resp r) = false /\ txlog r = []
   /\ coupon_usage (service r) = coupon_usage s
   /\ ValidationResponse.Message (resp r) <> "coupon_already_used"
   /\ ValidationResponse.Message (resp r) <> "usage_limit_reached"
   /\ forall p, err r = Some (Wrapped p) -> p = "begin tx")
  \/ exists s1 couponMeta d,
       coupon_usage s1 = coupon_usage s
       /\ r = consumeUsage env s1 couponMeta req d.
Proof.
  cbn zeta. unfold ValidateCoupon.
  destruct (loadMeta env s req) as [r | [s1 m]] eqn:Hl.
  { left. unfold loadMeta in Hl.
    repeat case_match; simplify_eq; cbn; repeat split; congruence. }
  apply loadMeta_inr in Hl as (_ & Hu & _).
  destruct (basicValidations env m req) as [msg |] eqn:Hb.
  { left. cbn. repeat split; try congruence.
    all: unfold basicValidations in Hb; repeat case_match; simplify_eq; discriminate. }
  destruct (itemChecks env m _) as [total |].
  - right. eauto.
  - left. cbn. repeat split; congruence.
Qed.

(** C2: the usage transaction commits on the accepted path and only there.
    Every other exit taken after the transaction was opened (the two business
    rejections, an error of getAndLock, of the increment or of the commit)
    ends in a rollback, and whenever the call is not accepted the committed
    usage table is the one the call started from; a context that is done at
    any point of the call is one such case. *)
Theorem commit_only_when_accepted (env : Env) (s : CouponService)
    (req : ValidationRequest.t) :
  let r := ValidateCoupon env s req in
  let message := ValidationResponse.Message (resp r) in
  (In TxCommit (txlog r) <-> ValidationResponse.IsValid (resp r) = true)
  /\ (ValidationResponse.IsValid (resp r) = true -> txlog r = [TxBegin; TxCommit])
  /\ (ValidationResponse.IsValid (resp r) = false ->
      coupon_usage (service r) = coupon_usage s
      /\ (In TxBegin (txlog r) -> txlog r = [TxBegin; TxRollback]))
  /\ (message = "coupon_already_used" \/ message = "usage_limit_reached" ->
      txlog r = [TxBegin; TxRollback] /\ coupon_usage (service r) = coupon_usage s)
  /\ (forall p, err r = Some (Wrapped p) ->
      p ∈ ["get lock"; "increment usage"; "tx commit"] ->
      txlog r = [TxBegin; TxRollback] /\ coupon_usage (service r) = coupon_usage s)
  /\ (ctxDone env <> None ->
      ValidationResponse.IsValid (resp r) = false
      /\ coupon_usage (service r) = coupon_usage s
      /\ ~ In TxCommit (txlog r)).
Proof.
  intros r message. subst message.
  destruct (ValidateCoupon_exits env s req) as [H | (s1 & m & d & Hu & Hr)];
    fold r in H || fold r in Hr.
  - destruct H as (Hv & Hlog & Hs & Hn1 & Hn2 & Hp).
    rewrite Hv, Hlog. cbn.
    repeat split; intros;
      try match goal with H : err _ = Some (Wrapped _) |- _ => apply Hp in H end;
      crush_cases.
  - pose proof (consumeUsage_exits env s1 m req d) as H. cbn zeta in H.
    rewrite <- Hr in H. clearbody r.
    destruct H as [(Hv & Hs & Hcases) | (Hv & Hlog & He & Hm & Hc)].
    + rewrite Hv, Hs, Hu.
      destruct Hcases as [(Hlog & He & Hm) | (Hlog & Hcases)]; rewrite Hlog; cbn;
        repeat split; intros; crush_cases.
    + apply fails_commit in Hc. rewrite Hv, Hlog, Hm. cbn.
      repeat split; intros; crush_cases.
Qed.

(** ** Zero discounts *)

Lemma GetAndLockUsage_succeeds (env : Env) (t : gmap (Z * string) UsageRow)
    (couponID : Z) (userID : string) :
  fails env AtSelectForUpdate = false -> fails env AtInsert = false ->
  exists tx, GetAndLockUsage env t couponID userID
             = (tx, Ok (from_option usage_count 0 (t !! (couponID, userID)))).
Proof.
  intros H1 H2. unfold GetAndLockUsage. rewrite H1.
  destruct (t !! (couponID, userID)); [eauto |]. rewrite H2. eauto.
Qed.

(** C10: an inventory percentage coupon on a cart without any applicable item
    (the empty cart included) is accepted like any other when the gates pass
    and nothing fails: the answer is [IsValid = true], [Discount = 0],
    [coupon_applied], and one usage is consumed. *)
Theorem zero_discount_consumes (env : Env) (s s1 : CouponService)
    (req : ValidationRequest.t) (couponMeta : CouponMeta.t) :
  loadMeta env s req = inr (s1, couponMeta) ->
  basicValidations env couponMeta req = None ->
  (forall st, fails env st = false) ->
  Coupon.TargetType couponMeta = "inventory" ->
  Coupon.DiscountType couponMeta = "percentage" ->
  (forall it, it ∈ ValidationRequest.CartItems req -> applicable couponMeta it = false) ->
  let count := usageCount s (Coupon.ID couponMeta) (ValidationRequest.UserID req) in
  ~ (Coupon.UsageType couponMeta = "one_time" /\ 1 <= count) ->
  ~ (0 < Coupon.MaxUsagePerUser couponMeta /\ Coupon.MaxUsagePerUser couponMeta <= count) ->
  let r := ValidateCoupon env s req in
  resp r = {| ValidationResponse.IsValid := true;
              ValidationResponse.Discount := 0%float;
              ValidationResponse.Message := "coupon_applied" |}
  /\ err r = None
  /\ txlog r = [TxBegin; TxCommit]
  /\ usageCount (service r) (Coupon.ID couponMeta) (ValidationRequest.UserID req)
     = count + 1.
Proof.
  intros Hl Hb Hio Ht Hk Hna count Hone Hlim r.
  pose proof (fails_commit env (Hio AtCommit)) as Hctx.
  assert (Hzero : collect (map (worker couponMeta)
                     (arrival (picks env) (ValidationRequest.CartItems req))) = 0%float).
  { apply collect_zeros, Forall_forall. intros d Hd.
    apply list_elem_of_In, in_map_iff in Hd as (it & <- & Hit).
    apply worker_not_applicable, Hna.
    rewrite <- (arrival_perm (picks env)). now apply list_elem_of_In. }
  assert (Hr : reachesUsage env s req s1 couponMeta 0%float).
  { repeat split; try assumption. now rewrite itemChecks_open, Hzero. }
  destruct (GetAndLockUsage_succeeds env (coupon_usage s1) (Coupon.ID couponMeta)
              (ValidationRequest.UserID req) (Hio _) (Hio _)) as [tx Hg].
  fold (usageCount s1 (Coupon.ID couponMeta) (ValidationRequest.UserID req)) in Hg.
  rewrite (usageCount_loadMeta _ _ _ _ _ _ _ Hl) in Hg. fold count in Hg.
  subst r. rewrite (ValidateCoupon_usage _ _ _ _ _ _ Hr).
  rewrite (consumeUsage_locked _ _ _ _ _ _ _ (Hio _) Hg).
  rewrite <- one_time_gate in Hone. rewrite <- limit_gate in Hlim.
  apply not_true_is_false in Hone, Hlim. rewrite Hone, Hlim, !Hio. cbn.
  repeat split.
  - unfold totalDiscount. rewrite Ht, Hk. reflexivity.
  - now apply (usageCount_incremented env (coupon_usage s1)).
Qed.

(** SAVE10 names item "a" only: on a cart with item B alone, and on the empty
    cart, the call is accepted with discount 0 and the count goes to 1. *)
Lemma zero_discount_consumes_witness :
  resp (ValidateCoupon (calm 15) shop (order "SAVE10" [itemB]))
  = {| ValidationResponse.IsValid := true;
       ValidationResponse.Discount := 0%float;
       ValidationResponse.Message := "coupon_applied" |}
  /\ usageCount (service (ValidateCoupon (calm 15) shop (order "SAVE10" [itemB]))) 7 "u1"
     = 0 + 1.
Proof.
  assert (Happ : forall it, it ∈ [itemB] -> applicable save10 it = false).
  { intros it Hit. apply list_elem_of_In in Hit. destruct Hit as [<- | []].
    vm_compute. reflexivity. }
  destruct (zero_discount_consumes (calm 15) shop
              {| coupons := coupons shop; coupon_usage := ∅;
                 cache := {["SAVE10" := save10]} |}
              (order "SAVE10" [itemB]) save10)
    as (H1 & _ & _ & H2).
  - vm_compute. reflexivity.
  - vm_compute. reflexivity.
  - intros st. reflexivity.
  - reflexivity.
  - reflexivity.
  - exact Happ.
  - cbn. intros [H _]. discriminate H.
  - intros [_ H]. vm_compute in H. apply H. reflexivity.
  - split; assumption.
Defined.

(** ** The usage count over a sequence of calls *)

(** A call that is not accepted leaves the committed table as it was. *)
Lemma rejected_keeps_usage (env : Env) (s : CouponService) (req : ValidationRequest.t) :
  ValidationResponse.IsValid (resp (ValidateCoupon env s req)) = false ->
  coupon_usage (service (ValidateCoupon env s req)) = coupon_usage s.
Proof.
  intros Hv.
  destruct (ValidateCoupon_exits env s req) as [H | (s1 & m & d & Hu & Hr)];
    cbn zeta in *; [tauto |].
  rewrite Hr in *. pose proof (consumeUsage_exits env s1 m req d) as H.
  cbn zeta in H. destruct H as [(_ & -> & _) | (Hv' & _)]; congruence.
Qed.

(** The coupons never change, and the cache only gains coupons of the table. *)
Lemma service_shape (env : Env) (s : CouponService) (req : ValidationRequest.t) :
  coupons (service (ValidateCoupon env s req)) = coupons s
  /\ (cache (service (ValidateCoupon env s req)) = cache s
      \/ exists m,
           cache (service (ValidateCoupon env s req))
           = <[ValidationRequest.CouponCode req := m]> (cache s)
           /\ coupons s !! ValidationRequest.CouponCode req = Some m).
Proof.
  destruct (ValidationResponse.IsValid (resp (ValidateCoupon env s req))) eqn:Hv.
  - destruct (accepted_inv env s req Hv)
      as (s1 & m & tx & count & Hl & _ & _ & _ & _ & _ & ->).
    apply loadMeta_inr in Hl as (Hc & _ & _ & Hk). cbn. split; [assumption |].
    destruct Hk as [Hk | [Hk Hm]]; eauto.
  - unfold ValidateCoupon in *.
    destruct (loadMeta env s req) as [r | [s1 m]] eqn:Hl.
    { apply loadMeta_inl in Hl as (_ & -> & _). auto. }
    apply loadMeta_inr in Hl as (Hc & _ & _ & Hk).
    assert (Hgoal : coupons s1 = coupons s
              /\ (cache s1 = cache s
                  \/ exists m0, cache s1 = <[ValidationRequest.CouponCode req := m0]> (cache s)
                     /\ coupons s !! ValidationRequest.CouponCode req = Some m0)).
    { split; [assumption |]. destruct Hk as [Hk | [Hk Hm]]; eauto. }
    destruct (basicValidations env m req); [exact Hgoal |].
    destruct (itemChecks env m _) as [total |]; [| exact Hgoal].
    pose proof (consumeUsage_exits env s1 m req (totalDiscount m req total)) as H.
    cbn zeta in H. destruct H as [(_ & -> & _) | (Hv' & _)]; [exact Hgoal | congruence].
Qed.

Lemma consistent_step (env : Env) (s : CouponService) (req : ValidationRequest.t) :
  consistent s -> consistent (service (ValidateCoupon env s req)).
Proof.
  intros [Hsub Hid]. destruct (service_shape env s req) as [Hc Hk].
  unfold consistent. rewrite Hc. split; [| exact Hid].
  destruct Hk as [-> | (m & -> & Hm)]; [assumption |].
  now apply insert_subseteq_l.
Qed.

Lemma resolve_in_table (s : CouponService) (code : string) (m : CouponMeta.t) :
  consistent s -> resolve s code = Some m -> exists code', coupons s !! code' = Some m.
Proof.
  intros [Hsub _]. unfold resolve.
  destruct (cache s !! code) as [cm |] eqn:Hc.
  - intros [= <-]. exists code. eapply lookup_weaken; eauto.
  - eauto.
Qed.

(** One call moves the count of a pair by one when it is an accepting call
    for that pair, and not at all otherwise. *)
Lemma usageCount_step (env : Env) (s : CouponService) (req : ValidationRequest.t)
    (couponID : Z) (userID : string) :
  usageCount (service (ValidateCoupon env s req)) couponID userID
  = usageCount s couponID userID
    + (if acceptsFor couponID userID env s req then 1 else 0).
Proof.
  unfold acceptsFor.
  destruct (ValidationResponse.IsValid (resp (ValidateCoupon env s req))) eqn:Hv.
  - destruct (accepted_inv env s req Hv)
      as (s1 & m & tx & count & Hl & _ & _ & Hg & _ & _ & Heq).
    rewrite Heq. cbn [service]. apply loadMeta_inr in Hl as (_ & Hu & Hres & _).
    rewrite Hres, Hu in *. cbn [andb].
    destruct (decide ((Coupon.ID m, ValidationRequest.UserID req) = (couponID, userID)))
      as [[= <- <-] | Hne].
    + rewrite !bool_decide_eq_true_2 by reflexivity. cbn [andb].
      rewrite (usageCount_incremented env (coupon_usage s) tx _ _ _ _ count Hg).
      apply GetAndLockUsage_ok in Hg as (-> & _). reflexivity.
    + replace (bool_decide (ValidationRequest.UserID req = userID)
               && bool_decide (Coupon.ID m = couponID)) with false.
      2:{ symmetry. apply andb_false_iff.
          destruct (decide (ValidationRequest.UserID req = userID)) as [Hsame | Hdiff];
            [right | left]; apply bool_decide_eq_false_2; [| assumption].
          intros Hid. apply Hne. now rewrite Hid, Hsame. }
      apply GetAndLockUsage_ok in Hg as (_ & _ & Hother).
      unfold usageCount. cbn. rewrite lookup_alter_ne by congruence.
      rewrite Hother by congruence. lia.
  - cbn [andb]. unfold usageCount. rewrite rejected_keeps_usage by assumption. lia.
Qed.

(** An accepting call has passed both gates with the committed count. *)
Lemma accept_below_limit (env : Env) (s : CouponService) (req : ValidationRequest.t)
    (code : string) (m : CouponMeta.t) (userID : string) :
  consistent s -> coupons s !! code = Some m ->
  acceptsFor (Coupon.ID m) userID env s req = true ->
  (0 < Coupon.MaxUsagePerUser m ->
   usageCount s (Coupon.ID m) userID < Coupon.MaxUsagePerUser m)
  /\ (Coupon.UsageType m = "one_time" -> usageCount s (Coupon.ID m) userID < 1).
Proof.
  intros Hcons Hm Hacc. unfold acceptsFor in Hacc.
  apply andb_prop in Hacc as [Hacc Hid]. apply andb_prop in Hacc as [Hv Hu].
  apply bool_decide_eq_true in Hu. subst userID.
  destruct (accepted_inv env s req Hv)
    as (s1 & m' & tx & count & Hl & _ & _ & Hg & G1 & G2 & _).
  apply loadMeta_inr in Hl as (_ & Husage & Hres & _).
  rewrite Hres in Hid. apply bool_decide_eq_true in Hid.
  destruct (resolve_in_table s _ m' Hcons Hres) as [code' Hm'].
  assert (m' = m) by (destruct Hcons as [_ Hkey]; eapply Hkey; eauto). subst m'.
  apply GetAndLockUsage_ok in Hg as (Hcount & _). rewrite Husage in Hcount.
  fold (usageCount s (Coupon.ID m) (ValidationRequest.UserID req)) in Hcount.
  rewrite <- Hcount. split.
  - intros Hpos. apply andb_false_iff in G2 as [G2 | G2].
    + apply Z.ltb_ge in G2. lia.
    + apply Z.leb_gt in G2. lia.
  - intros Hone. rewrite Hone in G1. cbn in G1. apply Z.leb_gt in G1. lia.
Qed.

Lemma coupons_step (env : Env) (s : CouponService) (req : ValidationRequest.t) :
  coupons (service (ValidateCoupon env s req)) = coupons s.
Proof. apply service_shape. Qed.

(** The count after a sequence of calls, and the bounds the gates keep. *)
Lemma run_usage (calls : list (Env * ValidationRequest.t)) :
  forall (s : CouponService) (couponID : Z) (userID : string),
    usageCount (fst (run s calls)) couponID userID
    = usageCount s couponID userID + accepted couponID userID s calls
    /\ 0 <= accepted couponID userID s calls.
Proof.
  induction calls as [| [env req] calls IH]; intros s couponID userID; cbn [run accepted].
  - cbn. lia.
  - destruct (run (service (ValidateCoupon env s req)) calls) as [s' rs] eqn:Hrun.
    cbn [fst]. specialize (IH (service (ValidateCoupon env s req)) couponID userID).
    rewrite Hrun in IH. cbn [fst] in IH. destruct IH as [IH Hn].
    rewrite IH, usageCount_step.
    destruct (acceptsFor couponID userID env s req); lia.
Qed.

Lemma run_bounded (calls : list (Env * ValidationRequest.t)) :
  forall (s : CouponService) (code : string) (m : CouponMeta.t) (userID : string) (bound : Z),
    consistent s -> coupons s !! code = Some m ->
    (0 < Coupon.MaxUsagePerUser m /\ Coupon.MaxUsagePerUser m <= bound
     \/ Coupon.UsageType m = "one_time" /\ 1 <= bound) ->
    usageCount s (Coupon.ID m) userID <= bound ->
    usageCount (fst (run s calls)) (Coupon.ID m) userID <= bound.
Proof.
  induction calls as [| [env req] calls IH]; intros s code m userID bound Hcons Hm Hb Hle;
    cbn [run]; [assumption |].
  destruct (run (service (ValidateCoupon env s req)) calls) as [s' rs] eqn:Hrun.
  cbn [fst].
  specialize (IH (service (ValidateCoupon env s req)) code m userID bound).
  rewrite Hrun in IH. cbn [fst] in IH. apply IH.
  - now apply consistent_step.
  - now rewrite coupons_step.
  - assumption.
  - rewrite usageCount_step.
    destruct (acceptsFor (Coupon.ID m) userID env s req) eqn:Hacc; [| lia].
    destruct (accept_below_limit env s req code m userID Hcons Hm Hacc) as [H1 H2].
    destruct Hb as [[Hpos Hb] | [Hone Hb]]; [specialize (H1 Hpos) | specialize (H2 Hone)]; lia.
Qed.

(** C1: over any sequence of calls the committed count of a pair grows by
    exactly 1 at each accepting call for the pair and stays put at every other
    call (so it never decreases); the accepting calls number at most
    [maxUsagePerUser] when that bound is positive, and at most 1 for a one_time
    coupon. *)
Theorem usage_count_invariant (s : CouponService)
    (calls : list (Env * ValidationRequest.t))
    (code : string) (m : CouponMeta.t) (userID : string) :
  consistent s ->
  coupons s !! code = Some m ->
  0 <= usageCount s (Coupon.ID m) userID ->
  let before := usageCount s (Coupon.ID m) userID in
  let after := usageCount (fst (run s calls)) (Coupon.ID m) userID in
  let n := accepted (Coupon.ID m) userID s calls in
  (forall env0 s0 req0,
     usageCount (service (ValidateCoupon env0 s0 req0)) (Coupon.ID m) userID
     = usageCount s0 (Coupon.ID m) userID
       + (if acceptsFor (Coupon.ID m) userID env0 s0 req0 then 1 else 0))
  /\ after = before + n
  /\ 0 <= n
  /\ (0 < Coupon.MaxUsagePerUser m ->
      n <= Coupon.MaxUsagePerUser m
      /\ after <= Z.max before (Coupon.MaxUsagePerUser m))
  /\ (Coupon.UsageType m = "one_time" -> n <= 1 /\ after <= Z.max before 1).
Proof.
  intros Hcons Hm H0. cbn zeta.
  destruct (run_usage calls s (Coupon.ID m) userID) as [Hrun Hn].
  split; [intros; apply usageCount_step |]. split; [assumption |]. split; [assumption |].
  split.
  - intros Hpos.
    assert (usageCount (fst (run s calls)) (Coupon.ID m) userID
            <= Z.max (usageCount s (Coupon.ID m) userID) (Coupon.MaxUsagePerUser m));
      [| lia].
    apply (run_bounded calls s code m userID); auto; [left |]; lia.
  - intros Hone.
    assert (usageCount (fst (run s calls)) (Coupon.ID m) userID
            <= Z.max (usageCount s (Coupon.ID m) userID) 1); [| lia].
    apply (run_bounded calls s code m userID); auto; [right; split; [assumption |] |]; lia.
Qed.

Lemma shop_consistent : consistent shop.
Proof.
  split; [apply map_empty_subseteq |].
  intros code1 code2 m1 m2 H1 H2 Hid. unfold shop in *. cbn [coupons] in *.
  apply lookup_insert_Some in H1 as [[_ <-] | [_ H1]];
    apply lookup_insert_Some in H2 as [[_ <-] | [_ H2]];
    try apply lookup_singleton_Some in H1 as [_ <-];
    try apply lookup_singleton_Some in H2 as [_ <-];
    try reflexivity; discriminate Hid.
Qed.

(** Three calls for SAVE10 (limit 2) by one user: two are accepted, the
    committed count ends at 2. *)
Lemma usage_count_invariant_witness :
  usageCount (fst (run shop threeCalls)) 7 "u1" = 0 + accepted 7 "u1" shop threeCalls
  /\ accepted 7 "u1" shop threeCalls <= 2
  /\ accepted 7 "u1" shop threeCalls = 2.
Proof.
  destruct (usage_count_invariant shop threeCalls "SAVE10" save10 "u1"
              shop_consistent eq_refl) as (_ & H1 & _ & H2 & _).
  - vm_compute. discriminate.
  - split; [exact H1 |]. split; [| vm_compute; reflexivity].
    apply H2. reflexivity.
Defined.

(** ** The goroutines of step 3 *)

Lemma workersFuel_insert (ws : list Worker) (i : nat) (w w' : Worker) :
  ws !! i = Some w ->
  (workersFuel (<[i := w']> ws) + workerFuel w = workersFuel ws + workerFuel w')%nat.
Proof.
  revert i. induction ws as [| w0 ws IH]; intros [| i] H; try discriminate.
  - injection H as ->. cbn. lia.
  - change (<[S i := w']> (w0 :: ws)) with (w0 :: <[i := w']> ws).
    unfold workersFuel in *. cbn [foldr]. specialize (IH i H). lia.
Qed.

(** Every step uses up fuel. *)
Lemma fire_fuel (couponMeta : CouponMeta.t) (l : Label) (p p' : Pipe) :
  fire couponMeta l p = Some p' -> (fuel p' < fuel p)%nat.
Proof.
  destruct p as [done pr ws c m]. unfold fire.
  cbn [ctxClosed producer workers collector caller].
  destruct l; intros H; repeat case_match; simplify_eq;
    unfold fuel, setWorker, setProducer, setCollector, setCaller;
    cbn [ctxClosed producer workers collector caller length];
    try match goal with
      | Hw : ws !! _ = Some ?w |- context [<[_ := ?w']> ws] =>
          pose proof (workersFuel_insert ws _ w w' Hw) as Hf; cbn [workerFuel] in Hf
      end; lia.
Qed.

(** A run from [p] is no longer than the fuel of [p]. *)
Lemma fireAll_fuel (couponMeta : CouponMeta.t) (ls : list Label) :
  forall p p', fireAll couponMeta ls p = Some p' -> (length ls + fuel p' <= fuel p)%nat.
Proof.
  induction ls as [| l ls IH]; intros p p' H; cbn in *.
  - injection H as ->. lia.
  - destruct (fire couponMeta l p) as [p1 |] eqn:Hf; [| discriminate].
    apply fire_fuel in Hf. apply IH in H. lia.
Qed.

(** A state in which no step is enabled: every goroutine has returned. *)
Lemma stuck_finished (couponMeta : CouponMeta.t) (p : Pipe) :
  (forall l, fire couponMeta l p = None) -> finished p = true.
Proof.
  intros Hstuck. destruct p as [done pr ws c m].
  assert (Hdone : done = true).
  { specialize (Hstuck Cancel). cbn in Hstuck. now destruct done. }
  subst done.
  assert (Hpr : pr = ProducerExited).
  { destruct pr as [[| it rest] |]; [| | reflexivity].
    - specialize (Hstuck CloseIn). discriminate.
    - specialize (Hstuck SkipFeed). discriminate. }
  subst pr.
  assert (Hc : exists total, c = CollectorExited total).
  { destruct c as [[| n] total | total]; [| | eauto].
    - specialize (Hstuck CloseCollectDone). discriminate.
    - specialize (Hstuck SkipCollect). discriminate. }
  destruct Hc as [total ->].
  assert (Hm : m <> Waiting).
  { intros ->. specialize (Hstuck CallerTimeout). discriminate. }
  unfold finished. cbn.
  assert (Hws : forallb workerExited ws = true).
  { apply forallb_forall. intros w Hw. apply list_elem_of_In, list_elem_of_lookup in Hw as [i Hi].
    destruct w; [| | reflexivity].
    - specialize (Hstuck (LeaveRange i)). cbn in Hstuck. rewrite Hi in Hstuck. discriminate.
    - specialize (Hstuck (AbortEmit i)). cbn in Hstuck. rewrite Hi in Hstuck. discriminate. }
  rewrite Hws. now destruct m.
Qed.

(** With the context done, every goroutine at a channel operation can leave
    it on its own, except a worker at [range inCh], which waits for the
    producer; the producer can then move on its own. *)
Lemma closed_ctx_releases (couponMeta : CouponMeta.t) (p : Pipe) (g : Goroutine) :
  ctxClosed p = true -> atChannelOp p g = true ->
  canMoveAlone couponMeta p g = true
  \/ exists i, g = GWorker i /\ workers p !! i = Some Receiving
               /\ exited p GProducer = false
               /\ canMoveAlone couponMeta p GProducer = true.
Proof.
  destruct p as [done pr ws c m]. cbn. intros -> Hat.
  destruct g as [| i | |]; cbn in Hat.
  - destruct pr as [[| it rest] |]; try discriminate. now left.
  - destruct (ws !! i) as [[] |] eqn:Hi; try discriminate.
    + destruct pr as [[| it rest] |].
      * right. exists i. repeat split; first [exact Hi | reflexivity].
      * right. exists i. repeat split; first [exact Hi | reflexivity].
      * left. unfold canMoveAlone, soloLabels, existsb, fire.
        cbn [producer workers ctxClosed]. now rewrite Hi.
    + left. unfold canMoveAlone, soloLabels, existsb, fire.
      cbn [producer workers ctxClosed]. rewrite Hi. apply orb_true_r.
  - destruct c as [[| n] total | total]; try discriminate. now left.
  - discriminate.
Qed.

(** The sends and the collector's receive do race against cancellation. *)
Lemma closed_ctx_selects (couponMeta : CouponMeta.t) (p : Pipe) :
  ctxClosed p = true ->
  (forall it rest, producer p = Feeding (it :: rest) ->
     fire couponMeta SkipFeed p = Some (setProducer p (Feeding rest)))
  /\ (forall i it, workers p !! i = Some (Sending it) ->
     fire couponMeta (AbortEmit i) p = Some (setWorker p i WorkerExited))
  /\ (forall n total, collector p = Collecting (S n) total ->
     fire couponMeta SkipCollect p = Some (setCollector p (Collecting n total)))
  /\ (caller p = Waiting -> fire couponMeta CallerTimeout p = Some (setCaller p TimedOut)).
Proof.
  intros Hd. unfold fire. rewrite Hd. repeat split.
  - now intros it rest ->.
  - now intros i it ->.
  - now intros n total ->.
  - now intros ->.
Qed.

(** The fuel at the start: a bound on the length of every run. *)
Lemma fuel_spawn (items : list CartItem.t) :
  fuel (spawn items) = (4 * length items + workerCount (length items) + 4)%nat.
Proof.
  unfold fuel, spawn. cbn [ctxClosed producer workers collector caller].
  assert (H : forall n, workersFuel (replicate n Receiving) = n).
  { induction n as [| n IH]; [reflexivity |].
    unfold workersFuel in *. cbn [replicate foldr workerFuel]. now rewrite IH. }
  rewrite H. lia.
Qed.

(** C9, at a concrete input: the context is done right after the goroutines
    were spawned for a one-item cart. Worker 0 stands at its receive on
    [inCh]; it has no step of its own, since [range inCh] does not watch
    [ctx.Done()]. *)
Lemma worker_receive_ignores_cancellation :
  exists p,
    fireAll save10 [Cancel] (spawn [itemA]) = Some p
    /\ ctxClosed p = true
    /\ atChannelOp p (GWorker 0) = true
    /\ canMoveAlone save10 p (GWorker 0) = false.
Proof. eexists. repeat split; vm_compute; reflexivity. Qed.

(** C9, as the code has it: every run of the goroutines is finite, at most
    [4 * len(cart) + workerCount + 4] steps long; a state
    in which nothing can move is one in which the producer, every worker,
    the collector and the caller have returned; and once the context is done
    the producer's send, a worker's send, the collector's receive and the
    caller's wait can each be left at once, while a worker at its receive is
    released by the producer, which closes [inCh] after skipping what it had
    left to send. *)
Theorem goroutines_released (couponMeta : CouponMeta.t) :
  (forall items ls p,
     fireAll couponMeta ls (spawn items) = Some p ->
     (length ls + fuel p <= 4 * length items + workerCount (length items) + 4)%nat)
  /\ (forall l p p', fire couponMeta l p = Some p' -> (fuel p' < fuel p)%nat)
  /\ (forall p, (forall l, fire couponMeta l p = None) -> finished p = true)
  /\ (forall p g, ctxClosed p = true -> atChannelOp p g = true ->
        canMoveAlone couponMeta p g = true
        \/ exists i, g = GWorker i /\ workers p !! i = Some Receiving
                     /\ exited p GProducer = false
                     /\ canMoveAlone couponMeta p GProducer = true)
  /\ (forall p, ctxClosed p = true ->
        (forall it rest, producer p = Feeding (it :: rest) ->
           fire couponMeta SkipFeed p = Some (setProducer p (Feeding rest)))
        /\ (forall i it, workers p !! i = Some (Sending it) ->
           fire couponMeta (AbortEmit i) p = Some (setWorker p i WorkerExited))
        /\ (forall n total, collector p = Collecting (S n) total ->
           fire couponMeta SkipCollect p = Some (setCollector p (Collecting n total)))
        /\ (caller p = Waiting ->
           fire couponMeta CallerTimeout p = Some (setCaller p TimedOut))).
Proof.
  split; [intros items ls p Hrun; rewrite <- fuel_spawn;
          now apply (fireAll_fuel couponMeta) |].
  split; [apply fire_fuel |].
  split; [apply stuck_finished |].
  split; [apply closed_ctx_releases | apply closed_ctx_selects].
Qed.

(** ** The goroutines compute what [itemChecks] says *)

Lemma inflight_insert (ws : list Worker) (i : nat) (w w' : Worker) :
  ws !! i = Some w ->
  inflight (<[i := w']> ws) ++ held w ≡ₚ inflight ws ++ held w'.
Proof.
  revert i. induction ws as [| w0 ws IH]; intros [| i] H; try discriminate.
  - injection H as ->.
    change (<[0%nat := w']> (w :: ws)) with (w' :: ws).
    unfold inflight. cbn [flat_map].
    rewrite (Permutation_app_comm (held w' ++ flat_map held ws) (held w)).
    rewrite <- !app_assoc. apply Permutation_app_head, Permutation_app_comm.
  - change (<[S i := w']> (w0 :: ws)) with (w0 :: <[i := w']> ws).
    unfold inflight in *. cbn [flat_map]. rewrite <- !app_assoc.
    apply Permutation_app_head. now apply IH.
Qed.

Lemma inflight_replicate (n : nat) : inflight (replicate n Receiving) = [].
Proof. induction n as [| n IH]; [reflexivity | exact IH]. Qed.

Lemma collect_snoc (outs : list float) (d : float) :
  collect (outs ++ [d]) = (collect outs + d)%float.
Proof. unfold collect. now rewrite fold_left_app. Qed.

Lemma collecting_spawn (couponMeta : CouponMeta.t) (items : list CartItem.t) :
  collecting couponMeta items (spawn items).
Proof.
  exists []. cbn. rewrite inflight_replicate. cbn. repeat split. reflexivity.
Qed.

(** The context never reopens. *)
Lemma fire_ctxClosed (couponMeta : CouponMeta.t) (l : Label) (p p' : Pipe) :
  fire couponMeta l p = Some p' -> ctxClosed p = true -> ctxClosed p' = true.
Proof.
  destruct p as [done pr ws c m]. unfold fire.
  cbn [ctxClosed producer workers collector caller].
  destruct l; intros H ->; repeat case_match; simplify_eq; reflexivity.
Qed.

(** One step with the context open keeps [collecting]. *)
Lemma fire_collecting (couponMeta : CouponMeta.t) (items : list CartItem.t)
    (l : Label) (p p' : Pipe) :
  fire couponMeta l p = Some p' -> ctxClosed p' = false ->
  collecting couponMeta items p -> collecting couponMeta items p'.
Proof.
  destruct p as [done pr ws c m]. unfold fire.
  cbn [ctxClosed producer workers collector caller].
  intros H Hopen Hinv.
  destruct l; repeat case_match; simplify_eq;
    unfold setWorker, setProducer, setCollector, setCaller in *;
    cbn [ctxClosed] in Hopen; try discriminate;
    destruct Hinv as (got & Htot & Hperm & Hn & Hcall); unfold collecting;
    cbn [ctxClosed producer workers collector caller collected unsent] in *.
  - (* Feed *)
    match goal with
    | Hw : ws !! _ = Some Receiving |- context [<[_ := Sending ?it0]> ws] =>
        pose proof (inflight_insert ws _ Receiving (Sending it0) Hw) as Hin
    end.
    cbn [held] in Hin. rewrite app_nil_r in Hin.
    exists got. split; [assumption |]. split.
    + rewrite Hin, <- Hperm. rewrite <- !app_assoc. apply Permutation_app_head.
      apply Permutation_app_head. reflexivity.
    + split; [| assumption].
      destruct c as [n total | total]; [| destruct Hn; discriminate].
      rewrite Hin, length_app. cbn [length] in *. lia.
  - (* CloseIn *) exists got. auto.
  - (* LeaveRange *)
    match goal with
    | Hw : ws !! _ = Some Receiving |- _ =>
        pose proof (inflight_insert ws _ Receiving WorkerExited Hw) as Hin
    end.
    cbn [held] in Hin. rewrite !app_nil_r in Hin.
    exists got. split; [assumption |]. split; [now rewrite Hin |].
    split; [| assumption].
    destruct c as [n total | total].
    + now rewrite Hin.
    + destruct Hn as [Hn ?]. split; [| assumption].
      apply Permutation_nil_r. now rewrite Hin, Hn.
  - (* Emit *)
    match goal with
    | Hw : ws !! _ = Some (Sending ?it0) |- _ =>
        pose proof (inflight_insert ws _ (Sending it0) Receiving Hw) as Hin;
        exists (got ++ [it0])
    end.
    cbn [held] in Hin. rewrite app_nil_r in Hin.
    split; [rewrite map_app; cbn [map]; rewrite collect_snoc; now rewrite Htot |].
    split.
    + rewrite <- Hperm, <- Hin. rewrite <- !app_assoc.
      apply Permutation_app_head.
      exact (Permutation_middle (inflight (<[i := Receiving]> ws)) (unsent pr) it).
    + split; [| destruct m; try exact I; discriminate].
      rewrite <- Hin, length_app in Hn. cbn [length] in Hn. lia.
  - (* CloseCollectDone *)
    exists got. split; [assumption |]. split; [assumption |].
    split; [| destruct m; try exact I; discriminate].
    symmetry in Hn. apply Nat.eq_add_0 in Hn as [H1 H2].
    split; now apply length_zero_iff_nil.
  - (* CallerCollected *) exists got. auto.
Qed.

Lemma fireAll_collecting (couponMeta : CouponMeta.t) (items : list CartItem.t)
    (ls : list Label) :
  forall p p', fireAll couponMeta ls p = Some p' -> ctxClosed p' = false ->
    collecting couponMeta items p -> collecting couponMeta items p'.
Proof.
  induction ls as [| l ls IH]; intros p p' H Hopen Hinv; cbn in H.
  - now injection H as <-.
  - destruct (fire couponMeta l p) as [p1 |] eqn:Hf; [| discriminate].
    apply (IH p1 p' H Hopen). apply (fire_collecting _ _ _ _ _ Hf); [| assumption].
    destruct (ctxClosed p1) eqn:Hc1; [| reflexivity].
    clear IH Hinv Hf. revert p1 H Hc1.
    induction ls as [| l' ls IH']; intros p1 H Hc1; cbn in H.
    + injection H as <-. congruence.
    + destruct (fire couponMeta l' p1) as [p2 |] eqn:Hf2; [| discriminate].
      apply (IH' p2 H). now apply (fire_ctxClosed _ _ _ _ Hf2).
Qed.

(** While the context stays open, the total the caller goes on with is the
    total [itemChecks] computes for some arrival order of the cart. *)
Lemma goroutines_total (couponMeta : CouponMeta.t) (items : list CartItem.t)
    (ls : list Label) (p : Pipe) (total : float) :
  fireAll couponMeta ls (spawn items) = Some p ->
  ctxClosed p = false -> caller p = Collected total ->
  exists picks,
    total = collect (map (worker couponMeta) (arrival picks items)).
Proof.
  intros Hrun Hopen Hcaller.
  destruct (fireAll_collecting _ items _ _ _ Hrun Hopen (collecting_spawn _ _))
    as (got & Htot & Hperm & Hn & Hcall).
  rewrite Hcaller in Hcall. rewrite Hcall in *. cbn in Htot. destruct Hn as [H1 H2].
  rewrite H1, H2, !app_nil_r in Hperm.
  destruct (arrival_any_perm got items Hperm) as [picks <-]. eauto.
Qed.

(** The caller returns the timeout only when the context is done. *)
Lemma goroutines_timeout (couponMeta : CouponMeta.t) (ls : list Label) :
  forall p p', fireAll couponMeta ls p = Some p' ->
    (caller p = TimedOut -> ctxClosed p = true) ->
    caller p' = TimedOut -> ctxClosed p' = true.
Proof.
  induction ls as [| l ls IH]; intros p p' H Hinv; cbn in H.
  - now injection H as <-.
  - destruct (fire couponMeta l p) as [p1 |] eqn:Hf; [| discriminate].
    apply (IH p1 p' H). clear IH H.
    destruct p as [done pr ws c m]. unfold fire in Hf.
    cbn [ctxClosed producer workers collector caller] in *.
    destruct l; repeat case_match; simplify_eq; cbn in *; auto; discriminate.
Qed.

Lemma collectingSome_spawn (couponMeta : CouponMeta.t) (items : list CartItem.t) :
  collectingSome couponMeta items (spawn items).
Proof.
  exists []. cbn. rewrite inflight_replicate. cbn. repeat split. reflexivity.
Qed.

(** Any step keeps [collectingSome]. *)
Lemma fire_collectingSome (couponMeta : CouponMeta.t) (items : list CartItem.t)
    (l : Label) (p p' : Pipe) :
  fire couponMeta l p = Some p' ->
  collectingSome couponMeta items p -> collectingSome couponMeta items p'.
Proof.
  destruct p as [done pr ws c m]. unfold fire.
  cbn [ctxClosed producer workers collector caller].
  intros H Hinv.
  destruct l; repeat case_match; simplify_eq;
    unfold setWorker, setProducer, setCollector, setCaller in *;
    destruct Hinv as (got & Htot & Hsub & Hcall); unfold collectingSome;
    cbn [ctxClosed producer workers collector caller collected unsent] in *.
  - (* Cancel *) exists got. auto.
  - (* Feed *)
    match goal with
    | Hw : ws !! _ = Some Receiving |- context [<[_ := Sending ?it0]> ws] =>
        pose proof (inflight_insert ws _ Receiving (Sending it0) Hw) as Hin
    end.
    cbn [held] in Hin. rewrite app_nil_r in Hin.
    exists got. split; [assumption |]. split; [| assumption].
    rewrite Hin, <- Hsub. rewrite <- !app_assoc. reflexivity.
  - (* SkipFeed *)
    exists got. split; [assumption |]. split; [| assumption].
    rewrite <- Hsub. apply submseteq_app; [reflexivity |].
    apply submseteq_app; [reflexivity |]. now apply submseteq_cons.
  - (* CloseIn *) exists got. auto.
  - (* LeaveRange *)
    match goal with
    | Hw : ws !! _ = Some Receiving |- _ =>
        pose proof (inflight_insert ws _ Receiving WorkerExited Hw) as Hin
    end.
    cbn [held] in Hin. rewrite !app_nil_r in Hin.
    exists got. split; [assumption |]. split; [| assumption]. now rewrite Hin.
  - (* Emit *)
    match goal with
    | Hw : ws !! _ = Some (Sending ?it0) |- _ =>
        pose proof (inflight_insert ws _ (Sending it0) Receiving Hw) as Hin;
        exists (got ++ [it0])
    end.
    cbn [held] in Hin. rewrite app_nil_r in Hin.
    split; [rewrite map_app; cbn [map]; rewrite collect_snoc; now rewrite Htot |].
    split; [| destruct m; try exact I; discriminate].
    rewrite <- Hsub, <- Hin. rewrite <- !app_assoc.
    apply submseteq_app; [reflexivity |].
    apply Permutation_submseteq.
    exact (Permutation_middle (inflight (<[i := Receiving]> ws)) (unsent pr) it).
  - (* AbortEmit *)
    match goal with
    | Hw : ws !! _ = Some (Sending ?it0) |- _ =>
        pose proof (inflight_insert ws _ (Sending it0) WorkerExited Hw) as Hin
    end.
    cbn [held] in Hin. rewrite app_nil_r in Hin.
    exists got. split; [assumption |]. split; [| assumption].
    rewrite <- Hsub, <- Hin. apply submseteq_app; [reflexivity |].
    apply submseteq_app; [| reflexivity]. apply submseteq_inserts_r. reflexivity.
  - (* SkipCollect *)
    exists got. split; [assumption |]. split; [assumption |].
    destruct m; try exact I; discriminate.
  - (* CloseCollectDone *)
    exists got. split; [assumption |]. split; [assumption |].
    destruct m; try exact I; discriminate.
  - (* CallerCollected *) exists got. auto.
  - (* CallerTimeout *) exists got. auto.
Qed.

Lemma fireAll_collectingSome (couponMeta : CouponMeta.t) (items : list CartItem.t)
    (ls : list Label) :
  forall p p', fireAll couponMeta ls p = Some p' ->
    collectingSome couponMeta items p -> collectingSome couponMeta items p'.
Proof.
  induction ls as [| l ls IH]; intros p p' H Hinv; cbn in H.
  - now injection H as <-.
  - destruct (fire couponMeta l p) as [p1 |] eqn:Hf; [| discriminate].
    apply (IH p1 p' H). now apply (fire_collectingSome _ _ _ _ _ Hf).
Qed.

(** Whatever the schedule, the total the caller goes on with is the sum of
    the first results of some arrival order. *)
Lemma goroutines_partial_total (couponMeta : CouponMeta.t) (items : list CartItem.t)
    (ls : list Label) (p : Pipe) (total : float) :
  fireAll couponMeta ls (spawn items) = Some p ->
  caller p = Collected total ->
  exists picks kept,
    total = collect (take kept (map (worker couponMeta) (arrival picks items))).
Proof.
  intros Hrun Hcaller.
  destruct (fireAll_collectingSome _ items _ _ _ Hrun (collectingSome_spawn _ _))
    as (got & Htot & Hsub & Hcall).
  rewrite Hcaller in Hcall. rewrite Hcall in Htot. cbn in Htot.
  assert (Hgot : got ⊆+ items).
  { etransitivity; [| exact Hsub]. apply submseteq_inserts_r. reflexivity. }
  apply submseteq_Permutation in Hgot as [k Hk].
  destruct (arrival_any_perm (got ++ k) items) as [picks Hp]; [now symmetry |].
  exists picks, (length got). rewrite Hp, map_app.
  rewrite take_app_length' by now rewrite length_map. assumption.
Qed.

(** X23: the sequential reading of step 3 covers the goroutines: whatever they
    do, once the caller has left its final select it has seen what
    [itemChecks] returns in an environment whose context is done at the item
    checks exactly when it is done in the run. *)
Lemma itemChecks_covers_goroutines (couponMeta : CouponMeta.t)
    (items : list CartItem.t) (ls : list Label) (p : Pipe) :
  fireAll couponMeta ls (spawn items) = Some p ->
  caller p <> Waiting ->
  exists picks kept,
    doneBy (envOf p picks kept) AtItemChecks = ctxClosed p
    /\ itemChecks (envOf p picks kept) couponMeta items
       = match caller p with
         | Collected total => Some total
         | _ => None
         end.
Proof.
  intros Hrun Hwait.
  destruct (caller p) as [| | total] eqn:Hcaller; [congruence | |].
  - assert (Hclosed : ctxClosed p = true).
    { apply (goroutines_timeout couponMeta ls (spawn items) p Hrun);
        [discriminate | assumption]. }
    exists [], 0%nat. unfold itemChecks, doneBy, envOf. rewrite Hclosed, Hcaller.
    split; reflexivity.
  - destruct (ctxClosed p) eqn:Hclosed.
    + destruct (goroutines_partial_total _ _ _ _ _ Hrun Hcaller) as (picks & kept & ->).
      exists picks, kept. unfold itemChecks, doneBy, envOf. rewrite Hclosed, Hcaller.
      split; reflexivity.
    + destruct (goroutines_total _ _ _ _ _ Hrun Hclosed Hcaller) as (picks & ->).
      exists picks, 0%nat. unfold itemChecks, doneBy, envOf. rewrite Hclosed.
      split; reflexivity.
Qed.

(** The labels [soloLabels] lists are the labels in which [g] moves alone. *)
Lemma soloLabels_spec (l : Label) (g : Goroutine) :
  l ∈ soloLabels g <-> movers l = [g].
Proof.
  rewrite list_elem_of_In. split.
  - destruct g; cbn; intros H; crush_cases.
  - destruct l; cbn; intros [= <-]; cbn; tauto.
Qed.

(** ** More of ValidateCoupon *)

(** The messages of step 2. *)
Lemma basicValidations_messages (env : Env) (couponMeta : CouponMeta.t)
    (req : ValidationRequest.t) (msg : string) :
  basicValidations env couponMeta req = Some msg ->
  msg ∈ ["coupon_expired"; "min_order_value_not_met"; "not_in_valid_window"].
Proof.
  unfold basicValidations. intros H.
  repeat case_match; try discriminate; injection H as <-;
    apply list_elem_of_In; cbn; tauto.
Qed.




(** Step 4 never answers coupon_not_found. *)
Lemma consumeUsage_not_found (env : Env) (s : CouponService) (couponMeta : CouponMeta.t)
    (req : ValidationRequest.t) (d : float) :
  ValidationResponse.Message (resp (consumeUsage env s couponMeta req d))
  <> "coupon_not_found".
Proof.
  pose proof (consumeUsage_message env s couponMeta req d) as H.
  intros E. rewrite E in H. apply list_elem_of_In in H. cbn in H.
  intuition discriminate.
Qed.

(** Where coupon_not_found comes from. *)
Lemma ValidateCoupon_not_found (env : Env) (s : CouponService) (req : ValidationRequest.t) :
  ValidationResponse.Message (resp (ValidateCoupon env s req)) = "coupon_not_found" ->
  cache s !! ValidationRequest.CouponCode req = None
  /\ fails env AtGetCouponMeta = false
  /\ coupons s !! ValidationRequest.CouponCode req = None.
Proof.
  unfold ValidateCoupon.
  destruct (loadMeta env s req) as [r0|[s1 couponMeta]] eqn:Hload.
  - unfold loadMeta, GetCouponMeta in Hload.
    repeat case_match; try discriminate; injection Hload as <-; cbn;
      try discriminate.
    intros _. repeat split; congruence.
  - destruct (basicValidations env couponMeta req) as [msg|] eqn:Hbasic.
    { apply basicValidations_messages in Hbasic. cbn. intros ->. crush_cases. }
    destruct (itemChecks env couponMeta (ValidationRequest.CartItems req)) as [total|].
    + intros H. destruct (consumeUsage_not_found _ _ _ _ _ H).
    + cbn. discriminate.
Qed.

(** X2: ValidateCoupon answers coupon_not_found exactly when the code is not in
    the cache, the repository answers without an error and the table has no
    coupon of that code. The call then returns a nil error, opens no
    transaction and leaves the service as it was: a missing coupon is not
    cached, so the next call asks the repository again. *)
Theorem coupon_not_found_iff (env : Env) (s : CouponService)
    (req : ValidationRequest.t) :
  let r := ValidateCoupon env s req in
  let code := ValidationRequest.CouponCode req in
  (ValidationResponse.Message (resp r) = "coupon_not_found"
   <-> cache s !! code = None /\ fails env AtGetCouponMeta = false
       /\ coupons s !! code = None)
  /\ (ValidationResponse.Message (resp r) = "coupon_not_found" ->
      r = {| service := s; resp := invalid "coupon_not_found";
             err := None; txlog := [] |}).
Proof.
  intros r code. subst r code. unfold ValidateCoupon.
  destruct (loadMeta env s req) as [r0|[s1 couponMeta]] eqn:Hload.
  - unfold loadMeta, GetCouponMeta in Hload.
    repeat case_match; try discriminate; injection Hload as <-; cbn.
    all: try (injection H0 as H0);
      (split; [split; intros; [repeat split; congruence | first [reflexivity | crush_cases]]
              | intros; first [reflexivity | discriminate]]).
  - assert (Hno : ~ (cache s !! ValidationRequest.CouponCode req = None
                     /\ fails env AtGetCouponMeta = false
                     /\ coupons s !! ValidationRequest.CouponCode req = None)).
    { unfold loadMeta, GetCouponMeta in Hload. intros (Hc & Hf & Ht).
      rewrite Hc, Hf, Ht in Hload. discriminate. }
    destruct (basicValidations env couponMeta req) as [msg|] eqn:Hbasic.
    { apply basicValidations_messages in Hbasic. cbn.
      split; [split|]; intros; crush_cases. }
    destruct (itemChecks env couponMeta (ValidationRequest.CartItems req)) as [total|].
    + pose proof (consumeUsage_not_found env s1 couponMeta req
                    (totalDiscount couponMeta req total)).
      split; [split|]; intros; tauto.
    + cbn. split; [split|]; intros; crush_cases.
Qed.


(** Step 4 leaves the cache alone. *)
Lemma consumeUsage_cache (env : Env) (s : CouponService) (couponMeta : CouponMeta.t)
    (req : ValidationRequest.t) (d : float) :
  cache (service (consumeUsage env s couponMeta req d)) = cache s.
Proof.
  destruct (fails env AtBeginTx) eqn:Hb.
  { rewrite consumeUsage_begin_failed by exact Hb. reflexivity. }
  destruct (GetAndLockUsage env (coupon_usage s) (Coupon.ID couponMeta)
              (ValidationRequest.UserID req)) as [tx [count|]] eqn:Hl.
  - rewrite (consumeUsage_locked _ _ _ _ _ _ _ Hb Hl).
    repeat case_match; reflexivity.
  - rewrite (consumeUsage_lock_failed _ _ _ _ _ _ Hb Hl). reflexivity.
Qed.



(** Only the repository call sees that the repository is down. *)
Lemma fails_repoDown (env : Env) (st : Stage) :
  st <> AtGetCouponMeta -> fails (repoDown env) st = fails env st.
Proof. destruct st; intros H; try reflexivity. congruence. Qed.

(** Step 4 does not consult the coupon repository. *)
Lemma consumeUsage_repoDown (env : Env) (s s' : CouponService) (couponMeta : CouponMeta.t)
    (req : ValidationRequest.t) (d : float) :
  coupon_usage s' = coupon_usage s ->
  let r := consumeUsage env s couponMeta req d in
  let r' := consumeUsage (repoDown env) s' couponMeta req d in
  resp r' = resp r /\ err r' = err r /\ txlog r' = txlog r
  /\ coupon_usage (service r') = coupon_usage (service r).
Proof.
  intros Hu r r'. subst r r'.
  assert (Hlock : GetAndLockUsage (repoDown env) (coupon_usage s') (Coupon.ID couponMeta)
                    (ValidationRequest.UserID req)
                  = GetAndLockUsage env (coupon_usage s) (Coupon.ID couponMeta)
                      (ValidationRequest.UserID req)).
  { rewrite Hu. unfold GetAndLockUsage.
    rewrite !fails_repoDown by discriminate. reflexivity. }
  destruct (fails env AtBeginTx) eqn:Hb.
  { rewrite !consumeUsage_begin_failed;
      [auto| exact Hb | rewrite fails_repoDown by discriminate; exact Hb]. }
  assert (Hb' : fails (repoDown env) AtBeginTx = false)
    by (rewrite fails_repoDown by discriminate; exact Hb).
  destruct (GetAndLockUsage env (coupon_usage s) (Coupon.ID couponMeta)
              (ValidationRequest.UserID req)) as [tx [count|]] eqn:Hl.
  - rewrite (consumeUsage_locked _ _ _ _ _ _ _ Hb Hl).
    rewrite (consumeUsage_locked _ _ _ _ _ _ _ Hb' Hlock).
    rewrite !fails_repoDown by discriminate.
    repeat case_match; cbn; rewrite ?Hu; auto.
  - rewrite (consumeUsage_lock_failed _ _ _ _ _ _ Hb Hl).
    rewrite (consumeUsage_lock_failed _ _ _ _ _ _ Hb' Hlock). cbn. auto.
Qed.

(** X4: when the code is in the cache, ValidateCoupon does not consult the
    coupon repository: the response, the error, the transaction and the usage
    rows are the same when the repository is down and the coupons table holds
    anything else, even nothing. A cached coupon is never refreshed by a
    call. *)
Theorem cached_coupon_bypasses_repository (env : Env) (s s' : CouponService)
    (req : ValidationRequest.t) (m : CouponMeta.t) :
  cache s !! ValidationRequest.CouponCode req = Some m ->
  cache s' = cache s -> coupon_usage s' = coupon_usage s ->
  let r := ValidateCoupon env s req in
  let r' := ValidateCoupon (repoDown env) s' req in
  resp r' = resp r /\ err r' = err r /\ txlog r' = txlog r
  /\ coupon_usage (service r') = coupon_usage (service r)
  /\ cache (service r') = cache s /\ cache (service r) = cache s.
Proof.
  intros Hhit Hc Hu r r'. subst r r'.
  assert (H1 : loadMeta env s req = inr (s, m)) by (unfold loadMeta; rewrite Hhit; reflexivity).
  assert (H2 : loadMeta (repoDown env) s' req = inr (s', m))
    by (unfold loadMeta; rewrite Hc, Hhit; reflexivity).
  unfold ValidateCoupon. rewrite H1, H2.
  change (basicValidations (repoDown env) m req) with (basicValidations env m req).
  change (itemChecks (repoDown env) m (ValidationRequest.CartItems req))
    with (itemChecks env m (ValidationRequest.CartItems req)).
  destruct (basicValidations env m req); [cbn; auto 7|].
  destruct (itemChecks env m (ValidationRequest.CartItems req)) as [total|]; [|cbn; auto 7].
  rewrite !consumeUsage_cache.
  pose proof (consumeUsage_repoDown env s s' m req (totalDiscount m req total) Hu) as H.
  cbn zeta in H. tauto.
Qed.

(** With SAVE10 cached, the call answers the same in front of an emptied
    table and a failing repository. *)
Lemma cached_coupon_bypasses_repository_witness :
  resp (ValidateCoupon (repoDown (calm 16)) emptiedShop (order "SAVE10" [itemA]))
  = resp (ValidateCoupon (calm 16) warmShop (order "SAVE10" [itemA])).
Proof.
  apply (cached_coupon_bypasses_repository (calm 16) warmShop emptiedShop
           (order "SAVE10" [itemA]) save10); reflexivity.
Defined.

(** X5: a call of ValidateCoupon changes at most one row of coupon_usage. If a
    row differs after the call, the call was accepted, the row is the one of
    the coupon's id and the request's user, and it holds the count before the
    call plus one and the time of the increment as last_used. *)
Theorem ValidateCoupon_touches_one_row (env : Env) (s : CouponService)
    (req : ValidationRequest.t) (key : Z * string) :
  let r := ValidateCoupon env s req in
  coupon_usage (service r) !! key <> coupon_usage s !! key ->
  ValidationResponse.IsValid (resp r) = true
  /\ exists m,
       resolve s (ValidationRequest.CouponCode req) = Some m
       /\ key = (Coupon.ID m, ValidationRequest.UserID req)
       /\ coupon_usage (service r) !! key
          = Some {| usage_count :=
                      usageCount s (Coupon.ID m) (ValidationRequest.UserID req) + 1;
                    last_used := usedAt env |}.
Proof.
  intros r Hdiff. subst r.
  destruct (ValidationResponse.IsValid (resp (ValidateCoupon env s req))) eqn:Hv.
  2:{ rewrite rejected_keeps_usage in Hdiff by exact Hv. congruence. }
  split; [reflexivity|].
  destruct (accepted_inv env s req Hv)
    as (s1 & m & tx & count & Hload & _ & _ & Hlock & _ & _ & Hr).
  rewrite Hr in Hdiff |- *. cbn [service coupon_usage] in *.
  apply loadMeta_inr in Hload as (_ & Hu & Hres & _). rewrite Hu in Hlock.
  apply GetAndLockUsage_ok in Hlock as (Hcount & (row & Hrow & Hrc) & Hframe).
  exists m. split; [exact Hres|].
  destruct (decide (key = (Coupon.ID m, ValidationRequest.UserID req))) as [->|Hne].
  - split; [reflexivity|].
    rewrite lookup_alter_eq, Hrow. cbn. unfold usageCount.
    rewrite Hrc, Hcount. reflexivity.
  - exfalso. apply Hdiff. rewrite lookup_alter_ne by congruence. auto.
Qed.

(** The row the first accepted call for SAVE10 leaves. *)
Lemma ValidateCoupon_touches_one_row_witness :
  coupon_usage (service (ValidateCoupon (calm 15) shop (order "SAVE10" [itemA])))
    !! (7, "u1")
  = Some {| usage_count := usageCount shop (Coupon.ID save10) "u1" + 1; last_used := 15 |}.
Proof.
  destruct (ValidateCoupon_touches_one_row (calm 15) shop (order "SAVE10" [itemA]) (7, "u1"))
    as (_ & m & Hres & Hkey & Hrow).
  - vm_compute. discriminate.
  - vm_compute in Hres. injection Hres as <-. exact Hrow.
Defined.

(** A worker computes 0 unless the coupon is a percentage on inventory. *)
Lemma worker_zero (couponMeta : CouponMeta.t) (it : CartItem.t) :
  Coupon.TargetType couponMeta <> "inventory"
  \/ Coupon.DiscountType couponMeta <> "percentage" ->
  worker couponMeta it = 0%float.
Proof.
  unfold worker, itemDiscount. intros [H|H].
  - apply String.eqb_neq in H. rewrite H, andb_false_r. reflexivity.
  - apply String.eqb_neq in H. rewrite H. repeat case_match; reflexivity.
Qed.

(** X6: unless the coupon is a percentage coupon on inventory, every worker
    sends 0, the collected total is 0 whatever the order of arrival, and the
    final discount does not depend on the schedule of the goroutines. If in
    addition the coupon is neither on charges nor flat, the final discount
    is 0. *)
Theorem discount_schedule_independent (couponMeta : CouponMeta.t)
    (req : ValidationRequest.t) (picks picks' : list nat) :
  Coupon.TargetType couponMeta <> "inventory"
  \/ Coupon.DiscountType couponMeta <> "percentage" ->
  let total picks :=
    collect (map (worker couponMeta) (arrival picks (ValidationRequest.CartItems req))) in
  total picks = 0%float
  /\ totalDiscount couponMeta req (total picks) = totalDiscount couponMeta req (total picks')
  /\ (Coupon.TargetType couponMeta <> "charges" ->
      Coupon.DiscountType couponMeta <> "flat" ->
      totalDiscount couponMeta req (total picks) = 0%float).
Proof.
  intros Htype total.
  assert (Hzero : forall ps, total ps = 0%float).
  { intros ps. subst total. cbn beta. apply collect_zeros.
    apply Forall_forall. intros d Hd. apply list_elem_of_In, in_map_iff in Hd.
    destruct Hd as (it & <- & _). apply worker_zero. exact Htype. }
  split; [apply Hzero|]. rewrite !Hzero. split; [reflexivity|].
  intros Hc Hf. unfold totalDiscount.
  apply String.eqb_neq in Hc, Hf. rewrite Hc, Hf.
  destruct (String.eqb (Coupon.TargetType couponMeta) "inventory"); reflexivity.
Qed.

(** FLAT50 under two arrival orders of a cart of two items. *)
Lemma discount_schedule_independent_witness :
  totalDiscount flat50 (order "FLAT50" [itemA; itemB])
    (collect (map (worker flat50) (arrival [1%nat] [itemA; itemB])))
  = totalDiscount flat50 (order "FLAT50" [itemA; itemB])
      (collect (map (worker flat50) (arrival [] [itemA; itemB]))).
Proof.
  refine (proj1 (proj2 (discount_schedule_independent flat50
                          (order "FLAT50" [itemA; itemB]) [1%nat] [] _))).
  left. discriminate.
Defined.

(** ** The usage repository inside one transaction *)

(** X7: in one transaction, GetAndLockUsage, then IncrementUsage, then
    GetAndLockUsage again for the same pair: the second read returns the first
    count plus one and changes nothing, the row holds that count and the time
    passed to the UPDATE, and the rows of other pairs are as before the first
    read. *)
Theorem lock_increment_lock (env1 env2 env3 : Env) (tx tx1 tx2 tx3 : gmap (Z * string) UsageRow)
    (couponID : Z) (userID : string) (count count' : Z) :
  GetAndLockUsage env1 tx couponID userID = (tx1, Ok count) ->
  IncrementUsage env2 tx1 couponID userID = (tx2, Ok tt) ->
  GetAndLockUsage env3 tx2 couponID userID = (tx3, Ok count') ->
  count' = count + 1
  /\ tx3 = tx2
  /\ tx2 !! (couponID, userID) = Some {| usage_count := count + 1; last_used := usedAt env2 |}
  /\ forall key, key <> (couponID, userID) -> tx3 !! key = tx !! key.
Proof.
  intros H1 H2 H3.
  apply GetAndLockUsage_ok in H1 as (Hc & (row & Hrow & Hrc) & Hframe).
  unfold IncrementUsage in H2.
  destruct (fails env2 AtIncrementUsage); [discriminate|]. injection H2 as <-.
  assert (Hnew : alter (fun row => {| usage_count := usage_count row + 1;
                                      last_used := usedAt env2 |})
                   (couponID, userID) tx1 !! (couponID, userID)
                 = Some {| usage_count := count + 1; last_used := usedAt env2 |}).
  { rewrite lookup_alter_eq, Hrow. cbn. rewrite Hrc. reflexivity. }
  unfold GetAndLockUsage in H3. rewrite Hnew in H3.
  destruct (fails env3 AtSelectForUpdate); [discriminate|].
  injection H3 as <- <-. cbn.
  split; [reflexivity|]. split; [reflexivity|]. split; [exact Hnew|].
  intros key Hne. rewrite lookup_alter_ne by congruence. auto.
Qed.

(** From an empty table the second read returns 1. *)
Lemma lock_increment_lock_witness :
  exists tx3, GetAndLockUsage (calm 3)
                (fst (IncrementUsage (calm 2)
                        (fst (GetAndLockUsage (calm 1) ∅ 7 "u1")) 7 "u1")) 7 "u1"
              = (tx3, Ok (0 + 1)).
Proof.
  destruct (GetAndLockUsage (calm 3)
              (fst (IncrementUsage (calm 2)
                      (fst (GetAndLockUsage (calm 1) ∅ 7 "u1")) 7 "u1")) 7 "u1")
    as [tx3 [count'|]] eqn:H3; [|vm_compute in H3; discriminate].
  exists tx3. f_equal. f_equal.
  refine (proj1 (lock_increment_lock (calm 1) (calm 2) (calm 3) ∅ _ _ tx3 7 "u1" 0 count'
                   _ _ H3)); reflexivity.
Defined.

(** X8: IncrementUsage for a pair without a row changes nothing and still
    returns a nil error, unless the statement itself fails: the UPDATE matches
    no row and the number of affected rows is not looked at. *)
Theorem IncrementUsage_without_row (env : Env) (tx : gmap (Z * string) UsageRow)
    (couponID : Z) (userID : string) :
  tx !! (couponID, userID) = None ->
  fst (IncrementUsage env tx couponID userID) = tx
  /\ (snd (IncrementUsage env tx couponID userID) = Ok tt
      <-> fails env AtIncrementUsage = false).
Proof.
  intros Hnone. unfold IncrementUsage.
  destruct (fails env AtIncrementUsage); cbn.
  - split; [reflexivity|]. split; discriminate.
  - split; [|tauto]. apply map_eq. intros key.
    destruct (decide (key = (couponID, userID))) as [->|Hne].
    + rewrite lookup_alter_eq, Hnone. reflexivity.
    + rewrite lookup_alter_ne by congruence. reflexivity.
Qed.

(** On the empty table the increment succeeds and the table stays empty. *)
Lemma IncrementUsage_without_row_witness :
  IncrementUsage (calm 1) ∅ 7 "u1" = (∅, Ok tt).
Proof.
  pose proof (IncrementUsage_without_row (calm 1) ∅ 7 "u1" (lookup_empty _)) as [H1 H2].
  destruct (IncrementUsage (calm 1) ∅ 7 "u1") as [tx r]. cbn in *.
  rewrite H1. f_equal. apply H2. reflexivity.
Defined.

(** X9: GetAndLockUsage never removes or changes a row. When it returns an
    error the transaction's rows are as before; when the pair has no row and
    no statement fails it returns 0 and adds the row with count 0 and the
    database's NOW(); and a second call in the same transaction returns the
    same count and changes nothing. *)
Theorem GetAndLockUsage_relock (env env' : Env) (tx : gmap (Z * string) UsageRow)
    (couponID : Z) (userID : string) :
  let tx' := fst (GetAndLockUsage env tx couponID userID) in
  let r := snd (GetAndLockUsage env tx couponID userID) in
  tx ⊆ tx'
  /\ (r = Err -> tx' = tx)
  /\ (tx !! (couponID, userID) = None -> r <> Err ->
      r = Ok 0
      /\ tx' = <[(couponID, userID) := {| usage_count := 0; last_used := dbNow env |}]> tx)
  /\ (forall count, r = Ok count -> fails env' AtSelectForUpdate = false ->
      GetAndLockUsage env' tx' couponID userID = (tx', Ok count)).
Proof.
  intros tx' r. subst tx' r. unfold GetAndLockUsage.
  destruct (fails env AtSelectForUpdate); cbn [fst snd].
  { repeat split; try reflexivity; try discriminate; intros; congruence. }
  destruct (tx !! (couponID, userID)) as [row|] eqn:Hrow; cbn [fst snd].
  { split; [reflexivity|]. split; [reflexivity|]. split; [discriminate|].
    intros count [= <-] ->. rewrite Hrow. reflexivity. }
  destruct (fails env AtInsert); cbn [fst snd].
  { repeat split; try reflexivity; try discriminate; intros; congruence. }
  split; [apply insert_subseteq; exact Hrow|]. split; [discriminate|].
  split; [auto|].
  intros count [= <-] ->. rewrite lookup_insert_eq. reflexivity.
Qed.

(** ** Package cache *)

(** X10: package cache. A new CouponCache has no key; Get after Set of the same
    key returns the value set; Set leaves the other keys alone; the last Set
    of a key wins; Sets of different keys commute. *)
Theorem cache_Get_Set (V : Type) (c : cache.CouponCache V) (key key' : string)
    (value value' : V) :
  cache.Get (@cache.NewCouponCache V) key = None
  /\ cache.Get (cache.Set_ c key value) key = Some value
  /\ (key' <> key -> cache.Get (cache.Set_ c key value) key' = cache.Get c key')
  /\ cache.Set_ (cache.Set_ c key value') key value = cache.Set_ c key value
  /\ (key' <> key ->
      cache.Set_ (cache.Set_ c key value) key' value'
      = cache.Set_ (cache.Set_ c key' value') key value).
Proof.
  unfold cache.Get, cache.Set_, cache.NewCouponCache. cbn.
  split; [apply lookup_empty|]. split; [apply lookup_insert_eq|].
  split; [intros Hne; apply lookup_insert_ne; congruence|].
  split; [f_equal; apply insert_insert_eq|].
  intros Hne. f_equal. apply insert_insert_ne. congruence.
Qed.

(** ** The handler of POST /coupons/validate *)


(** ** The handler of GET /coupons/applicable *)

(** The rows of the SELECT are the rows of the coupons of the table. *)
Lemma selectCoupons_elem (s : CouponService) (row : CouponRow.t) :
  row ∈ selectCoupons s
  <-> exists m, coupons s !! CouponRow.coupon_code row = Some m
                /\ row = rowOf (CouponRow.coupon_code row) m.
Proof.
  unfold selectCoupons. rewrite list_elem_of_In, in_map_iff. split.
  - intros ([code m] & <- & Hin). apply list_elem_of_In, elem_of_map_to_list in Hin.
    exists m. cbn. auto.
  - intros (m & Hm & Hrow). exists (CouponRow.coupon_code row, m).
    split; [symmetry; exact Hrow|].
    apply list_elem_of_In, elem_of_map_to_list. exact Hm.
Qed.


(** What the loop body decides for the row of a coupon of the table. *)
Lemma keeps_rowOf (lenv : ListEnv) (s : CouponService)
    (req : handlers.ApplicableRequestBody.t) (now : Z) (code : string) (m : CouponMeta.t) :
  coupons s !! code = Some m ->
  handlers.keeps lenv s req now (rowOf code m) = true
  <-> scanError lenv code = false
      /\ Before (Coupon.ExpiryDate m) now = false
      /\ fgt (Coupon.MinOrderValue m) (handlers.ApplicableRequestBody.OrderTotal req) = false
      /\ inWindow m now = true
      /\ usageError lenv code = false
      /\ usageCount s (Coupon.ID m) (handlers.ApplicableRequestBody.UserID req) <
          Coupon.MaxUsagePerUser m
      /\ ~ (Coupon.UsageType m = "one_time"
            /\ 1 <= usageCount s (Coupon.ID m) (handlers.ApplicableRequestBody.UserID req))
      /\ fails (metaEnv lenv code) AtGetCouponMeta = false
      /\ matchesCart m (handlers.ApplicableRequestBody.CartItems req).
Proof.
  intros Hm. unfold handlers.keeps, handlers.readUsage, GetCouponMeta, inWindow,
    matchesCart, usageCount.
  cbn [rowOf CouponRow.coupon_code CouponRow.expiry_date CouponRow.min_order_value
       CouponRow.valid_from CouponRow.valid_to CouponRow.usage_type
       CouponRow.max_usage_per_user CouponRow.id].
  rewrite Hm.
  set (count := from_option usage_count 0
                  (coupon_usage s !! (Coupon.ID m, handlers.ApplicableRequestBody.UserID req))).
  destruct (scanError lenv code); [intuition discriminate|].
  destruct (Before (Coupon.ExpiryDate m) now); [intuition discriminate|].
  destruct (fgt (Coupon.MinOrderValue m) (handlers.ApplicableRequestBody.OrderTotal req));
    [intuition discriminate|].
  assert (Hw : forall b : bool, (if b then false else true) = negb b) by (intros []; reflexivity).
  destruct (Coupon.ValidFrom m) as [validFrom|], (Coupon.ValidTo m) as [validTo|];
    try destruct (Before now validFrom || After now validTo);
    cbn [negb]; try (intuition discriminate).
  all: destruct (usageError lenv code); [intuition discriminate|].
  all: destruct (Z.leb_spec (Coupon.MaxUsagePerUser m) count); [intuition (discriminate || lia)|].
  all: rewrite <- one_time_gate.
  all: destruct (String.eqb (Coupon.UsageType m) "one_time" && (1 <=? count));
    [intuition discriminate|].
  all: destruct (fails (metaEnv lenv code) AtGetCouponMeta); [intuition discriminate|].
  all: rewrite <- !len_makeSet.
  all: assert (Hlen : forall l : list string,
                 Nat.eqb (length l) 0 = Nat.eqb (len (makeSet l)) 0)
         by (intros l; apply eq_true_iff_eq; rewrite len_makeSet, Nat.eqb_eq;
             destruct l; cbn; intuition (discriminate || auto)).
  all: rewrite !Hlen.
  all: destruct (Nat.eqb (len (makeSet (CouponMeta.ApplicableItems m))) 0
                 && Nat.eqb (len (makeSet (CouponMeta.ApplicableCategories m))) 0) eqn:Hu.
  all: try (apply andb_true_iff in Hu; intuition (discriminate || auto)).
  all: rewrite existsb_exists.
  all: split.
  all: try (intros (it & Hin & Hor); repeat split; try discriminate; try lia;
            try (intros []; discriminate);
            right; exists it; split; [apply list_elem_of_In; exact Hin|];
            apply orb_true_iff in Hor; rewrite !index_makeSet in Hor; exact Hor).
  all: intros (_ & _ & _ & _ & _ & _ & _ & _ & [[H1 H2]|(it & Hin & Hor)]).
  all: try (rewrite H1, H2 in Hu; discriminate).
  all: exists it; split; [apply list_elem_of_In; exact Hin|];
       apply orb_true_iff; rewrite !index_makeSet; exact Hor.
Qed.

(** A listed code is the code of a coupon the loop body kept. *)
Lemma applicableCodes_elem (lenv : ListEnv) (s : CouponService)
    (req : handlers.ApplicableRequestBody.t) (code : string) :
  code ∈ handlers.applicableCodes lenv s req ->
  exists m, coupons s !! code = Some m
            /\ handlers.keeps lenv s req (handlers.listingNow lenv req) (rowOf code m) = true.
Proof.
  unfold handlers.applicableCodes. rewrite list_elem_of_In, in_map_iff.
  intros (row & <- & Hin). apply filter_In in Hin as [Hin Hkeep].
  apply list_elem_of_In in Hin.
  apply (subseteq_take (delivered lenv)) in Hin.
  apply selectCoupons_elem in Hin as (m & Hm & Hrow).
  exists m. split; [exact Hm|]. rewrite <- Hrow. exact Hkeep.
Qed.





(** X13: a coupon GetApplicableCoupons lists for a user and an order total is
    accepted by ValidateCoupon for the same user, order total and instant,
    whatever the cart, when no call fails, the context stays open and the
    cache holds only coupons of the table. *)
Theorem listed_coupon_validates (lenv : ListEnv) (env : Env) (s : CouponService)
    (req : handlers.ApplicableRequestBody.t) (vreq : ValidationRequest.t) :
  cache s ⊆ coupons s ->
  ValidationRequest.CouponCode vreq ∈ handlers.applicableCodes lenv s req ->
  ValidationRequest.UserID vreq = handlers.ApplicableRequestBody.UserID req ->
  ValidationRequest.OrderTotal vreq = handlers.ApplicableRequestBody.OrderTotal req ->
  now env = handlers.listingNow lenv req ->
  (forall st, fails env st = false) ->
  let r := ValidateCoupon env s vreq in
  ValidationResponse.IsValid (resp r) = true
  /\ ValidationResponse.Message (resp r) = "coupon_applied"
  /\ err r = None.
Proof.
  intros Hcache Hin Huser Htotal Hnow Hquiet r. subst r.
  apply applicableCodes_elem in Hin as (m & Hm & Hkeep).
  apply (keeps_rowOf _ _ _ _ _ _ Hm) in Hkeep
    as (_ & Hexp & Hmin & Hwin & _ & Hmax & Hone & _ & _).
  assert (Hload : exists s1, loadMeta env s vreq = inr (s1, m)
                             /\ coupon_usage s1 = coupon_usage s).
  { unfold loadMeta, GetCouponMeta.
    destruct (cache s !! ValidationRequest.CouponCode vreq) as [cm|] eqn:Hc.
    - eapply lookup_weaken in Hc; [|exact Hcache].
      assert (cm = m) as -> by congruence. eauto.
    - rewrite Hquiet, Hm. eauto. }
  destruct Hload as (s1 & Hload & Hu).
  assert (Hbasic : basicValidations env m vreq = None).
  { unfold basicValidations. rewrite Hnow, Htotal, Hexp, Hmin.
    unfold inWindow in Hwin.
    destruct (Coupon.ValidFrom m), (Coupon.ValidTo m); try reflexivity.
    destruct (Before _ _ || After _ _); [discriminate|reflexivity]. }
  assert (Hopen : ctxDone env = None) by (apply fails_commit, Hquiet).
  pose proof (itemChecks_open env m (ValidationRequest.CartItems vreq) Hopen) as Hitems.
  rewrite (ValidateCoupon_usage env s s1 vreq m _ (conj Hload (conj Hbasic Hitems))).
  destruct (GetAndLockUsage_succeeds env (coupon_usage s1) (Coupon.ID m)
              (ValidationRequest.UserID vreq) (Hquiet _) (Hquiet _)) as (tx & Hlock).
  rewrite (consumeUsage_locked _ _ _ _ _ _ _ (Hquiet _) Hlock).
  rewrite Hu, Huser. fold (usageCount s (Coupon.ID m) (handlers.ApplicableRequestBody.UserID req)).
  set (count := usageCount s (Coupon.ID m) (handlers.ApplicableRequestBody.UserID req)) in *.
  destruct (String.eqb (Coupon.UsageType m) "one_time" && (1 <=? count)) eqn:H1.
  { apply one_time_gate in H1. tauto. }
  destruct ((0 <? Coupon.MaxUsagePerUser m) && (Coupon.MaxUsagePerUser m <=? count)) eqn:H2.
  { apply limit_gate in H2. lia. }
  rewrite !Hquiet. cbn. auto.
Qed.

(** SAVE10 is listed for a cart with item a at instant 15, and validates at
    that instant even for a cart it does not apply to. *)
Lemma listed_coupon_validates_witness :
  ValidationResponse.IsValid (resp (ValidateCoupon (calm 15) shop (order "SAVE10" [itemB])))
  = true.
Proof.
  refine (proj1 (listed_coupon_validates (still 15) (calm 15) shop (cartOf [itemA])
                   (order "SAVE10" [itemB]) _ _ _ _ _ _)).
  - apply map_empty_subseteq.
  - apply list_elem_of_In. vm_compute. tauto.
  - reflexivity.
  - reflexivity.
  - reflexivity.
  - intros []; reflexivity.
Defined.

(** X14: GetApplicableCoupons never lists a coupon whose max_usage_per_user is
    at most the user's usage count. The listing has no test for a positive
    limit, so a limit of 0 hides the coupon from a user who never used it. *)
Theorem exhausted_limit_never_listed (lenv : ListEnv) (s : CouponService)
    (req : handlers.ApplicableRequestBody.t) (code : string) (m : CouponMeta.t) :
  coupons s !! code = Some m ->
  Coupon.MaxUsagePerUser m <= usageCount s (Coupon.ID m) (handlers.ApplicableRequestBody.UserID
      req) ->
  code ∉ handlers.applicableCodes lenv s req.
Proof.
  intros Hm Hmax Hin.
  apply applicableCodes_elem in Hin as (m' & Hm' & Hkeep).
  assert (m' = m) as -> by congruence.
  apply (keeps_rowOf _ _ _ _ _ _ Hm) in Hkeep. lia.
Qed.

(** FLAT50 has the limit 0 and is not listed. *)
Lemma exhausted_limit_never_listed_witness :
  Coupon.MaxUsagePerUser flat50 = 0
  /\ ("FLAT50" ∉ handlers.applicableCodes (still 15) shop (cartOf [itemA])).
Proof.
  split; [reflexivity|].
  apply (exhausted_limit_never_listed (still 15) shop (cartOf [itemA]) "FLAT50" flat50).
  - reflexivity.
  - vm_compute. discriminate.
Defined.

(** X15: the listing and the validation disagree on max_usage_per_user = 0.
    For a coupon of the table with that limit, a user whose count is not
    negative and who did not use up a one-time coupon, a call that passes the
    static checks and in which nothing fails is accepted by ValidateCoupon,
    and GetApplicableCoupons does not list the coupon for that user. *)
Theorem unlimited_coupon_validates_unlisted (lenv : ListEnv) (env : Env)
    (s : CouponService) (req : handlers.ApplicableRequestBody.t)
    (vreq : ValidationRequest.t) (m : CouponMeta.t) :
  cache s ⊆ coupons s ->
  coupons s !! ValidationRequest.CouponCode vreq = Some m ->
  Coupon.MaxUsagePerUser m = 0 ->
  ValidationRequest.UserID vreq = handlers.ApplicableRequestBody.UserID req ->
  0 <= usageCount s (Coupon.ID m) (handlers.ApplicableRequestBody.UserID req) ->
  ~ (Coupon.UsageType m = "one_time"
     /\ 1 <= usageCount s (Coupon.ID m) (handlers.ApplicableRequestBody.UserID req)) ->
  basicValidations env m vreq = None ->
  (forall st, fails env st = false) ->
  ValidationResponse.IsValid (resp (ValidateCoupon env s vreq)) = true
  /\ ValidationRequest.CouponCode vreq ∉ handlers.applicableCodes lenv s req.
Proof.
  intros Hcache Hm Hzero Huser Hcount Hone Hbasic Hquiet. split.
  2:{ intros Hin.
      apply applicableCodes_elem in Hin as (m' & Hm' & Hkeep).
      assert (m' = m) as -> by congruence.
      apply (keeps_rowOf _ _ _ _ _ _ Hm) in Hkeep. lia. }
  assert (Hload : exists s1, loadMeta env s vreq = inr (s1, m)
                             /\ coupon_usage s1 = coupon_usage s).
  { unfold loadMeta, GetCouponMeta.
    destruct (cache s !! ValidationRequest.CouponCode vreq) as [cm|] eqn:Hc.
    - eapply lookup_weaken in Hc; [|exact Hcache].
      assert (cm = m) as -> by congruence. eauto.
    - rewrite Hquiet, Hm. eauto. }
  destruct Hload as (s1 & Hload & Hu).
  assert (Hopen : ctxDone env = None) by (apply fails_commit, Hquiet).
  pose proof (itemChecks_open env m (ValidationRequest.CartItems vreq) Hopen) as Hitems.
  rewrite (ValidateCoupon_usage env s s1 vreq m _ (conj Hload (conj Hbasic Hitems))).
  destruct (GetAndLockUsage_succeeds env (coupon_usage s1) (Coupon.ID m)
              (ValidationRequest.UserID vreq) (Hquiet _) (Hquiet _)) as (tx & Hlock).
  rewrite (consumeUsage_locked _ _ _ _ _ _ _ (Hquiet _) Hlock).
  rewrite Hu, Huser. fold (usageCount s (Coupon.ID m) (handlers.ApplicableRequestBody.UserID req)).
  set (count := usageCount s (Coupon.ID m) (handlers.ApplicableRequestBody.UserID req)) in *.
  destruct (String.eqb (Coupon.UsageType m) "one_time" && (1 <=? count)) eqn:H1.
  { apply one_time_gate in H1. tauto. }
  destruct ((0 <? Coupon.MaxUsagePerUser m) && (Coupon.MaxUsagePerUser m <=? count)) eqn:H2.
  { apply limit_gate in H2. lia. }
  rewrite !Hquiet. reflexivity.
Qed.

(** FLAT50 validates for u1 and is not listed for u1. *)
Lemma unlimited_coupon_validates_unlisted_witness :
  ValidationResponse.IsValid (resp (ValidateCoupon (calm 15) shop (order "FLAT50" [itemA])))
  = true
  /\ "FLAT50" ∉ handlers.applicableCodes (still 15) shop (cartOf [itemA]).
Proof.
  apply (unlimited_coupon_validates_unlisted (still 15) (calm 15) shop (cartOf [itemA])
           (order "FLAT50" [itemA]) flat50).
  - apply map_empty_subseteq.
  - reflexivity.
  - reflexivity.
  - reflexivity.
  - vm_compute. discriminate.
  - vm_compute. intros [_ H]. apply H. reflexivity.
  - reflexivity.
  - intros []; reflexivity.
Defined.




(** A string without the separator is one piece. *)
Lemma Split_lacks (sep : Ascii.ascii) (a : string) :
  lacks sep a = true -> Split a sep = [a].
Proof.
  induction a as [|c a IH]; cbn [lacks Split]; [reflexivity|].
  destruct (Ascii.eqb c sep); [discriminate|]. cbn [negb andb]. intros H.
  rewrite IH by exact H. reflexivity.
Qed.

(** The first piece ends at the first separator. *)
Lemma Split_app (sep : Ascii.ascii) (a b : string) :
  lacks sep a = true -> Split (a ++ String sep b) sep = a :: Split b sep.
Proof.
  induction a as [|c a IH].
  - intros _. change (Split (String sep b) sep = "" :: Split b sep).
    cbn [Split]. rewrite Ascii.eqb_refl. reflexivity.
  - change (String c a +:+ String sep b) with (String c (a +:+ String sep b)).
    cbn [lacks Split].
    destruct (Ascii.eqb c sep); [discriminate|]. cbn [negb andb]. intros H.
    rewrite IH by exact H. reflexivity.
Qed.

(** [lacks] over a concatenation. *)
Lemma lacks_app (sep : Ascii.ascii) (a b : string) :
  lacks sep (a ++ b) = lacks sep a && lacks sep b.
Proof.
  induction a as [|c a IH]; [reflexivity|].
  change (String c a +:+ b) with (String c (a +:+ b)).
  cbn [lacks]. rewrite IH. apply andb_assoc.
Qed.

(** A part with plain fields splits into its four fields and holds no comma. *)
Lemma Split_partOf (q : string * string * string * string) :
  plain q = true ->
  Split (partOf q) separators.bar = [q.1.1.1; q.1.1.2; q.1.2; q.2]
  /\ lacks separators.comma (partOf q) = true.
Proof.
  destruct q as [[[f0 f1] f2] f3]. unfold plain, partOf. cbn [forallb]. intros H.
  rewrite !andb_true_iff in H.
  destruct H as ([C0 B0] & [C1 B1] & [C2 B2] & [C3 B3] & _).
  cbn [String.concat fst snd].
  change (f0 ++ "|" ++ f1 ++ "|" ++ f2 ++ "|" ++ f3)%string
    with (f0 ++ String separators.bar (f1 ++ String separators.bar
            (f2 ++ String separators.bar f3)))%string.
  split.
  - rewrite !Split_app by assumption. rewrite Split_lacks by assumption. reflexivity.
  - rewrite !lacks_app. cbn. rewrite !lacks_app. cbn. rewrite lacks_app. cbn.
    rewrite C0, C1, C2, C3. reflexivity.
Qed.

(** X18: the query parameter items, written as parts id|category|price|qty
    joined by commas, is read back item by item, in order: the id and the
    category are the fields as written and the price and the quantity are
    what ParseFloat and Atoi return for theirs, errors dropped. This holds
    when no field holds a comma or a bar. *)
Theorem parseItems_wellformed (lenv : ListEnv)
    (quads : list (string * string * string * string)) :
  forallb plain quads = true ->
  handlers.parseItems lenv (String.concat "," (map partOf quads))
  = map (itemOf lenv) quads.
Proof.
  unfold handlers.parseItems.
  induction quads as [|q quads IH]; intros Hplain; [reflexivity|].
  cbn [forallb] in Hplain. apply andb_true_iff in Hplain as [Hq Hquads].
  destruct (Split_partOf q Hq) as [Hbar Hcomma].
  assert (Hhead : match Split (partOf q) separators.bar with
                  | f0 :: f1 :: f2 :: f3 :: _ =>
                      [{| CartItem.ID := f0; CartItem.Category := f1;
                          CartItem.Price := fst (parseFloat lenv f2);
                          CartItem.Qty := fst (atoi lenv f3) |}]
                  | _ => []
                  end = [itemOf lenv q]).
  { rewrite Hbar. destruct q as [[[f0 f1] f2] f3]. reflexivity. }
  destruct quads as [|q' quads].
  - cbn [map String.concat]. rewrite Split_lacks by exact Hcomma.
    cbn [flat_map]. rewrite Hhead. reflexivity.
  - change (String.concat "," (map partOf (q :: q' :: quads)))
      with (partOf q ++ String separators.comma
              (String.concat "," (map partOf (q' :: quads))))%string.
    rewrite Split_app by exact Hcomma. cbn [flat_map]. rewrite Hhead.
    rewrite (IH Hquads). reflexivity.
Qed.

(** Two parts give two items. *)
Lemma parseItems_wellformed_witness :
  handlers.parseItems (still 15) "a|pills|100|2,b|syrups|30|1"
  = [itemOf (still 15) ("a", "pills", "100", "2");
     itemOf (still 15) ("b", "syrups", "30", "1")].
Proof.
  apply (parseItems_wellformed (still 15)
           [("a", "pills", "100", "2"); ("b", "syrups", "30", "1")]).
  reflexivity.
Defined.

(** ** The handler of POST /admin/coupons *)

(** The item loop, when it succeeds, appends the ids to the coupon's items. *)
Lemma insertItems_some (cenv : CreateEnv) (code : string) (mids : list string) :
  forall (i : nat) (tx tx' : gmap string CouponMeta.t) (m : CouponMeta.t),
    tx !! code = Some m ->
    handlers.insertItems cenv code i mids tx = Some tx' ->
    tx' = <[code := withItems m mids []]> tx.
Proof.
  induction mids as [|mid mids IH]; intros i tx tx' m Hm H; cbn in H.
  - injection H as <-. unfold withItems. rewrite !app_nil_r.
    destruct m as [c its cats]. cbn. symmetry. apply insert_id. exact Hm.
  - destruct (dbError cenv (CreateInsertItem i)); [discriminate|].
    eapply IH in H; [|rewrite lookup_alter_eq, Hm; reflexivity].
    rewrite H. unfold withItems. cbn. rewrite app_nil_r, <- app_assoc. cbn.
    apply map_eq. intros k. destruct (decide (k = code)) as [->|Hk].
    + rewrite !lookup_insert_eq. reflexivity.
    + rewrite !lookup_insert_ne by congruence. rewrite lookup_alter_ne by congruence.
      reflexivity.
Qed.

(** The category loop, when it succeeds, appends the categories. *)
Lemma insertCategories_some (cenv : CreateEnv) (code : string) (cats : list string) :
  forall (i : nat) (tx tx' : gmap string CouponMeta.t) (m : CouponMeta.t),
    tx !! code = Some m ->
    handlers.insertCategories cenv code i cats tx = Some tx' ->
    tx' = <[code := withItems m [] cats]> tx.
Proof.
  induction cats as [|cat cats IH]; intros i tx tx' m Hm H; cbn in H.
  - injection H as <-. unfold withItems. rewrite !app_nil_r.
    destruct m as [c its cs]. cbn. symmetry. apply insert_id. exact Hm.
  - destruct (dbError cenv (CreateInsertCategory i)); [discriminate|].
    eapply IH in H; [|rewrite lookup_alter_eq, Hm; reflexivity].
    rewrite H. unfold withItems. cbn. rewrite app_nil_r, <- app_assoc. cbn.
    apply map_eq. intros k. destruct (decide (k = code)) as [->|Hk].
    + rewrite !lookup_insert_eq. reflexivity.
    + rewrite !lookup_insert_ne by congruence. rewrite lookup_alter_ne by congruence.
      reflexivity.
Qed.

(** Without a failing statement the item loop succeeds. *)
Lemma insertItems_quiet (cenv : CreateEnv) (code : string) (mids : list string) :
  (forall st, dbError cenv st = false) ->
  forall i tx, is_Some (handlers.insertItems cenv code i mids tx).
Proof.
  intros Hq. induction mids as [|mid mids IH]; intros i tx; cbn; [eauto|].
  rewrite Hq. apply IH.
Qed.

(** Without a failing statement the category loop succeeds. *)
Lemma insertCategories_quiet (cenv : CreateEnv) (code : string) (cats : list string) :
  (forall st, dbError cenv st = false) ->
  forall i tx, is_Some (handlers.insertCategories cenv code i cats tx).
Proof.
  intros Hq. induction cats as [|cat cats IH]; intros i tx; cbn; [eauto|].
  rewrite Hq. apply IH.
Qed.

(** What a successful INSERT into coupons stands for. *)
Lemma insertCoupon_some (cenv : CreateEnv) (tx tx' : gmap string CouponMeta.t)
    (req : handlers.CreateCouponRequest.t) (expiry couponID : Z)
    (validFrom validTo : option Z) :
  handlers.insertCoupon cenv tx req expiry validFrom validTo = Some (tx', couponID) ->
  tx !! handlers.CreateCouponRequest.CouponCode req = None
  /\ handlers.checks req = true
  /\ couponID = nextID cenv
  /\ tx' = <[handlers.CreateCouponRequest.CouponCode req :=
               {| CouponMeta.Coupon :=
                    CouponMeta.Coupon (createdCoupon cenv req expiry validFrom validTo);
                  CouponMeta.ApplicableItems := [];
                  CouponMeta.ApplicableCategories := [] |}]> tx.
Proof.
  unfold handlers.insertCoupon. intros H.
  destruct (dbError cenv CreateInsertCoupon); [discriminate|].
  case_bool_decide as Hk; [discriminate|].
  destruct (handlers.checks req); [|discriminate]. cbn in H. injection H as <- <-.
  split; [apply eq_None_not_Some; exact Hk|]. auto.
Qed.

(** What a 201 of CreateCoupon stands for. *)
Lemma CreateCoupon_created (cenv : CreateEnv) (s : CouponService)
    (decoded : option handlers.CreateCouponRequest.t) :
  status (snd (handlers.CreateCoupon cenv s decoded)) = 201 ->
  exists req expiry validFrom validTo,
    decoded = Some req
    /\ handlers.CreateCouponRequest.CouponCode req <> ""
    /\ PrimFloat.leb (handlers.CreateCouponRequest.DiscountValue req) 0 = false
    /\ parseTime cenv (handlers.CreateCouponRequest.ExpiryDate req) = Some expiry
    /\ handlers.parseTimeOrEmpty cenv (handlers.CreateCouponRequest.ValidFrom req) = Ok validFrom
    /\ handlers.parseTimeOrEmpty cenv (handlers.CreateCouponRequest.ValidTo req) = Ok validTo
    /\ coupons s !! handlers.CreateCouponRequest.CouponCode req = None
    /\ handlers.checks req = true
    /\ handlers.CreateCoupon cenv s decoded
       = ({| coupons := <[handlers.CreateCouponRequest.CouponCode req :=
                            createdCoupon cenv req expiry validFrom validTo]> (coupons s);
             coupon_usage := coupon_usage s; cache := cache s |},
          {| status := 201;
             body := {["message" := JString "coupon_created";
                       "coupon_id" := JInt (nextID cenv)]} |}).
Proof.
  unfold handlers.CreateCoupon. destruct decoded as [req|]; [|discriminate].
  destruct (String.eqb (handlers.CreateCouponRequest.CouponCode req) "") eqn:Hcode; [discriminate|].
  destruct (PrimFloat.leb (handlers.CreateCouponRequest.DiscountValue req) 0) eqn:Hval;
      [discriminate|].
  cbn [orb].
  destruct (parseTime cenv (handlers.CreateCouponRequest.ExpiryDate req)) as [expiry|] eqn:Hexp;
    [|discriminate].
  destruct (handlers.parseTimeOrEmpty cenv (handlers.CreateCouponRequest.ValidFrom req)) as
      [validFrom|] eqn:Hfrom;
    [|discriminate].
  destruct (handlers.parseTimeOrEmpty cenv (handlers.CreateCouponRequest.ValidTo req)) as
      [validTo|] eqn:Hto;
    [|discriminate].
  destruct (dbError cenv CreateBeginTx); [discriminate|].
  destruct (handlers.insertCoupon cenv (coupons s) req expiry validFrom validTo)
    as [[tx couponID]|] eqn:Hins; [|discriminate].
  destruct (handlers.insertItems cenv (handlers.CreateCouponRequest.CouponCode req) 0
      (handlers.CreateCouponRequest.Items req) tx)
    as [tx1|] eqn:Hitems; [|discriminate].
  destruct (handlers.insertCategories cenv (handlers.CreateCouponRequest.CouponCode req) 0
              (handlers.CreateCouponRequest.Categories req) tx1) as [tx2|] eqn:Hcats;
                  [|discriminate].
  destruct (dbError cenv CreateCommit); [discriminate|]. intros _.
  apply insertCoupon_some in Hins as (Hfresh & Hchecks & -> & ->).
  eapply insertItems_some in Hitems; [|apply lookup_insert_eq].
  subst tx1.
  eapply insertCategories_some in Hcats; [|apply lookup_insert_eq].
  subst tx2.
  exists req, expiry, validFrom, validTo.
  apply String.eqb_neq in Hcode.
  repeat (split; [first [assumption | reflexivity]|]).
  rewrite !insert_insert_eq. unfold withItems, createdCoupon. cbn.
  rewrite !app_nil_r. reflexivity.
Qed.

(** Every other answer of CreateCoupon is an error and leaves the store. *)
Lemma CreateCoupon_failed (cenv : CreateEnv) (s : CouponService)
    (decoded : option handlers.CreateCouponRequest.t) :
  status (snd (handlers.CreateCoupon cenv s decoded)) = 201
  \/ exists code msg, (code = 400 \/ code = 500)
       /\ handlers.CreateCoupon cenv s decoded = (s, handlers.writeError code msg).
Proof.
  unfold handlers.CreateCoupon.
  repeat case_match; subst; cbn; eauto 8.
Qed.

(** X19: CreateCoupon answers 201, 400 or 500. Unless it answers 201 the store
    is unchanged, whatever statement of the transaction failed, and the body
    is an error object. When it answers 201 the code was not in the table, the
    table gains exactly the coupon of that code, with the id the body
    reports, the request's max_usage_per_user, items and categories, and the
    usage rows and the service's cache are unchanged. *)
Theorem CreateCoupon_atomic (cenv : CreateEnv) (s : CouponService)
    (decoded : option handlers.CreateCouponRequest.t) :
  let out := handlers.CreateCoupon cenv s decoded in
  (status (snd out) = 201 \/ status (snd out) = 400 \/ status (snd out) = 500)
  /\ (status (snd out) <> 201 ->
      fst out = s /\ exists msg, body (snd out) = {["error" := JString msg]})
  /\ (status (snd out) = 201 ->
      exists (req : handlers.CreateCouponRequest.t) (m : CouponMeta.t),
        decoded = Some req
        /\ coupons s !! handlers.CreateCouponRequest.CouponCode req = None
        /\ coupons (fst out) = <[handlers.CreateCouponRequest.CouponCode req := m]> (coupons s)
        /\ coupon_usage (fst out) = coupon_usage s
        /\ cache (fst out) = cache s
        /\ Coupon.ID m = nextID cenv
        /\ Coupon.CouponCode m = handlers.CreateCouponRequest.CouponCode req
        /\ Coupon.MaxUsagePerUser m = handlers.CreateCouponRequest.MaxUsagePerUser req
        /\ CouponMeta.ApplicableItems m = handlers.CreateCouponRequest.Items req
        /\ CouponMeta.ApplicableCategories m = handlers.CreateCouponRequest.Categories req
        /\ body (snd out) !! "coupon_id" = Some (JInt (Coupon.ID m))).
Proof.
  intros out. subst out.
  destruct (CreateCoupon_failed cenv s decoded) as [Hok|(code & msg & Hcode & ->)].
  - split; [auto|]. split; [congruence|]. intros _.
    destruct (CreateCoupon_created cenv s decoded Hok)
      as (req & expiry & validFrom & validTo & -> & _ & _ & _ & _ & _ & Hfresh & _ & ->).
    exists req, (createdCoupon cenv req expiry validFrom validTo). cbn.
    repeat (split; [assumption || reflexivity|]). reflexivity.
  - cbn. split; [tauto|]. split; [eauto|]. intros E. destruct Hcode; subst; discriminate.
Qed.

(** X20: for a decoded body CreateCoupon answers 400 exactly when the code is
    empty, discount_value <= 0, expiry_date does not parse, or a non-blank
    valid_from or valid_to does not parse. Past these checks and the start of
    the transaction, a code that is taken, a violated CHECK of the schema or a
    failing INSERT answers 500 failed_create_coupon; and when no statement
    fails, the code is free and the CHECKs hold, the answer is 201. *)
Theorem CreateCoupon_answers (cenv : CreateEnv) (s : CouponService)
    (req : handlers.CreateCouponRequest.t) :
  let out := handlers.CreateCoupon cenv s (Some req) in
  let malformed :=
    handlers.CreateCouponRequest.CouponCode req = ""
    \/ PrimFloat.leb (handlers.CreateCouponRequest.DiscountValue req) 0 = true
    \/ parseTime cenv (handlers.CreateCouponRequest.ExpiryDate req) = None
    \/ handlers.parseTimeOrEmpty cenv (handlers.CreateCouponRequest.ValidFrom req) = Err
    \/ handlers.parseTimeOrEmpty cenv (handlers.CreateCouponRequest.ValidTo req) = Err in
  (status (snd out) = 400 <-> malformed)
  /\ (~ malformed -> dbError cenv CreateBeginTx = false ->
      dbError cenv CreateInsertCoupon = true
      \/ is_Some (coupons s !! handlers.CreateCouponRequest.CouponCode req)
      \/ handlers.checks req = false ->
      snd out = handlers.writeError 500 "failed_create_coupon")
  /\ (~ malformed -> (forall st, dbError cenv st = false) ->
      coupons s !! handlers.CreateCouponRequest.CouponCode req = None -> handlers.checks req =
          true ->
      status (snd out) = 201).
Proof.
  intros out malformed. subst out malformed. unfold handlers.CreateCoupon.
  destruct (String.eqb_spec (handlers.CreateCouponRequest.CouponCode req) "") as [Hcode|Hcode].
  { cbn. split; [tauto|]. split; tauto. }
  destruct (PrimFloat.leb (handlers.CreateCouponRequest.DiscountValue req) 0) eqn:Hval.
  { cbn. split; [tauto|]. split; tauto. }
  cbn [orb].
  destruct (parseTime cenv (handlers.CreateCouponRequest.ExpiryDate req)) as [expiry|] eqn:Hexp.
  2:{ cbn. split; [tauto|]. split; tauto. }
  destruct (handlers.parseTimeOrEmpty cenv (handlers.CreateCouponRequest.ValidFrom req)) as
      [validFrom|] eqn:Hfrom.
  2:{ cbn. split; [tauto|]. split; tauto. }
  destruct (handlers.parseTimeOrEmpty cenv (handlers.CreateCouponRequest.ValidTo req)) as
      [validTo|] eqn:Hto.
  2:{ cbn. split; [tauto|]. split; tauto. }
  assert (Hwell : ~ (handlers.CreateCouponRequest.CouponCode req = "" \/ false = true \/ Some
      expiry = None
                     \/ Ok validFrom = Err \/ Ok validTo = Err))
    by (intros [?|[?|[?|[?|?]]]]; congruence).
  split; [|split].
  - split; [|tauto]. intros H. exfalso.
    destruct (CreateCoupon_failed cenv s (Some req)) as [Hok|(code & msg & Hc & E)];
      unfold handlers.CreateCoupon in *;
      rewrite ?Hval, ?Hexp, ?Hfrom, ?Hto in *;
      destruct (String.eqb (handlers.CreateCouponRequest.CouponCode req) "") eqn:Hc0;
      try (apply String.eqb_eq in Hc0; congruence); cbn [orb] in *.
    + congruence.
    + destruct (dbError cenv CreateBeginTx); [discriminate|].
      destruct (handlers.insertCoupon cenv (coupons s) req expiry validFrom validTo)
        as [[tx couponID]|]; [|discriminate].
      destruct (handlers.insertItems cenv (handlers.CreateCouponRequest.CouponCode req) 0
          (handlers.CreateCouponRequest.Items req) tx)
        as [tx1|]; [|discriminate].
      destruct (handlers.insertCategories cenv (handlers.CreateCouponRequest.CouponCode req) 0
                  (handlers.CreateCouponRequest.Categories req) tx1) as [tx2|]; [|discriminate].
      destruct (dbError cenv CreateCommit); discriminate.
  - intros _ Hbegin Hwhy. rewrite Hbegin.
    assert (Hins : handlers.insertCoupon cenv (coupons s) req expiry validFrom validTo = None).
    { unfold handlers.insertCoupon.
      destruct Hwhy as [->|[Hk| ->]]; [reflexivity| |].
      - destruct (dbError cenv CreateInsertCoupon); [reflexivity|].
        rewrite bool_decide_eq_true_2 by exact Hk. reflexivity.
      - destruct (dbError cenv CreateInsertCoupon); [reflexivity|].
        case_bool_decide; reflexivity. }
    rewrite Hins. reflexivity.
  - intros _ Hquiet Hfresh Hchecks. rewrite !Hquiet.
    unfold handlers.insertCoupon. rewrite Hquiet, Hchecks.
    rewrite bool_decide_eq_false_2 by (rewrite Hfresh; apply is_Some_None).
    cbn [negb].
    match goal with
    | |- context [handlers.insertItems cenv ?c ?i ?l ?tx] =>
        destruct (insertItems_quiet cenv c l Hquiet i tx) as [tx1 ->]
    end.
    match goal with
    | |- context [handlers.insertCategories cenv ?c ?i ?l ?tx] =>
        destruct (insertCategories_quiet cenv c l Hquiet i tx) as [tx2 ->]
    end.
    reflexivity.
Qed.

(** X21: after CreateCoupon answered 201, ValidateCoupon for the new code never
    answers coupon_not_found when the repository call succeeds. CreateCoupon
    does not check max_usage_per_user: when the request's value is 0 or less,
    as when the field is left out of the body, GetApplicableCoupons never
    lists the new coupon for a user without a usage row. *)
Theorem created_coupon_in_use (cenv : CreateEnv) (s : CouponService)
    (req : handlers.CreateCouponRequest.t) :
  let s' := fst (handlers.CreateCoupon cenv s (Some req)) in
  status (snd (handlers.CreateCoupon cenv s (Some req))) = 201 ->
  (forall env vreq,
     ValidationRequest.CouponCode vreq = handlers.CreateCouponRequest.CouponCode req ->
     fails env AtGetCouponMeta = false ->
     ValidationResponse.Message (resp (ValidateCoupon env s' vreq)) <> "coupon_not_found")
  /\ (forall lenv lreq,
        handlers.CreateCouponRequest.MaxUsagePerUser req <= 0 ->
        coupon_usage s !! (nextID cenv, handlers.ApplicableRequestBody.UserID lreq) = None ->
        handlers.CreateCouponRequest.CouponCode req ∉ handlers.applicableCodes lenv s' lreq).
Proof.
  intros s' Hok. subst s'.
  destruct (CreateCoupon_created cenv s (Some req) Hok)
    as (req' & expiry & validFrom & validTo & [= <-] & _ & _ & _ & _ & _ & Hfresh & _ & ->).
  cbn [fst]. split.
  - intros env vreq Hcode Hrepo Hmsg.
    apply ValidateCoupon_not_found in Hmsg as (_ & _ & Hnone).
    cbn [coupons] in Hnone. rewrite Hcode, lookup_insert_eq in Hnone. discriminate.
  - intros lenv lreq Hmax Hrow Hin.
    apply applicableCodes_elem in Hin as (m & Hm & Hkeep).
    apply (keeps_rowOf _ _ _ _ _ _ Hm) in Hkeep as (_ & _ & _ & _ & _ & Hlt & _).
    cbn [coupons] in Hm. rewrite lookup_insert_eq in Hm. injection Hm as <-.
    unfold usageCount in Hlt. cbn in Hlt. rewrite Hrow in Hlt. cbn in Hlt. lia.
Qed.

(** NEW5, created without max_usage_per_user, is not listed. *)
Lemma created_coupon_in_use_witness :
  status (snd (handlers.CreateCoupon mint shop (Some newCoupon))) = 201
  /\ ("NEW5" ∉ handlers.applicableCodes (still 15)
                 (fst (handlers.CreateCoupon mint shop (Some newCoupon))) (cartOf [itemA])).
Proof.
  split; [vm_compute; reflexivity|].
  refine (proj2 (created_coupon_in_use mint shop newCoupon _) (still 15) (cartOf [itemA]) _ _).
  - vm_compute. reflexivity.
  - vm_compute. discriminate.
  - reflexivity.
Defined.

(** X22: CreateCoupon keeps the store consistent (the cache holds only coupons
    of the table, and coupons of the table with one id are one coupon) when
    the id the sequence gives is not the id of a coupon of the table. *)
Theorem CreateCoupon_consistent (cenv : CreateEnv) (s : CouponService)
    (decoded : option handlers.CreateCouponRequest.t) :
  consistent s ->
  (forall code (m : CouponMeta.t), coupons s !! code = Some m -> Coupon.ID m <> nextID cenv) ->
  consistent (fst (handlers.CreateCoupon cenv s decoded)).
Proof.
  intros [Hsub Huniq] Hfreshid.
  destruct (CreateCoupon_failed cenv s decoded) as [Hok|(code & msg & _ & ->)];
    [|split; assumption].
  destruct (CreateCoupon_created cenv s decoded Hok)
    as (req & expiry & validFrom & validTo & -> & _ & _ & _ & _ & _ & Hfresh & _ & ->).
  cbn [fst]. split; cbn [cache coupons].
  - etrans; [exact Hsub|]. apply insert_subseteq. exact Hfresh.
  - intros code1 code2 m1 m2 H1 H2 Hid.
    destruct (decide (code1 = handlers.CreateCouponRequest.CouponCode req)) as [->|Hn1];
      destruct (decide (code2 = handlers.CreateCouponRequest.CouponCode req)) as [->|Hn2];
      try rewrite lookup_insert_eq in H1; try rewrite lookup_insert_eq in H2;
      try rewrite lookup_insert_ne in H1 by congruence;
      try rewrite lookup_insert_ne in H2 by congruence.
    + congruence.
    + injection H1 as <-. cbn in Hid. symmetry in Hid.
      destruct (Hfreshid _ _ H2 Hid).
    + injection H2 as <-. cbn in Hid. destruct (Hfreshid _ _ H1 Hid).
    + eapply Huniq; eassumption.
Qed.

(** The shop stays consistent when NEW5 is created with id 9. *)
Lemma CreateCoupon_consistent_witness :
  consistent (fst (handlers.CreateCoupon mint shop (Some newCoupon))).
Proof.
  apply (CreateCoupon_consistent mint shop (Some newCoupon) shop_consistent).
  intros code m H. unfold shop in H. cbn [coupons] in H.
  apply lookup_insert_Some in H as [[_ <-] | [_ H]];
    [|apply lookup_singleton_Some in H as [_ <-]]; discriminate.
Defined.

(** ** More of the goroutines of step 3 *)

(** One item: fed, computed, collected, and the caller goes on with 20. *)
Lemma itemChecks_covers_goroutines_witness :
  exists p picks kept,
    fireAll save10 [Feed 0; Emit 0; CloseIn; LeaveRange 0; CloseCollectDone; CallerCollected]
      (spawn [itemA]) = Some p
    /\ itemChecks (envOf p picks kept) save10 [itemA] = Some 20%float.
Proof.
  destruct (fireAll save10
              [Feed 0; Emit 0; CloseIn; LeaveRange 0; CloseCollectDone; CallerCollected]
              (spawn [itemA])) as [p|] eqn:Hp; [|vm_compute in Hp; discriminate].
  assert (Hcaller : caller p = Collected 20%float)
    by (vm_compute in Hp; injection Hp as <-; reflexivity).
  destruct (itemChecks_covers_goroutines save10 [itemA] _ p Hp) as (picks & kept & _ & Hi).
  { rewrite Hcaller. discriminate. }
  exists p, picks, kept. split; [reflexivity|]. rewrite Hi, Hcaller. reflexivity.
Defined.

(** The workers are steady when they are spawned. *)
Lemma steady_spawn (items : list CartItem.t) : steady (spawn items).
Proof.
  unfold steady, spawn. cbn. split.
  - rewrite workerCount_eq. destruct (Nat.eqb (length items) 0) eqn:E; [discriminate|].
    apply Nat.eqb_neq in E. destruct (length items) as [|n]; [lia|].
    destruct n as [|[|[|n]]]; discriminate.
  - intros _. apply Forall_forall. intros w Hw.
    apply elem_of_replicate in Hw as [-> _]. discriminate.
Qed.

(** A step that leaves the context open keeps the workers steady. *)
Lemma fire_steady (couponMeta : CouponMeta.t) (l : Label) (p p' : Pipe) :
  fire couponMeta l p = Some p' -> ctxClosed p' = false -> steady p -> steady p'.
Proof.
  unfold steady. intros Hfire Hopen [Hne Hall].
  assert (Hins : forall i w ws, ws <> [] -> <[i := w]> ws <> ([] : list Worker)).
  { intros i w ws H E. apply (f_equal length) in E. rewrite length_insert in E.
    destruct ws; [congruence|discriminate]. }
  destruct l; cbn in Hfire;
    repeat match type of Hfire with
      | context [match ?x with _ => _ end] =>
          let E := fresh "E" in destruct x eqn:E; try discriminate
      end;
    injection Hfire as <-; cbn in *; try discriminate.
  all: try (split; [auto|]).
  all: try (intros Hp; specialize (Hall ltac:(congruence))).
  all: try solve [intros; congruence].
  all: try solve [apply Forall_insert; [assumption|discriminate]].
  all: try solve [exfalso; apply Hp; reflexivity].
  all: try assumption.
Qed.

(** What every step with an open context keeps, a run that ends with an open
    context keeps: a context never reopens. *)
Lemma fireAll_open (couponMeta : CouponMeta.t) (ls : list Label) (P : Pipe -> Prop) :
  (forall l p p', fire couponMeta l p = Some p' -> ctxClosed p' = false -> P p -> P p') ->
  forall p p', fireAll couponMeta ls p = Some p' -> ctxClosed p' = false -> P p -> P p'.
Proof.
  intros Hstep. induction ls as [|l ls IH]; intros p p' Hrun Hopen HP; cbn in Hrun.
  { injection Hrun as <-. exact HP. }
  destruct (fire couponMeta l p) as [q|] eqn:Hfire; [|discriminate].
  apply (IH q p' Hrun Hopen). apply (Hstep l p q Hfire); [|exact HP].
  destruct (ctxClosed q) eqn:Hq; [|reflexivity].
  assert (Hc : forall ls q q', fireAll couponMeta ls q = Some q' ->
                 ctxClosed q = true -> ctxClosed q' = true).
  { clear. induction ls as [|l ls IH]; intros q q' H Hq; cbn in H.
    - injection H as <-. exact Hq.
    - destruct (fire couponMeta l q) as [q1|] eqn:Hf; [|discriminate].
      apply (IH q1 q' H). eapply fire_ctxClosed; eassumption. }
  rewrite (Hc ls q p' Hrun Hq) in Hopen. discriminate.
Qed.

(** A sending worker holds a result. *)
Lemma inflight_sending (ws : list Worker) (i : nat) (it : CartItem.t) :
  ws !! i = Some (Sending it) -> inflight ws <> [].
Proof.
  revert i. induction ws as [|w ws IH]; intros i H; [discriminate|].
  destruct i as [|i]; cbn in *.
  - injection H as ->. cbn. discriminate.
  - unfold inflight in *. cbn. intros E. apply app_eq_nil in E as [_ E].
    exact (IH i H E).
Qed.

(** A worker that has not returned is receiving or sending. *)
Lemma not_all_exited (ws : list Worker) :
  forallb workerExited ws = false ->
  exists i, ws !! i = Some Receiving \/ exists it, ws !! i = Some (Sending it).
Proof.
  induction ws as [|w ws IH]; cbn; [discriminate|].
  destruct w; cbn.
  - intros _. exists 0%nat. auto.
  - intros _. exists 0%nat. eauto.
  - intros H. destruct (IH H) as [i Hi]. exists (S i). exact Hi.
Qed.

(** Workers that have returned hold nothing. *)
Lemma all_exited_inflight (ws : list Worker) :
  forallb workerExited ws = true -> inflight ws = [].
Proof.
  induction ws as [|w ws IH]; cbn; [reflexivity|].
  destruct w; cbn; try discriminate. exact IH.
Qed.

(** X24: no deadlock. In every state the goroutines of step 3 reach while the
    context stays open, and in which some goroutine has not returned, a step
    other than a cancellation is enabled, and it leaves the context open. *)
Theorem goroutines_progress (couponMeta : CouponMeta.t) (items : list CartItem.t)
    (ls : list Label) (p : Pipe) :
  fireAll couponMeta ls (spawn items) = Some p ->
  ctxClosed p = false -> finished p = false ->
  exists l p', l <> Cancel /\ fire couponMeta l p = Some p' /\ ctxClosed p' = false.
Proof.
  intros Hrun Hopen Hnot.
  assert (Hsteady : steady p).
  { apply (fireAll_open couponMeta ls steady (fire_steady couponMeta) _ _ Hrun Hopen).
    apply steady_spawn. }
  assert (Hcoll : collecting couponMeta items p).
  { apply (fireAll_collecting couponMeta items ls _ _ Hrun Hopen), collecting_spawn. }
  assert (Htimeout : caller p <> TimedOut).
  { intros E. rewrite (goroutines_timeout couponMeta ls _ _ Hrun) in Hopen;
      [discriminate| discriminate | exact E]. }
  destruct Hcoll as (got & _ & _ & Hcount & Hcaller).
  destruct Hsteady as [Hne Hall].
  assert (Hemit : forall i it, workers p !! i = Some (Sending it) ->
            exists p', fire couponMeta (Emit i) p = Some p' /\ ctxClosed p' = false).
  { intros i it Hi. cbn. rewrite Hi.
    pose proof (inflight_sending _ _ _ Hi) as Hin.
    destruct (collector p) as [n total|total].
    - destruct n as [|n].
      + destruct (inflight (workers p)); [congruence|discriminate].
      + eexists. split; [reflexivity|]. exact Hopen.
    - destruct Hcount as [E _]. congruence. }
  destruct (producer p) as [rest|] eqn:Hprod.
  - specialize (Hall ltac:(discriminate)).
    destruct rest as [|it rest].
    { exists CloseIn. eexists. cbn. rewrite Hprod.
      split; [discriminate|]. split; [reflexivity|]. exact Hopen. }
    destruct (workers p) as [|w ws] eqn:Hws; [congruence|].
    apply Forall_cons in Hall as [Hw _].
    destruct w as [|it'|]; [| |congruence].
    + exists (Feed 0). eexists. cbn. rewrite Hprod, Hws. cbn.
      split; [discriminate|]. split; [reflexivity|]. exact Hopen.
    + destruct (Hemit 0%nat it') as (p' & Hf & Ho); [reflexivity|].
      exists (Emit 0), p'. split; [discriminate|]. split; assumption.
  - destruct (forallb workerExited (workers p)) eqn:Hex.
    + apply all_exited_inflight in Hex as Hin.
      destruct (collector p) as [n total|total] eqn:Hc.
      * rewrite Hin in Hcount. cbn in Hcount. subst n.
        exists CloseCollectDone. eexists. cbn. rewrite Hc.
        split; [discriminate|]. split; [reflexivity|]. exact Hopen.
      * destruct (caller p) as [| |t] eqn:Hcal; [|congruence|].
        -- exists CallerCollected. eexists. cbn. rewrite Hcal, Hc.
           split; [discriminate|]. split; [reflexivity|]. exact Hopen.
        -- unfold finished in Hnot. rewrite Hprod, Hc, Hcal, Hex in Hnot. discriminate.
    + apply not_all_exited in Hex as [i [Hi|[it Hi]]].
      * exists (LeaveRange i). eexists. cbn. rewrite Hprod, Hi.
        split; [discriminate|]. split; [reflexivity|]. exact Hopen.
      * destruct (Hemit i it Hi) as (p' & Hf & Ho).
        exists (Emit i), p'. split; [discriminate|]. split; assumption.
Qed.

(** Right after the spawn a step is enabled. *)
Lemma goroutines_progress_witness :
  exists l p', l <> Cancel /\ fire save10 l (spawn [itemA]) = Some p'
               /\ ctxClosed p' = false.
Proof.
  exact (goroutines_progress save10 [itemA] [] (spawn [itemA]) eq_refl eq_refl eq_refl).
Defined.

(** Running two schedules one after the other. *)
Lemma fireAll_app (couponMeta : CouponMeta.t) (ls1 ls2 : list Label) :
  forall p, fireAll couponMeta (ls1 ++ ls2) p
            = match fireAll couponMeta ls1 p with
              | Some q => fireAll couponMeta ls2 q
              | None => None
              end.
Proof.
  induction ls1 as [|l ls1 IH]; intros p; cbn; [reflexivity|].
  destruct (fire couponMeta l p); [apply IH|reflexivity].
Qed.

(** X25: step 3 returns when the context stays open. From every state the
    goroutines reach with an open context there is a schedule without
    cancellation after which every goroutine has returned and the caller went
    on with the sum of the results of all items of the cart, in some order of
    arrival. *)
Theorem goroutines_complete (couponMeta : CouponMeta.t) (items : list CartItem.t)
    (ls : list Label) (p : Pipe) :
  fireAll couponMeta ls (spawn items) = Some p ->
  ctxClosed p = false ->
  exists ls' p' picks,
    fireAll couponMeta ls' p = Some p'
    /\ (Cancel ∉ ls')
    /\ finished p' = true
    /\ caller p' = Collected (collect (map (worker couponMeta) (arrival picks items))).
Proof.
  remember (fuel p) as n eqn:Hn. revert ls p Hn.
  induction n as [n IH] using lt_wf_ind. intros ls p Hn Hrun Hopen.
  destruct (finished p) eqn:Hfin.
  - assert (Hcal : exists total, caller p = Collected total).
    { unfold finished in Hfin.
      destruct (producer p), (collector p), (caller p) as [| |t] eqn:Hc;
        try discriminate; [|eauto].
      rewrite (goroutines_timeout couponMeta ls _ _ Hrun) in Hopen;
        [discriminate|discriminate|exact Hc]. }
    destruct Hcal as [total Hcal].
    destruct (goroutines_total _ _ _ _ _ Hrun Hopen Hcal) as [picks ->].
    exists [], p, picks. split; [reflexivity|]. split; [apply not_elem_of_nil|]. auto.
  - destruct (goroutines_progress _ _ _ _ Hrun Hopen Hfin) as (l & q & Hl & Hfire & Hq).
    assert (Hrun' : fireAll couponMeta (ls ++ [l]) (spawn items) = Some q).
    { rewrite fireAll_app, Hrun. cbn. rewrite Hfire. reflexivity. }
    pose proof (fire_fuel _ _ _ _ Hfire) as Hlt.
    destruct (IH (fuel q) ltac:(lia) (ls ++ [l]) q eq_refl Hrun' Hq)
      as (ls' & p' & picks & Hrest & Hnc & Hfin' & Hcal).
    exists (l :: ls'), p', picks. cbn. rewrite Hfire.
    split; [exact Hrest|]. split; [|auto].
    intros Hin. apply elem_of_cons in Hin as [E|Hin]; [congruence|contradiction].
Qed.

(** A cart of two items is collected. *)
Lemma goroutines_complete_witness :
  exists ls' p' picks,
    fireAll save10 ls' (spawn [itemA; itemB]) = Some p'
    /\ (Cancel ∉ ls')
    /\ finished p' = true
    /\ caller p' = Collected (collect (map (worker save10) (arrival picks [itemA; itemB]))).
Proof.
  exact (goroutines_complete save10 [itemA; itemB] [] (spawn [itemA; itemB])
           eq_refl eq_refl).
Defined.

(** A worker holds at most one result. *)
Lemma inflight_length (ws : list Worker) : (length (inflight ws) <= length ws)%nat.
Proof.
  induction ws as [|w ws IH]; cbn; [lia|].
  unfold inflight in *. cbn. rewrite length_app. destruct w; cbn; lia.
Qed.

(** A step neither adds nor removes a worker. *)
Lemma fire_workers_length (couponMeta : CouponMeta.t) (l : Label) (p p' : Pipe) :
  fire couponMeta l p = Some p' -> length (workers p') = length (workers p).
Proof.
  intros Hfire.
  destruct l; cbn in Hfire;
    repeat match type of Hfire with
      | context [match ?x with _ => _ end] => destruct x; try discriminate
      end;
    injection Hfire as <-; cbn; rewrite ?length_insert; reflexivity.
Qed.

(** X26: in every state the goroutines of step 3 reach, the number of workers
    is workerCount of the cart's length, at most 4, and the results computed
    and not yet collected are at most one per worker and at most one per cart
    item. *)
Theorem workers_bounded (couponMeta : CouponMeta.t) (items : list CartItem.t)
    (ls : list Label) :
  forall p, fireAll couponMeta ls (spawn items) = Some p ->
    length (workers p) = workerCount (length items)
    /\ (length (inflight (workers p)) <= workerCount (length items))%nat
    /\ (length (inflight (workers p)) <= length items)%nat
    /\ (workerCount (length items) <= 4)%nat.
Proof.
  intros p Hrun.
  assert (Hlen : length (workers p) = workerCount (length items)).
  { assert (H : forall ls q q', fireAll couponMeta ls q = Some q' ->
                  length (workers q') = length (workers q)).
    { clear. induction ls as [|l ls IH]; intros q q' H; cbn in H.
      - injection H as <-. reflexivity.
      - destruct (fire couponMeta l q) as [q1|] eqn:Hf; [|discriminate].
        rewrite (IH _ _ H). eapply fire_workers_length. exact Hf. }
    rewrite (H _ _ _ Hrun). cbn. apply length_replicate. }
  split; [exact Hlen|]. split; [rewrite <- Hlen; apply inflight_length|]. split.
  - pose proof (fireAll_collectingSome couponMeta items ls _ _ Hrun
                  (collectingSome_spawn couponMeta items)) as (got & _ & Hsub & _).
    apply submseteq_length in Hsub. rewrite !length_app in Hsub. lia.
  - rewrite workerCount_eq. destruct (Nat.eqb (length items) 0); lia.
Qed.

(** Two items, two workers. *)
Lemma workers_bounded_witness :
  (length (inflight (workers (spawn [itemA; itemB]))) <= workerCount 2)%nat.
Proof.
  exact (proj1 (proj2 (workers_bounded save10 [itemA; itemB] [] (spawn [itemA; itemB])
                         eq_refl))).
Defined.

(** X27: the collected total depends on the schedule. There is a coupon and a
    cart for which two complete runs of the goroutines, both with the context
    open, hand the caller different totals: float64 addition is not
    associative and the collector adds in order of arrival. *)
Theorem total_depends_on_schedule :
  exists (couponMeta : CouponMeta.t) (items : list CartItem.t) (ls1 ls2 : list Label)
         (p1 p2 : Pipe) (t1 t2 : float),
    fireAll couponMeta ls1 (spawn items) = Some p1
    /\ fireAll couponMeta ls2 (spawn items) = Some p2
    /\ ctxClosed p1 = false /\ ctxClosed p2 = false
    /\ finished p1 = true /\ finished p2 = true
    /\ caller p1 = Collected t1 /\ caller p2 = Collected t2
    /\ PrimFloat.ltb t2 t1 = true.
Proof.
  exists save10, pennies, inOrder, reversed.
  destruct (fireAll save10 inOrder (spawn pennies)) as [p1|] eqn:H1;
    [|vm_compute in H1; discriminate].
  destruct (fireAll save10 reversed (spawn pennies)) as [p2|] eqn:H2;
    [|vm_compute in H2; discriminate].
  vm_compute in H1, H2. injection H1 as <-. injection H2 as <-.
  do 2 eexists. do 2 eexists.
  repeat split; try reflexivity.
Qed.
